(** * Shape inference of fabricator-ai: text and sketch pipelines

    A shallow embedding of [text_processor.py] and of the detectors and the
    selection of [sketch_processor.py], with the properties of the shape
    records they build, and of the drawing that [dxf_generator.py] makes
    of a record.

    Conventions of the model.
    - Text is a [string]; the classes [\s], [\w], [\d] and [str.lower] are
      the ASCII ones, so the model is exact on ASCII text.
    - A Python [float] (and an [int] used as a number) is an exact number:
      the values read from the text are rationals ([Q]); the record fields,
      which involve [math.pi] and [math.sqrt], are reals ([R]).  Rounding
      and overflow are not modelled: a comparison at a threshold itself
      may come out otherwise on rounded numbers, and the properties that
      overflow would break bound the dimensions of the text.
    - A [dict] is a finite map ([gmap]) from field names to values.
    - [datetime.now().isoformat()] is an argument, [now].
    - OpenCV is not part of the program: a contour is given by what the
      OpenCV calls of the detectors return on it. *)

From Stdlib Require Import Reals QArith Qreals Lra Lia ZArith Ascii String List.
From stdpp Require Import gmap strings list fin_maps.

Local Open Scope string_scope.

(** ** Python exceptions and results *)

Inductive exn :=
| ValueError (msg : string)
| KeyError (key : string)
| TypeError (msg : string)
| ZeroDivisionError (msg : string)
| Exception (msg : string).

(** [str(e)] *)
Definition exn_str (e : exn) : string :=
  match e with
  | ValueError m | TypeError m | ZeroDivisionError m | Exception m => m
  | KeyError k => "'" ++ k ++ "'"
  end.

Inductive result (A : Type) :=
| Ok (a : A)
| Raise (e : exn).
Arguments Ok {A} a.
Arguments Raise {A} e.

Definition bind {A B} (m : result A) (f : A -> result B) : result B :=
  match m with
  | Ok a => f a
  | Raise e => Raise e
  end.

Notation "'let*' x ':=' m 'in' k" := (bind m (fun x => k))
  (at level 10, x name, m at level 100, k at level 200).

(** [try: m except Exception as e: h e] *)
Definition try_except {A} (m : result A) (h : exn -> result A) : result A :=
  match m with
  | Ok a => Ok a
  | Raise e => h e
  end.

(** ** Characters and strings *)

Definition code (c : ascii) : N := N_of_ascii c.

Definition in_range (lo hi : N) (c : ascii) : bool :=
  ((lo <=? code c) && (code c <=? hi))%N.

Definition is_digit (c : ascii) : bool := in_range 48 57 c.
Definition is_upper (c : ascii) : bool := in_range 65 90 c.
Definition is_lower (c : ascii) : bool := in_range 97 122 c.
Definition is_alpha (c : ascii) : bool := is_upper c || is_lower c.

(** [\w]: letters, digits and the underscore. *)
Definition is_word (c : ascii) : bool :=
  is_alpha c || is_digit c || (code c =? 95)%N.

(** [\s]: space, tab to carriage return, and the separators 28 to 31. *)
Definition is_space (c : ascii) : bool :=
  (code c =? 32)%N || in_range 9 13 c || in_range 28 31 c.

Definition lower_char (c : ascii) : ascii :=
  if is_upper c then ascii_of_N (code c + 32) else c.

(** [s.lower()] *)
Fixpoint lower (s : string) : string :=
  match s with
  | EmptyString => EmptyString
  | String c s' => String (lower_char c) (lower s')
  end.

Fixpoint prefixb (p s : string) : bool :=
  match p, s with
  | EmptyString, _ => true
  | String a p', String b s' => Ascii.eqb a b && prefixb p' s'
  | String _ _, EmptyString => false
  end.

(** [p in s] *)
Fixpoint contains (p s : string) : bool :=
  prefixb p s ||
  match s with
  | EmptyString => false
  | String _ s' => contains p s'
  end.

Fixpoint take (n : nat) (s : string) : string :=
  match n, s with
  | S n', String c s' => String c (take n' s')
  | _, _ => EmptyString
  end.

(** [s.strip()] with no argument: white space off both ends. *)
Fixpoint lstrip (s : string) : string :=
  match s with
  | String c s' => if is_space c then lstrip s' else s
  | EmptyString => EmptyString
  end.

Fixpoint rstrip (s : string) : string :=
  match s with
  | EmptyString => EmptyString
  | String c s' =>
      match rstrip s' with
      | EmptyString => if is_space c then EmptyString else String c EmptyString
      | t => String c t
      end
  end.

Definition strip (s : string) : string := rstrip (lstrip s).

(** ** Regular expressions, as the [re] module matches them

    A backtracking matcher: alternatives in order, greedy repetition, the
    first match from the left.  Only the constructs of the patterns of
    [text_processor.py] are present. *)

Module Re.

Inductive regex :=
| Eps
| Lit (c : ascii)
| Class (p : ascii -> bool)
| Boundary
| Seq (r1 r2 : regex)
| Alt (r1 r2 : regex)
| Star (r : regex)
| Group (n : nat) (r : regex).

Definition Plus (r : regex) : regex := Seq r (Star r).
Definition Opt (r : regex) : regex := Alt r Eps.

Fixpoint Str (s : string) : regex :=
  match s with
  | EmptyString => Eps
  | String c EmptyString => Lit c
  | String c s' => Seq (Lit c) (Str s')
  end.

(** [(?:w1|w2|...)] over literal words. *)
Fixpoint Words (ws : list string) : regex :=
  match ws with
  | [] => Eps
  | [w] => Str w
  | w :: ws' => Alt (Str w) (Words ws')
  end.

Definition OneOf (cs : string) : regex :=
  Class (fun c => contains (String c EmptyString) cs).

(** The position of a match attempt: the character before it, the text
    from it, and the groups captured so far (latest first). *)
Record mstate := MState {
  prev : option ascii;
  rest : string;
  caps : list (nat * string)
}.

Definition word_opt (o : option ascii) : bool :=
  match o with
  | Some c => is_word c
  | None => false
  end.

Definition next (s : string) : option ascii :=
  match s with
  | String c _ => Some c
  | EmptyString => None
  end.

(** [\b]: exactly one side of the position is a word character. *)
Definition at_boundary (st : mstate) : bool :=
  xorb (word_opt (prev st)) (word_opt (next (rest st))).

(** What was read between two positions of one text. *)
Definition consumed (from to : string) : string :=
  take (String.length from - String.length to) from.

Fixpoint rmatch {A : Type} (r : regex) (st : mstate)
    (k : mstate -> option A) {struct r} : option A :=
  match r with
  | Eps => k st
  | Lit c =>
      match rest st with
      | String c' s' =>
          if Ascii.eqb c c' then k (MState (Some c') s' (caps st)) else None
      | EmptyString => None
      end
  | Class p =>
      match rest st with
      | String c' s' =>
          if p c' then k (MState (Some c') s' (caps st)) else None
      | EmptyString => None
      end
  | Boundary => if at_boundary st then k st else None
  | Seq r1 r2 => rmatch r1 st (fun st' => rmatch r2 st' k)
  | Alt r1 r2 =>
      match rmatch r1 st k with
      | Some a => Some a
      | None => rmatch r2 st k
      end
  | Star r' =>
      (fix loop (fuel : nat) (st : mstate) {struct fuel} : option A :=
         match fuel with
         | O => k st
         | S fuel' =>
             match rmatch r' st (fun st' =>
                     if (String.length (rest st') <? String.length (rest st))%nat
                     then loop fuel' st' else None) with
             | Some a => Some a
             | None => k st
             end
         end) (String.length (rest st)) st
  | Group n r' =>
      rmatch r' st (fun st' =>
        k (MState (prev st') (rest st')
             ((n, consumed (rest st) (rest st')) :: caps st')))
  end.

(** A match of [r] that starts exactly at the position. *)
Definition match_here (r : regex) (p : option ascii) (s : string) : option mstate :=
  rmatch r (MState p s []) Some.

(** The first match at or after the position, with the text skipped
    before it. *)
Fixpoint search_from (r : regex) (p : option ascii) (s : string)
    : option (string * mstate) :=
  match match_here r p s with
  | Some st => Some (EmptyString, st)
  | None =>
      match s with
      | EmptyString => None
      | String c s' =>
          match search_from r (Some c) s' with
          | Some (skipped, st) => Some (String c skipped, st)
          | None => None
          end
      end
  end.

(** [re.search(r, s)] as a truth value. *)
Definition search (r : regex) (s : string) : bool :=
  match search_from r None s with
  | Some _ => true
  | None => false
  end.

(** Group [n] of a match; a group that took no part is the empty string. *)
Fixpoint group (n : nat) (cs : list (nat * string)) : string :=
  match cs with
  | [] => EmptyString
  | (m, s) :: cs' => if (n =? m)%nat then s else group n cs'
  end.

Definition groups (ngroups : nat) (cs : list (nat * string)) : list string :=
  map (fun n => group n cs) (seq 1 ngroups).

(** The matches are taken from left to right without overlap.  After an
    empty match the scan moves on by one character; no pattern of the
    program matches the empty string. *)
Fixpoint findall_from (fuel : nat) (r : regex) (ngroups : nat)
    (p : option ascii) (s : string) : list (list string) :=
  match fuel with
  | O => []
  | S fuel' =>
      match search_from r p s with
      | None => []
      | Some (skipped, st) =>
          groups ngroups (caps st) ::
          (if (String.length skipped + String.length (rest st) <? String.length s)%nat
           then findall_from fuel' r ngroups (prev st) (rest st)
           else match rest st with
                | EmptyString => []
                | String c s' => findall_from fuel' r ngroups (Some c) s'
                end)
      end
  end.

(** [re.findall(r, s)] for a pattern with [ngroups >= 2] groups: the list
    of the tuples of groups. *)
Definition findall (r : regex) (ngroups : nat) (s : string) : list (list string) :=
  findall_from (S (String.length s)) r ngroups None s.

Fixpoint sub_from (fuel : nat) (r : regex) (repl : string)
    (p : option ascii) (s : string) : string :=
  match fuel with
  | O => s
  | S fuel' =>
      match search_from r p s with
      | None => s
      | Some (skipped, st) =>
          skipped ++ repl ++
          (if (String.length skipped + String.length (rest st) <? String.length s)%nat
           then sub_from fuel' r repl (prev st) (rest st)
           else match rest st with
                | EmptyString => EmptyString
                | String c s' => String c (sub_from fuel' r repl (Some c) s')
                end)
      end
  end.

(** [re.sub(r, repl, s)] for a replacement without group references. *)
Definition sub (r : regex) (repl : string) (s : string) : string :=
  sub_from (S (String.length s)) r repl None s.

End Re.

(** ** Numbers *)

Definition digit_val (c : ascii) : Z := Z.of_N (code c) - 48.

Fixpoint all_digits (s : string) : bool :=
  match s with
  | EmptyString => true
  | String c s' => is_digit c && all_digits s'
  end.

Fixpoint digits_val (acc : Z) (s : string) : Z :=
  match s with
  | EmptyString => acc
  | String c s' => digits_val (10 * acc + digit_val c) s'
  end.

Fixpoint split_dot (s : string) : string * option string :=
  match s with
  | EmptyString => (EmptyString, None)
  | String c s' =>
      if Ascii.eqb c "." then (EmptyString, Some s')
      else let '(a, b) := split_dot s' in (String c a, b)
  end.

(** [float(s)] on the strings that reach it in this program: a word (a
    [ValueError]) or an unsigned decimal numeral, whose value is exact
    here.  The other notations that [float] reads (sign, exponent, [inf],
    [nan], underscores, white space around) are answered as a word is. *)
Definition float (s : string) : result Q :=
  let bad := Raise (ValueError ("could not convert string to float: '" ++ s ++ "'")) in
  match split_dot s with
  | (i, None) =>
      if negb (String.eqb i "") && all_digits i
      then Ok (inject_Z (digits_val 0 i)) else bad
  | (i, Some f) =>
      if negb (String.eqb (i ++ f) "") && all_digits i && all_digits f
      then Ok (Qmake (digits_val 0 (i ++ f)) (Z.to_pos (10 ^ Z.of_nat (String.length f))))
      else bad
  end.

(** A Python number compared with [<], as a truth value. *)
Definition Qltb (x y : Q) : bool := if Qlt_le_dec x y then true else false.
Definition Rltb (x y : R) : bool := if Rlt_dec x y then true else false.

(** [max(a, b)] keeps its first argument unless the second is greater;
    [min(a, b)] keeps its first argument unless the second is smaller. *)
Definition Qpy_max (a b : Q) : Q := if Qltb a b then b else a.
Definition py_min (a b : R) : R := if Rltb b a then b else a.
Definition py_max (a b : R) : R := if Rltb a b then b else a.

(** ** Values and dictionaries *)

(** What OpenCV returns on one contour: [cv2.contourArea(c)],
    [cv2.arcLength(c, True)], [cv2.boundingRect(c)] as [(x, y, w, h)],
    [cv2.minEnclosingCircle(c)] as [((x, y), radius)], and the points of
    [cv2.approxPolyDP(c, 0.02 * cv2.arcLength(c, True), True)]. *)
Record contour := Contour {
  contourArea : R;
  arcLength : R;
  boundingRect : Z * Z * Z * Z;
  minEnclosingCircle : R * R * R;
  approxPolyDP : list (Z * Z)
}.

(** The values held by the fields of a shape record. *)
Inductive value :=
| VStr (s : string)
| VNum (x : R)
| VInt (n : Z)
| VPoint (x y : R)
| VBool (b : bool)
| VContour (c : contour)
| VApprox (pts : list (Z * Z)).

Abbreviation shape := (gmap string value).

(** [k in d] *)
Definition has_key {V} (k : string) (d : gmap string V) : bool :=
  match d !! k with
  | Some _ => true
  | None => false
  end.

(** [d.get(k, dflt)] *)
Definition get {V} (d : gmap string V) (k : string) (dflt : V) : V :=
  match d !! k with
  | Some v => v
  | None => dflt
  end.

(** [d[k]] *)
Definition item {V} (d : gmap string V) (k : string) : result V :=
  match d !! k with
  | Some v => Ok v
  | None => Raise (KeyError k)
  end.

(** [d.update(other)]: the fields of [other] win. *)
Definition update {V} (d other : gmap string V) : gmap string V := other ∪ d.

(** [not d] *)
Definition is_empty {V} (d : gmap string V) : bool := (size d =? 0)%nat.

(** [len(d)] *)
Definition len {V} (d : gmap string V) : nat := size d.

(** A field read as a number. *)
Definition as_num (v : value) : result R :=
  match v with
  | VNum x => Ok x
  | VInt n => Ok (IZR n)
  | _ => Raise (TypeError "unsupported operand type(s)")
  end.

Fixpoint foldM {A B} (f : B -> A -> result B) (l : list A) (b : B) : result B :=
  match l with
  | [] => Ok b
  | a :: l' => let* b' := f b a in foldM f l' b'
  end.

(** ** [text_processor.py] *)

Module TextProcessor.

Import Re.

Definition word_pattern (ws : list string) : regex :=
  Seq Boundary (Seq (Group 1 (Words ws)) Boundary).

(** [self.shape_patterns], in the order of the dictionary. *)
Definition shape_patterns : list (string * regex) :=
  [ ("circle", word_pattern ["circle"; "round"; "circular"; "disk"; "ring"]);
    ("rectangle", word_pattern ["rectangle"; "rect"; "square"; "box"; "rectangular"]);
    ("triangle", word_pattern ["triangle"; "triangular"; "pyramid"]);
    ("hexagon", word_pattern ["hexagon"; "hex"; "hexagonal"]);
    ("polygon", word_pattern ["polygon"; "poly"; "shape"; "figure"]) ].

(** [self.units] *)
Definition units : gmap string Q :=
  list_to_map
    [ ("mm", 1); ("millimeter", 1); ("millimeters", 1);
      ("cm", 10); ("centimeter", 10); ("centimeters", 10);
      ("m", 1000); ("meter", 1000); ("meters", 1000);
      ("in", 25.4); ("inch", 25.4); ("inches", 25.4);
      ("ft", 304.8); ("foot", 304.8); ("feet", 304.8) ]%Q.

Definition spaces : regex := Star (Class is_space).

(** [\d+(?:\.\d+)?] *)
Definition number : regex :=
  Seq (Plus (Class is_digit)) (Opt (Seq (Lit ".") (Plus (Class is_digit)))).

(** [\b(label|l)\s*[=:]\s*(\d+(?:\.\d+)?)\s*([a-zA-Z]+)?\b] *)
Definition dimension_pattern (labels : list string) : regex :=
  Seq Boundary
   (Seq (Group 1 (Words labels))
     (Seq spaces
       (Seq (OneOf "=:")
         (Seq spaces
           (Seq (Group 2 number)
             (Seq spaces
               (Seq (Opt (Group 3 (Plus (Class is_alpha))))
                    Boundary))))))).

(** [self.dimension_patterns], in the order of the dictionary. *)
Definition dimension_patterns : list (string * regex) :=
  [ ("radius", dimension_pattern ["radius"; "r"]);
    ("diameter", dimension_pattern ["diameter"; "d"]);
    ("width", dimension_pattern ["width"; "w"]);
    ("height", dimension_pattern ["height"; "h"]);
    ("length", dimension_pattern ["length"; "l"]);
    ("side", dimension_pattern ["side"; "s"]) ].

Definition _normalize_text (text : string) : string :=
  let normalized := lower text in
  let normalized := sub (Plus (Class is_space)) " " normalized in
  let normalized := sub (word_pattern ["r"; "radius"]) "radius" normalized in
  let normalized := sub (word_pattern ["d"; "diameter"]) "diameter" normalized in
  let normalized := sub (word_pattern ["w"; "width"]) "width" normalized in
  let normalized := sub (word_pattern ["h"; "height"]) "height" normalized in
  let normalized := sub (word_pattern ["l"; "length"]) "length" normalized in
  let normalized := sub (word_pattern ["s"; "side"]) "side" normalized in
  strip normalized.

Fixpoint first_shape (ps : list (string * regex)) (text : string) : option string :=
  match ps with
  | [] => None
  | (shape_name, pattern) :: ps' =>
      if search pattern text then Some shape_name else first_shape ps' text
  end.

Definition _detect_shape_type (text expected_shape : string) : string :=
  if negb (String.eqb expected_shape "Auto-detect") then lower expected_shape
  else match first_shape shape_patterns text with
       | Some shape_name => shape_name
       | None => "circle"
       end.

Definition _convert_to_mm (value : Q) (unit : string) : Q :=
  let unit_lower := lower unit in
  match units !! unit_lower with
  | Some factor => (value * factor)%Q
  | None => value
  end.

(** [(\d+(?:\.\d+)?)\s*(?:by|x|Ã—)\s*(\d+(?:\.\d+)?)] *)
Definition size_pattern : regex :=
  Seq (Group 1 number)
   (Seq spaces (Seq (Words ["by"; "x"; "Ã—"]) (Seq spaces (Group 2 number)))).

(** [(\d+(?:\.\d+)?)\s*(mm|cm|m|in|ft)] *)
Definition simple_pattern : regex :=
  Seq (Group 1 number)
   (Seq spaces (Group 2 (Words ["mm"; "cm"; "m"; "in"; "ft"]))).

(** [match[i]] on a tuple of groups. *)
Definition nth_group (i : nat) (m : list string) : string := nth i m "".

Definition circle_or_round (text : string) : bool :=
  contains "circle" text || contains "round" text.

Definition _handle_special_cases (text : string) (dimensions : gmap string Q)
    : result (gmap string Q) :=
  let size_matches := findall size_pattern 2 text in
  let* dimensions :=
    foldM (fun (dimensions : gmap string Q) m =>
      let* val1 := float (nth_group 0 m) in
      let* val2 := float (nth_group 1 m) in
      if circle_or_round text then
        Ok (if negb (has_key "diameter" dimensions)
            then <["diameter" := Qpy_max val1 val2]> dimensions
            else dimensions)
      else
        let dimensions :=
          if negb (has_key "width" dimensions)
          then <["width" := val1]> dimensions else dimensions in
        Ok (if negb (has_key "height" dimensions)
            then <["height" := val2]> dimensions else dimensions))
      size_matches dimensions in
  let simple_matches := findall simple_pattern 2 text in
  match simple_matches with
  | first :: _ =>
      if is_empty dimensions then
        let* value := float (nth_group 0 first) in
        let unit := nth_group 1 first in
        let converted_value := _convert_to_mm value unit in
        if circle_or_round text then
          Ok (<["radius" := (converted_value / 2)%Q]> dimensions)
        else
          Ok (<["height" := converted_value]> (<["width" := converted_value]> dimensions))
      else Ok dimensions
  | [] => Ok dimensions
  end.

Definition _extract_dimensions (text : string) : result (gmap string Q) :=
  let* dimensions :=
    foldM (fun (dimensions : gmap string Q) '(dim_name, pattern) =>
      let matches := findall pattern 3 text in
      foldM (fun (dimensions : gmap string Q) m =>
        let* value := float (nth_group 0 m) in
        let unit := if (1 <? length m)%nat then nth_group 1 m else "mm" in
        let converted_value := _convert_to_mm value unit in
        Ok (<[dim_name := converted_value]> dimensions))
        matches dimensions)
      dimension_patterns ∅ in
  _handle_special_cases text dimensions.

Definition vertex_counts : gmap string Z :=
  list_to_map
    [ ("circle", 0); ("rectangle", 4); ("triangle", 3); ("hexagon", 6);
      ("polygon", 8) ]%Z.

Definition _get_vertex_count (shape_type : string) : Z :=
  get vertex_counts shape_type 4%Z.

Definition _construct_circle_data (dimensions : gmap string Q) : shape :=
  let radius := get dimensions "radius" 25%Q in
  let diameter := get dimensions "diameter" (radius * 2)%Q in
  let '(radius, diameter) :=
    if has_key "diameter" dimensions then ((diameter / 2)%Q, diameter)
    else if has_key "radius" dimensions then (radius, (radius * 2)%Q)
    else (radius, diameter) in
  list_to_map
    [ ("center", VPoint 0 0);
      ("radius", VNum (Q2R radius));
      ("diameter", VNum (Q2R diameter));
      ("area", VNum (PI * Q2R radius * Q2R radius));
      ("perimeter", VNum (PI * Q2R diameter)) ].

Definition _construct_rectangle_data (dimensions : gmap string Q) : shape :=
  let width := get dimensions "width" 100%Q in
  let height := get dimensions "height" 75%Q in
  let '(width, height) :=
    if has_key "width" dimensions && negb (has_key "height" dimensions)
    then (width, width)
    else if has_key "height" dimensions && negb (has_key "width" dimensions)
    then (height, height)
    else (width, height) in
  list_to_map
    [ ("center", VPoint 0 0);
      ("width", VNum (Q2R width));
      ("height", VNum (Q2R height));
      ("area", VNum (Q2R width * Q2R height));
      ("perimeter", VNum (2 * (Q2R width + Q2R height))) ].

Definition _construct_triangle_data (dimensions : gmap string Q) : shape :=
  let base := get dimensions "width" (get dimensions "length" 100%Q) in
  let height := get dimensions "height" 75%Q in
  let area := (0.5 * Q2R base * Q2R height)%R in
  let side_length := sqrt (Q2R base * Q2R base + Q2R height * Q2R height) in
  let perimeter := (3 * side_length)%R in
  list_to_map
    [ ("center", VPoint 0 0);
      ("width", VNum (Q2R base));
      ("height", VNum (Q2R height));
      ("area", VNum area);
      ("perimeter", VNum perimeter) ].

Definition _construct_hexagon_data (dimensions : gmap string Q) : shape :=
  let side_length := get dimensions "side" 50%Q in
  let area := (3 * sqrt 3 * Q2R side_length * Q2R side_length / 2)%R in
  let perimeter := (6 * Q2R side_length)%R in
  list_to_map
    [ ("center", VPoint 0 0);
      ("side_length", VNum (Q2R side_length));
      ("width", VNum (2 * Q2R side_length));
      ("height", VNum (sqrt 3 * Q2R side_length));
      ("area", VNum area);
      ("perimeter", VNum perimeter) ].

Definition _construct_polygon_data (dimensions : gmap string Q) : shape :=
  let side_length := get dimensions "side" 50%Q in
  let width := get dimensions "width" 100%Q in
  let height := get dimensions "height" 100%Q in
  list_to_map
    [ ("center", VPoint 0 0);
      ("side_length", VNum (Q2R side_length));
      ("width", VNum (Q2R width));
      ("height", VNum (Q2R height));
      ("area", VNum (Q2R width * Q2R height * 0.8));
      ("perimeter", VNum (8 * Q2R side_length)) ].

Definition _construct_shape_data (shape_type : string)
    (dimensions : gmap string Q) (text : string) : shape :=
  let shape_data : shape :=
    list_to_map
      [ ("type", VStr shape_type);
        ("confidence", VNum 85);
        ("vertices", VInt (_get_vertex_count shape_type));
        ("area", VNum 0);
        ("perimeter", VNum 0) ] in
  if String.eqb shape_type "circle" then
    update shape_data (_construct_circle_data dimensions)
  else if String.eqb shape_type "rectangle" then
    update shape_data (_construct_rectangle_data dimensions)
  else if String.eqb shape_type "triangle" then
    update shape_data (_construct_triangle_data dimensions)
  else if String.eqb shape_type "hexagon" then
    update shape_data (_construct_hexagon_data dimensions)
  else
    update shape_data (_construct_polygon_data dimensions).

Definition any_in (words : list string) (text : string) : bool :=
  existsb (fun w => contains w text) words.

Definition _add_metadata (now : string) (shape_data : shape) (text : string)
    : result shape :=
  let confidence_boost := 0%Z in
  let confidence_boost :=
    if (5 <? len shape_data)%nat then (confidence_boost + 5)%Z
    else confidence_boost in
  let confidence_boost :=
    if any_in ["mm"; "cm"; "m"; "in"; "ft"] text then (confidence_boost + 5)%Z
    else confidence_boost in
  let confidence_boost :=
    if any_in ["circle"; "rectangle"; "triangle"; "hexagon"] text
    then (confidence_boost + 5)%Z
    else confidence_boost in
  let* c := item shape_data "confidence" in
  let* c := as_num c in
  let shape_data :=
    <["confidence" := VNum (py_min 100 (c + IZR confidence_boost))]> shape_data in
  let shape_data := <["timestamp" := VStr now]> shape_data in
  let shape_data := <["source" := VStr "text_input"]> shape_data in
  Ok shape_data.

(** The default of [expected_shape] is ["Auto-detect"]. *)
Definition process_text (now : string) (text_input expected_shape : string)
    : result shape :=
  try_except
    (let normalized_text := _normalize_text text_input in
     let detected_shape := _detect_shape_type normalized_text expected_shape in
     let* dimensions := _extract_dimensions normalized_text in
     let shape_data :=
       _construct_shape_data detected_shape dimensions normalized_text in
     let* shape_data := _add_metadata now shape_data normalized_text in
     Ok shape_data)
    (fun e => Raise (Exception ("Text processing failed: " ++ exn_str e))).

End TextProcessor.

(** ** [sketch_processor.py] *)

Module SketchProcessor.

(** A detector: [(approx, contour, precision)] to a hypothesis or [None]. *)
Definition detector := list (Z * Z) -> contour -> Z -> option shape.

Definition vlen (approx : list (Z * Z)) : Z := Z.of_nat (length approx).

(** [area / rect_area if rect_area > 0 else 0] *)
Definition area_ratio_of (area : R) (rect_area : Z) : R :=
  if (0 <? rect_area)%Z then (area / IZR rect_area)%R else 0%R.

Definition box_center (x y w h : Z) : value :=
  VPoint (IZR x + IZR w / 2) (IZR y + IZR h / 2).

Definition _detect_circle : detector := fun approx contour precision =>
  let area := contourArea contour in
  let perimeter := arcLength contour in
  if Req_dec_T perimeter 0 then None
  else
    let circularity := (4 * PI * area / (perimeter * perimeter))%R in
    let circle_threshold := (0.7 + IZR precision * 0.02)%R in
    if Rltb circle_threshold circularity then
      let '(x, y, radius) := minEnclosingCircle contour in
      Some (list_to_map
        [ ("type", VStr "circle");
          ("center", VPoint x y);
          ("radius", VNum radius);
          ("confidence", VNum (py_min 100 (circularity * 100)));
          ("vertices", VInt (vlen approx));
          ("area", VNum area);
          ("perimeter", VNum perimeter) ])
    else None.

Definition _detect_rectangle : detector := fun approx contour precision =>
  if (vlen approx =? 4)%Z then
    let area := contourArea contour in
    let '(x, y, w, h) := boundingRect contour in
    let rect_area := (w * h)%Z in
    let area_ratio := area_ratio_of area rect_area in
    let rect_threshold := (0.6 + IZR precision * 0.03)%R in
    if Rltb rect_threshold area_ratio then
      Some (list_to_map
        [ ("type", VStr "rectangle");
          ("center", box_center x y w h);
          ("width", VNum (IZR w));
          ("height", VNum (IZR h));
          ("confidence", VNum (py_min 100 (area_ratio * 100)));
          ("vertices", VInt 4);
          ("area", VNum area);
          ("perimeter", VNum (arcLength contour)) ])
    else None
  else None.

Definition _detect_triangle : detector := fun approx contour precision =>
  if (vlen approx =? 3)%Z then
    let area := contourArea contour in
    let '(x, y, w, h) := boundingRect contour in
    let rect_area := (w * h)%Z in
    let area_ratio := area_ratio_of area rect_area in
    let expected_ratio := 0.5%R in
    let triangle_threshold := (0.3 + IZR precision * 0.04)%R in
    if Rltb (Rabs (area_ratio - expected_ratio)) triangle_threshold then
      Some (list_to_map
        [ ("type", VStr "triangle");
          ("center", box_center x y w h);
          ("width", VNum (IZR w));
          ("height", VNum (IZR h));
          ("confidence",
             VNum (py_min 100 ((1 - Rabs (area_ratio - expected_ratio)) * 100)));
          ("vertices", VInt 3);
          ("area", VNum area);
          ("perimeter", VNum (arcLength contour)) ])
    else None
  else None.

Definition _detect_hexagon : detector := fun approx contour precision =>
  if (vlen approx =? 6)%Z then
    let area := contourArea contour in
    let '(x, y, w, h) := boundingRect contour in
    let rect_area := (w * h)%Z in
    let area_ratio := area_ratio_of area rect_area in
    let expected_ratio := 0.866%R in
    let hex_threshold := (0.2 + IZR precision * 0.03)%R in
    if Rltb (Rabs (area_ratio - expected_ratio)) hex_threshold then
      Some (list_to_map
        [ ("type", VStr "hexagon");
          ("center", box_center x y w h);
          ("width", VNum (IZR w));
          ("height", VNum (IZR h));
          ("confidence",
             VNum (py_min 100 ((1 - Rabs (area_ratio - expected_ratio)) * 100)));
          ("vertices", VInt 6);
          ("area", VNum area);
          ("perimeter", VNum (arcLength contour)) ])
    else None
  else None.

Definition _detect_polygon : detector := fun approx contour precision =>
  if (6 <? vlen approx)%Z then
    let area := contourArea contour in
    let '(x, y, w, h) := boundingRect contour in
    let rect_area := (w * h)%Z in
    let area_ratio := area_ratio_of area rect_area in
    if Rltb 0.3 area_ratio then
      Some (list_to_map
        [ ("type", VStr "polygon");
          ("center", box_center x y w h);
          ("width", VNum (IZR w));
          ("height", VNum (IZR h));
          ("confidence", VNum (py_min 100 (area_ratio * 100)));
          ("vertices", VInt (vlen approx));
          ("area", VNum area);
          ("perimeter", VNum (arcLength contour)) ])
    else None
  else None.

(** [self.shape_templates], in the order of the dictionary. *)
Definition shape_templates : list (string * detector) :=
  [ ("circle", _detect_circle);
    ("rectangle", _detect_rectangle);
    ("triangle", _detect_triangle);
    ("hexagon", _detect_hexagon);
    ("polygon", _detect_polygon) ].

(** The hypotheses of one contour.  No operation of a detector raises on
    the data of this model, so the [except] branch of the loop is not
    taken. *)
Definition hypotheses_of (contour : contour) (precision : Z) : list shape :=
  let approx := approxPolyDP contour in
  flat_map (fun '(shape_name, detector_func) =>
    match (detector_func : detector) approx contour precision with
    | Some shape_data =>
        if is_empty shape_data then []
        else [ <["approx_contour" := VApprox approx]>
                 (<["contour" := VContour contour]> shape_data) ]
    | None => []
    end) shape_templates.

(** [_detect_shapes], from the contours that [cv2.findContours] returns on
    the preprocessed image. *)
Definition _detect_shapes (contours : list contour) (precision : Z) : list shape :=
  let min_area := (100 * precision)%Z in
  let valid_contours :=
    List.filter (fun c => Rltb (IZR min_area) (contourArea c)) contours in
  flat_map (fun contour => hypotheses_of contour precision) valid_contours.

(** The record returned when nothing was detected. *)
Definition default_circle : shape :=
  list_to_map
    [ ("type", VStr "circle");
      ("center", VPoint 0 0);
      ("radius", VInt 50);
      ("confidence", VNum 50);
      ("vertices", VInt 0);
      ("area", VNum 7854);
      ("perimeter", VNum 314) ].

(** [x['confidence']], the key of [max]. *)
Definition confidence_key (x : shape) : result R :=
  let* v := item x "confidence" in as_num v.

(** [max(l, key=...)]: the first element is the candidate, and a later
    element replaces it only when its key is greater. *)
Fixpoint max_from (best : shape) (kbest : R) (l : list shape) : result shape :=
  match l with
  | [] => Ok best
  | s :: l' =>
      let* k := confidence_key s in
      if Rltb kbest k then max_from s k l' else max_from best kbest l'
  end.

Definition max_by_confidence (l : list shape) : result shape :=
  match l with
  | [] => Raise (ValueError "max() arg is an empty sequence")
  | s :: l' => let* k := confidence_key s in max_from s k l'
  end.

(** [s['type'] == t] *)
Definition type_is (t : string) (s : shape) : result bool :=
  let* v := item s "type" in
  Ok match v with
     | VStr t' => String.eqb t' t
     | _ => false
     end.

(** [[s for s in l if s['type'] == t]] *)
Fixpoint of_type (t : string) (l : list shape) : result (list shape) :=
  match l with
  | [] => Ok []
  | s :: l' =>
      let* b := type_is t s in
      let* r := of_type t l' in
      Ok (if (b : bool) then s :: r else r)
  end.

Definition _select_best_shape (detected_shapes : list shape)
    (expected_shape : string) : result shape :=
  match detected_shapes with
  | [] => Ok default_circle
  | _ =>
      if negb (String.eqb expected_shape "Auto-detect") then
        let* expected_shapes := of_type (lower expected_shape) detected_shapes in
        match expected_shapes with
        | _ :: _ => max_by_confidence expected_shapes
        | [] => max_by_confidence detected_shapes
        end
      else max_by_confidence detected_shapes
  end.

Definition _enhance_shape_data (now : string) (shape_data : shape)
    (precision : Z) : result shape :=
  let enhanced := shape_data in
  let scale_factor := (1 + (IZR precision - 5) * 0.1)%R in
  let enhanced := <["scale_factor" := VNum scale_factor]> enhanced in
  let enhanced := <["manufacturable" := VBool true]> enhanced in
  if (precision =? 0)%Z then Raise (ZeroDivisionError "float division by zero")
  else
    let enhanced :=
      <["min_feature_size" := VNum (py_max 1 (10 / IZR precision))]> enhanced in
    let enhanced := <["timestamp" := VStr now]> enhanced in
    Ok enhanced.

(** [process_sketch] after the image has been decoded, preprocessed and
    searched for contours by OpenCV: [contours] is the result of
    [cv2.findContours].  The default of [expected_shape] is
    ["Auto-detect"], of [precision] 7. *)
Definition process_sketch (now : string) (contours : list contour)
    (expected_shape : string) (precision : Z) : result shape :=
  try_except
    (let detected_shapes := _detect_shapes contours precision in
     let* best_shape := _select_best_shape detected_shapes expected_shape in
     let* enhanced_shape := _enhance_shape_data now best_shape precision in
     Ok enhanced_shape)
    (fun e => Raise (Exception ("Sketch processing failed: " ++ exn_str e))).

End SketchProcessor.

Import TextProcessor SketchProcessor.

(** ** What the claims speak of *)

(** [SUPPORTED_SHAPES] of [config.py]: the five types of a record. *)
Definition SUPPORTED_SHAPES : list string :=
  ["circle"; "rectangle"; "triangle"; "hexagon"; "polygon"].

(** A numeric field of a record. *)
Definition num_field (r : shape) (k : string) : option R :=
  match r !! k with
  | Some (VNum x) => Some x
  | Some (VInt n) => Some (IZR n)
  | _ => None
  end.

Definition type_of (r : shape) : string :=
  match r !! "type" with
  | Some (VStr t) => t
  | _ => ""
  end.

Definition confidence_of (r : shape) : R :=
  match num_field r "confidence" with
  | Some c => c
  | None => 0
  end.

(** The invariants of a shape record: its type is one of the five, its
    confidence lies in [0, 100], its area and perimeter are not negative. *)
Definition record_invariant (r : shape) : Prop :=
  (exists t, r !! "type" = Some (VStr t) /\ In t SUPPORTED_SHAPES) /\
  (exists c, num_field r "confidence" = Some c /\ (0 <= c <= 100)%R) /\
  (exists a, num_field r "area" = Some a /\ (0 <= a)%R) /\
  (exists p, num_field r "perimeter" = Some p /\ (0 <= p)%R).

(** A hint that names the automatic detection or, in any case of letters,
    one of the five types. *)
Definition valid_hint (hint : string) : Prop :=
  hint = "Auto-detect" \/ In (lower hint) SUPPORTED_SHAPES.


(** A hypothesis, as [_select_best_shape] reads it: a record with a type
    and a confidence. *)
Definition is_hypothesis (s : shape) : Prop :=
  exists t c, s !! "type" = Some (VStr t) /\ s !! "confidence" = Some (VNum c).

(** [r] is the first element of [l] among those of [P] whose confidence is
    the greatest: the elements of [P] before it have a smaller confidence,
    those after it none greater. *)
Definition first_max (P : shape -> Prop) (l : list shape) (r : shape) : Prop :=
  exists l1 l2,
    l = (l1 ++ r :: l2)%list /\ P r /\
    Forall (fun s => P s -> (confidence_of s < confidence_of r)%R) l1 /\
    Forall (fun s => P s -> (confidence_of s <= confidence_of r)%R) l2.

(** The area and the perimeter that the formulas of the text builder give
    on the geometry fields of a record, by type. *)
Definition formula_area (r : shape) : option R :=
  let f := num_field r in
  match type_of r with
  | "circle" => x ← f "radius"; Some (PI * x * x)%R
  | "rectangle" => w ← f "width"; h ← f "height"; Some (w * h)%R
  | "triangle" => w ← f "width"; h ← f "height"; Some (0.5 * w * h)%R
  | "hexagon" => s ← f "side_length"; Some (3 * sqrt 3 / 2 * (s * s))%R
  | "polygon" => w ← f "width"; h ← f "height"; Some (0.8 * (w * h))%R
  | _ => None
  end.

Definition formula_perimeter (r : shape) : option R :=
  let f := num_field r in
  match type_of r with
  | "circle" => d ← f "diameter"; Some (PI * d)%R
  | "rectangle" => w ← f "width"; h ← f "height"; Some (2 * (w + h))%R
  | "triangle" =>
      w ← f "width"; h ← f "height"; Some (3 * sqrt (w * w + h * h))%R
  | "hexagon" => s ← f "side_length"; Some (6 * s)%R
  | "polygon" => s ← f "side_length"; Some (8 * s)%R
  | _ => None
  end.

(** The stored area and perimeter are those of the formulas, up to [tol]. *)
Definition consistent (tol : R) (r : shape) : Prop :=
  exists a p a' p',
    num_field r "area" = Some a /\ num_field r "perimeter" = Some p /\
    formula_area r = Some a' /\ formula_perimeter r = Some p' /\
    (Rabs (a - a') <= tol)%R /\ (Rabs (p - p') <= tol)%R.

(** [s['type'] == t] as a truth value, on a hypothesis. *)
Definition has_type (t : string) (s : shape) : bool := String.eqb (type_of s) t.

(** Dimensions that are not negative. *)
Definition nonneg_dims (d : gmap string Q) : Prop :=
  map_Forall (fun _ q => (0 <= q)%Q) d.

(** The largest finite Python float, [sys.float_info.max]:
    (2 - 2^-52) * 2^1023, about 1.8 * 10^308. *)
Definition FLOAT_MAX : Z := (2 ^ 1024 - 2 ^ 971)%Z.

(** A bound on the dimensions, in millimetres, under which the squares and
    the products that the builders form stay below [FLOAT_MAX], so that no
    field of a record overflows. *)
Definition MAX_DIMENSION : Q := inject_Z (10 ^ 150).

Definition bounded_dims (d : gmap string Q) : Prop :=
  map_Forall (fun _ q => (q <= MAX_DIMENSION)%Q) d.

(** The dimensions read from a text stay within [MAX_DIMENSION]. *)
Definition moderate_text (text : string) : Prop :=
  forall dims,
    _extract_dimensions (_normalize_text text) = Ok dims -> bounded_dims dims.

(** The stored area and perimeter are in the range of a float. *)
Definition finite_measures (r : shape) : Prop :=
  (exists a, num_field r "area" = Some a /\ (a <= IZR FLOAT_MAX)%R) /\
  (exists p, num_field r "perimeter" = Some p /\ (p <= IZR FLOAT_MAX)%R).

(** A hypothesis of [_detect_shapes]: what the detector returned, with the
    contour and its approximation attached. *)
Definition with_contour (c : contour) (s : shape) : shape :=
  <["approx_contour" := VApprox (approxPolyDP c)]>
    (<["contour" := VContour c]> s).

(** ** The contours and hypotheses of the examples *)

(** A thin triangle, (0,0) (100,100) (100,70): area 1500 in a bounding box
    of 101 by 101. *)
Definition thin_triangle : contour :=
  {| contourArea := 1500;
     arcLength := 294;
     boundingRect := (0, 0, 101, 101)%Z;
     minEnclosingCircle := (50, 50, 71)%R;
     approxPolyDP := [(0, 0); (100, 100); (100, 70)]%Z |}.

(** A hand-drawn circle of radius about 20 pixels around (50, 50), as
    OpenCV measures it; its approximation has 8 points. *)
Definition round_contour : contour :=
  {| contourArea := 1240;
     arcLength := 132;
     boundingRect := (30, 30, 41, 41)%Z;
     minEnclosingCircle := (50, 50, 20.5)%R;
     approxPolyDP :=
       [(70, 50); (64, 64); (50, 70); (36, 64);
        (30, 50); (36, 36); (50, 30); (64, 36)]%Z |}.

(** A hand-drawn square with uneven sides in a box of 100 by 100 pixels:
    it covers 9000 square pixels, and its outline is 420 pixels long. *)
Definition uneven_square : contour :=
  {| contourArea := 9000;
     arcLength := 420;
     boundingRect := (10, 10, 100, 100)%Z;
     minEnclosingCircle := (60, 60, 71)%R;
     approxPolyDP := [(10, 10); (109, 12); (107, 109); (12, 107)]%Z |}.

(** A hypothesis with a type, a confidence and a number of vertices. *)
Definition hypothesis_of (t : string) (c : R) (n : Z) : shape :=
  list_to_map [("type", VStr t); ("confidence", VNum c); ("vertices", VInt n)].

(** ** A relational reading of the matcher *)

Module ReSpec.

Import Re.

(** [matches r st st']: from the position [st], the pattern [r] can read up
    to the position [st']. *)
Inductive matches : regex -> mstate -> mstate -> Prop :=
| M_Eps st : matches Eps st st
| M_Lit c s' st :
    rest st = String c s' ->
    matches (Lit c) st (MState (Some c) s' (caps st))
| M_Class p c s' st :
    rest st = String c s' -> p c = true ->
    matches (Class p) st (MState (Some c) s' (caps st))
| M_Boundary st : at_boundary st = true -> matches Boundary st st
| M_Seq r1 r2 st st1 st2 :
    matches r1 st st1 -> matches r2 st1 st2 -> matches (Seq r1 r2) st st2
| M_Alt_l r1 r2 st st' : matches r1 st st' -> matches (Alt r1 r2) st st'
| M_Alt_r r1 r2 st st' : matches r2 st st' -> matches (Alt r1 r2) st st'
| M_Star_stop r st : matches (Star r) st st
| M_Star_step r st st1 st2 :
    matches r st st1 -> matches (Star r) st1 st2 -> matches (Star r) st st2
| M_Group n r st st' :
    matches r st st' ->
    matches (Group n r) st
      (MState (prev st') (rest st')
         ((n, consumed (rest st) (rest st')) :: caps st')).

(** Patterns without groups leave the captures as they are. *)
Fixpoint groupless (r : regex) : bool :=
  match r with
  | Eps | Lit _ | Class _ | Boundary => true
  | Seq r1 r2 | Alt r1 r2 => groupless r1 && groupless r2
  | Star r => groupless r
  | Group _ _ => false
  end.

End ReSpec.

(** ** What the further properties of the text pipeline speak of *)

(** Every character of [s] satisfies [p]. *)
Fixpoint all_chars (p : ascii -> bool) (s : string) : bool :=
  match s with
  | EmptyString => true
  | String c s' => p c && all_chars p s'
  end.

(** An unsigned decimal numeral: digits, or digits, a point and digits. *)
Definition is_numeral (d : string) : Prop :=
  exists i,
    all_chars is_digit i = true /\ i <> "" /\
    (d = i \/
     exists f, all_chars is_digit f = true /\ f <> "" /\ d = i ++ String "." f).

(** The labels of the dimension patterns. *)
Definition dimension_labels : list string :=
  ["radius"; "r"; "diameter"; "d"; "width"; "w";
   "height"; "h"; "length"; "l"; "side"; "s"].

(** Some dimension pattern matches somewhere in the text. *)
Definition has_labelled_dimension (text : string) : bool :=
  existsb (fun '(_, pattern) =>
             match Re.findall pattern 3 text with
             | [] => false
             | _ :: _ => true
             end) dimension_patterns.

(** The exception of [float(s)] on a string that is no number. *)
Definition not_a_float (s : string) : exn :=
  ValueError ("could not convert string to float: '" ++ s ++ "'").

(** [d] keeps the dimensions of [dims] and adds at most a diameter, a
    width, a height or a radius. *)
Definition fills_gaps (dims d : gmap string Q) : Prop :=
  (forall k q, dims !! k = Some q -> d !! k = Some q) /\
  (forall k, k <> "diameter" -> k <> "width" -> k <> "height" ->
             k <> "radius" -> d !! k = dims !! k).

(** No upper-case letter. *)
Definition not_upper (c : ascii) : bool := negb (is_upper c).

(** The last character of a string. *)
Fixpoint last_of (s : string) : option ascii :=
  match s with
  | EmptyString => None
  | String c EmptyString => Some c
  | String _ s' => last_of s'
  end.

(** A character, if there is one, that is no white space. *)
Definition not_space (o : option ascii) : Prop :=
  match o with
  | Some c => is_space c = false
  | None => True
  end.

(** ** What the further properties of the sketch pipeline speak of *)

(** The goodness of fit above which a detector accepts, by the name of the
    detector and the precision. *)
Definition accepted_above (name : string) (p : Z) : R :=
  match name with
  | "circle" => 0.7 + IZR p * 0.02
  | "rectangle" => 0.6 + IZR p * 0.03
  | "triangle" => 1 - (0.3 + IZR p * 0.04)
  | "hexagon" => 1 - (0.2 + IZR p * 0.03)
  | _ => 0.3
  end.

(** The number of points of the approximation that a detector asks for. *)
Definition vertex_rule (name : string) (n : Z) : Prop :=
  match name with
  | "rectangle" => n = 4%Z
  | "triangle" => n = 3%Z
  | "hexagon" => n = 6%Z
  | "polygon" => (6 < n)%Z
  | _ => True
  end.

(** What one detector adds to the hypotheses of a contour: one turn of
    the inner loop of [_detect_shapes]. *)
Definition one_hypothesis (c : contour) (p : Z) (D : detector) : list shape :=
  match D (approxPolyDP c) c p with
  | Some shape_data =>
      if is_empty shape_data then [] else [with_contour c shape_data]
  | None => []
  end.

(** ** [sketch_processor.py], from the uploaded file *)

(** OpenCV stays outside of the model: the decoding of the upload, the
    filters of the preprocessing and the search for contours are the
    variables of this section, and each call is taken to return. *)
Section Upload.

Variable upload : Type.
Variable image : Type.

(** [cv2.imdecode(np.frombuffer(uploaded_file.read(), np.uint8),
    cv2.IMREAD_COLOR)], which is [None] on bytes that are no image. *)
Variable imdecode : upload -> option image.
(** [cv2.cvtColor(image, cv2.COLOR_BGR2GRAY)] *)
Variable cvtColor_BGR2GRAY : image -> image.
(** [cv2.GaussianBlur(src, ksize, sigmaX)] *)
Variable GaussianBlur : image -> Z * Z -> Z -> image.
(** [cv2.adaptiveThreshold(src, maxValue, cv2.ADAPTIVE_THRESH_GAUSSIAN_C,
    cv2.THRESH_BINARY_INV, blockSize, C)] *)
Variable adaptiveThreshold_GAUSSIAN_C_BINARY_INV : image -> Z -> Z -> Z -> image.
(** [cv2.morphologyEx(src, op, np.ones(shape, np.uint8))], with [op] true
    for [cv2.MORPH_CLOSE] and false for [cv2.MORPH_OPEN]. *)
Variable morphologyEx : image -> bool -> Z * Z -> image.
(** [cv2.findContours(image, cv2.RETR_EXTERNAL, cv2.CHAIN_APPROX_SIMPLE)],
    each contour with what OpenCV measures on it. *)
Variable findContours : image -> list contour.

(** The side of the blur kernel that [_preprocess_image] computes. *)
Definition blur_kernel_of (precision : Z) : Z :=
  let blur_kernel := Z.max 1 (11 - precision) in
  if (blur_kernel mod 2 =? 0)%Z then (blur_kernel + 1)%Z else blur_kernel.

Definition _preprocess_image (img : image) (precision : Z) : image :=
  let gray := cvtColor_BGR2GRAY img in
  let blur_kernel := blur_kernel_of precision in
  let blurred := GaussianBlur gray (blur_kernel, blur_kernel) 0 in
  let thresh := adaptiveThreshold_GAUSSIAN_C_BINARY_INV blurred 255 11 2 in
  let kernel := (3, 3)%Z in
  let cleaned := morphologyEx thresh true kernel in
  let cleaned := morphologyEx cleaned false kernel in
  cleaned.

(** [process_sketch] on the uploaded file. *)
Definition process_sketch_upload (now : string) (uploaded_file : upload)
    (expected_shape : string) (precision : Z) : result shape :=
  try_except
    (match imdecode uploaded_file with
     | None => Raise (ValueError "Could not decode uploaded image")
     | Some img =>
         let processed_image := _preprocess_image img precision in
         let detected_shapes :=
           _detect_shapes (findContours processed_image) precision in
         let* best_shape := _select_best_shape detected_shapes expected_shape in
         let* enhanced_shape := _enhance_shape_data now best_shape precision in
         Ok enhanced_shape
     end)
    (fun e => Raise (Exception ("Sketch processing failed: " ++ exn_str e))).

End Upload.

(** ** [dxf_generator.py] *)

(** The generator is modelled by the calls it makes on the modelspace of
    the document, in their order and with their arguments; [ezdxf] itself
    stays outside of the model, and each call is taken to return. *)
Module DXFGenerator.

Definition layer_name : string := "FABRICATOR_AI".
Definition color : Z := 1.

Definition point := (R * R)%type.

(** The [dxfattribs] of a call: ['layer'], ['color'], and where given
    ['linetype'], ['closed'] and ['height']. *)
Record dxfattribs := Attribs {
  attr_layer : string;
  attr_color : Z;
  attr_linetype : option string;
  attr_closed : option bool;
  attr_height : option R
}.

Definition plain : dxfattribs :=
  {| attr_layer := layer_name; attr_color := color;
     attr_linetype := None; attr_closed := None; attr_height := None |}.
Definition closed : dxfattribs :=
  {| attr_layer := layer_name; attr_color := color;
     attr_linetype := None; attr_closed := Some true; attr_height := None |}.
Definition dashdot : dxfattribs :=
  {| attr_layer := layer_name; attr_color := color;
     attr_linetype := Some "DASHDOT"; attr_closed := None;
     attr_height := None |}.
Definition lettering (height : R) : dxfattribs :=
  {| attr_layer := layer_name; attr_color := color;
     attr_linetype := None; attr_closed := None; attr_height := Some height |}.

(** The pieces of an f-string: fixed text, a number written with one
    decimal ([{x:.1f}]), a value written by [str] ([{v}]). *)
Inductive fpart :=
| Lit (s : string)
| Fixed1 (x : R)
| Shown (v : value).

(** [msp.add_circle], [msp.add_point], [msp.add_lwpolyline],
    [msp.add_line], and [msp.add_text] followed by the assignment of
    [dxf.insert]. *)
Inductive entity :=
| Circle (center : point) (radius : R) (a : dxfattribs)
| Point (location : point) (a : dxfattribs)
| LWPolyline (points : list point) (a : dxfattribs)
| Line (start end_ : point) (a : dxfattribs)
| Text (text : list fpart) (a : dxfattribs) (insert : R * R * R).

(** A field used as a number; [True] and [False] count as 1 and 0. *)
Definition as_number (v : value) : result R :=
  match v with
  | VNum x => Ok x
  | VInt n => Ok (IZR n)
  | VBool b => Ok (if b then 1 else 0)%R
  | _ => Raise (TypeError "unsupported operand type(s)")
  end.

(** A field read as a pair: [center[0]], [center[1]]. *)
Definition as_point (v : value) : result point :=
  match v with
  | VPoint x y => Ok (x, y)
  | _ => Raise (TypeError "object is not subscriptable")
  end.

(** A field read as a string, for [.upper()]. *)
Definition as_str (v : value) : result string :=
  match v with
  | VStr s => Ok s
  | _ => Raise (TypeError "object has no attribute 'upper'")
  end.

Definition upper_char (c : ascii) : ascii :=
  if is_lower c then ascii_of_N (code c - 32) else c.

(** [s.upper()] *)
Fixpoint upper (s : string) : string :=
  match s with
  | EmptyString => EmptyString
  | String c s' => String (upper_char c) (upper s')
  end.

(** [v == s] for a string [s]. *)
Definition is_str (v : value) (s : string) : bool :=
  match v with
  | VStr t => String.eqb t s
  | _ => false
  end.

Definition _add_radius_dimension (center : point) (radius : R) : list entity :=
  let end_point := (fst center + radius, snd center)%R in
  [ Line center end_point dashdot;
    Text [Lit "R"; Fixed1 radius] (lettering (radius * 0.1))
      (fst center + radius / 2, snd center + radius / 2, 0)%R ].

Definition _add_rectangle_dimensions (center : point) (width height : R)
    : list entity :=
  let half_w := (width / 2)%R in
  let half_h := (height / 2)%R in
  [ Line (fst center - half_w, snd center - half_h - 10)%R
         (fst center + half_w, snd center - half_h - 10)%R dashdot;
    Line (fst center - half_w - 10, snd center - half_h)%R
         (fst center - half_w - 10, snd center + half_h)%R dashdot;
    Text [Lit "W"; Fixed1 width] (lettering (py_min width height * 0.1))
      (fst center, snd center - half_h - 15, 0)%R;
    Text [Lit "H"; Fixed1 height] (lettering (py_min width height * 0.1))
      (fst center - half_w - 15, snd center, 0)%R ].

Definition _add_triangle_dimensions (center : point) (width height : R)
    : list entity :=
  let half_w := (width / 2)%R in
  let half_h := (height / 2)%R in
  [ Line (fst center - half_w, snd center - half_h - 10)%R
         (fst center + half_w, snd center - half_h - 10)%R dashdot;
    Line (fst center - half_w - 10, snd center - half_h)%R
         (fst center - half_w - 10, snd center + half_h)%R dashdot;
    Text [Lit "B"; Fixed1 width] (lettering (py_min width height * 0.1))
      (fst center, snd center - half_h - 15, 0)%R;
    Text [Lit "H"; Fixed1 height] (lettering (py_min width height * 0.1))
      (fst center - half_w - 15, snd center, 0)%R ].

Definition _add_hexagon_dimensions (center : point) (side_length : R)
    : list entity :=
  let start_point := (fst center + side_length, snd center)%R in
  let end_point :=
    (fst center + side_length * 1.5, snd center + side_length * 0.866)%R in
  [ Line start_point end_point dashdot;
    Text [Lit "S"; Fixed1 side_length] (lettering (side_length * 0.1))
      (fst center + side_length * 1.25, snd center + side_length * 0.433, 0)%R ].

Definition _generate_circle (shape_data : shape) (precision : Z)
    : result (list entity) :=
  let center := get shape_data "center" (VPoint 0 0) in
  let radius := get shape_data "radius" (VNum 25) in
  let* radius := as_number radius in
  let scaled_radius := (radius * (1 + (IZR precision - 5) * 0.05))%R in
  let* center := as_point center in
  Ok ([ Circle center scaled_radius plain;
        Point center plain ]
      ++ _add_radius_dimension center scaled_radius)%list.

Definition _generate_rectangle (shape_data : shape) (precision : Z)
    : result (list entity) :=
  let center := get shape_data "center" (VPoint 0 0) in
  let width := get shape_data "width" (VNum 100) in
  let height := get shape_data "height" (VNum 75) in
  let* width := as_number width in
  let scaled_width := (width * (1 + (IZR precision - 5) * 0.05))%R in
  let* height := as_number height in
  let scaled_height := (height * (1 + (IZR precision - 5) * 0.05))%R in
  let half_w := (scaled_width / 2)%R in
  let half_h := (scaled_height / 2)%R in
  let* center := as_point center in
  let corners :=
    [ (fst center - half_w, snd center - half_h);
      (fst center + half_w, snd center - half_h);
      (fst center + half_w, snd center + half_h);
      (fst center - half_w, snd center + half_h);
      (fst center - half_w, snd center - half_h) ]%R in
  Ok ([ LWPolyline corners closed;
        Point center plain ]
      ++ _add_rectangle_dimensions center scaled_width scaled_height)%list.

Definition _generate_triangle (shape_data : shape) (precision : Z)
    : result (list entity) :=
  let center := get shape_data "center" (VPoint 0 0) in
  let width := get shape_data "width" (VNum 100) in
  let height := get shape_data "height" (VNum 75) in
  let* width := as_number width in
  let scaled_width := (width * (1 + (IZR precision - 5) * 0.05))%R in
  let* height := as_number height in
  let scaled_height := (height * (1 + (IZR precision - 5) * 0.05))%R in
  let half_w := (scaled_width / 2)%R in
  let half_h := (scaled_height / 2)%R in
  let* center := as_point center in
  let vertices :=
    [ (fst center - half_w, snd center - half_h);
      (fst center + half_w, snd center - half_h);
      (fst center, snd center + half_h);
      (fst center - half_w, snd center - half_h) ]%R in
  Ok ([ LWPolyline vertices closed;
        Point center plain ]
      ++ _add_triangle_dimensions center scaled_width scaled_height)%list.

(** The loop [for i in range(n)] that collects the points at the angles
    [i * math.pi / k] on the circle of radius [scaled_side], followed by
    [vertices.append(vertices[0])]. *)
Definition ring (center : point) (scaled_side : R) (n : nat) (k : R)
    : list point :=
  let vertices :=
    map (fun i =>
           let angle := (INR i * PI / k)%R in
           (fst center + scaled_side * cos angle,
            snd center + scaled_side * sin angle)%R)
        (seq 0 n) in
  (vertices ++ firstn 1 vertices)%list.

Definition _generate_hexagon (shape_data : shape) (precision : Z)
    : result (list entity) :=
  let center := get shape_data "center" (VPoint 0 0) in
  let side_length := get shape_data "side_length" (VNum 50) in
  let* side_length := as_number side_length in
  let scaled_side := (side_length * (1 + (IZR precision - 5) * 0.05))%R in
  let* center := as_point center in
  let vertices := ring center scaled_side 6 3 in
  Ok ([ LWPolyline vertices closed;
        Point center plain ]
      ++ _add_hexagon_dimensions center scaled_side)%list.

Definition _generate_polygon (shape_data : shape) (precision : Z)
    : result (list entity) :=
  let center := get shape_data "center" (VPoint 0 0) in
  let side_length := get shape_data "side_length" (VNum 50) in
  let* side_length := as_number side_length in
  let scaled_side := (side_length * (1 + (IZR precision - 5) * 0.05))%R in
  let* center := as_point center in
  let vertices := ring center scaled_side 8 4 in
  Ok [ LWPolyline vertices closed;
       Point center plain ].

(** [now] is the reading of the clock as [_add_metadata] formats it; the
    argument of [get] is evaluated whether or not the key is there. *)
Definition _add_metadata (now : string) (shape_data : shape) (precision : Z)
    : result (list entity) :=
  let* type := as_str (get shape_data "type" (VStr "shape")) in
  let title_text := [Lit "FABRICATOR.AI - "; Lit (upper type)] in
  let timestamp := get shape_data "timestamp" (VStr now) in
  let confidence := get shape_data "confidence" (VNum 0) in
  let* confidence := as_number confidence in
  Ok [ Text title_text (lettering 5) (0, -200, 0)%R;
       Text [Lit "Generated: "; Shown timestamp] (lettering 3) (0, -210, 0)%R;
       Text [Lit "Confidence: "; Fixed1 confidence; Lit "%"] (lettering 3)
         (0, -220, 0)%R;
       Text [Lit "Precision: "; Shown (VInt precision); Lit "/10"]
         (lettering 3) (0, -230, 0)%R ].

(** The modelspace that [generate_from_shape_data] hands to [_save_dxf]:
    the shape, then the annotations. *)
Definition modelspace (now : string) (shape_data : shape) (precision : Z)
    : result (list entity) :=
  let shape_type := get shape_data "type" (VStr "circle") in
  let* drawn :=
    if is_str shape_type "circle" then _generate_circle shape_data precision
    else if is_str shape_type "rectangle" then
      _generate_rectangle shape_data precision
    else if is_str shape_type "triangle" then
      _generate_triangle shape_data precision
    else if is_str shape_type "hexagon" then
      _generate_hexagon shape_data precision
    else _generate_polygon shape_data precision in
  let* notes := _add_metadata now shape_data precision in
  Ok (drawn ++ notes)%list.

Section Saving.

(** [_save_dxf], which names the file after the type and the clock and
    writes it: the path it returns, or the exception it raises. *)
Variable _save_dxf : list entity -> shape -> result string.

Definition generate_from_shape_data (now : string) (shape_data : shape)
    (precision : Z) : result string :=
  try_except
    (let* msp := modelspace now shape_data precision in
     _save_dxf msp shape_data)
    (fun e => Raise (Exception ("DXF generation failed: " ++ exn_str e))).

End Saving.

End DXFGenerator.

(** ** What the properties of the drawing speak of *)

(** The scaling that the generator applies at a precision. *)
Definition drawing_scale (precision : Z) : R :=
  (1 + (IZR precision - 5) * 0.05)%R.

(** The outlines among the entities. *)
Definition outlines (es : list DXFGenerator.entity)
    : list (list DXFGenerator.point) :=
  flat_map (fun e => match e with
                     | DXFGenerator.LWPolyline pts _ => [pts]
                     | _ => []
                     end) es.

(** The square of the distance of two points. *)
Definition dist2 (p q : DXFGenerator.point) : R :=
  ((fst p - fst q) * (fst p - fst q) + (snd p - snd q) * (snd p - snd q))%R.

(** The centre of a record, as the generator reads it. *)
Definition center_of (r : shape) : DXFGenerator.point :=
  match r !! "center" with
  | Some (VPoint x y) => (x, y)
  | _ => (0, 0)%R
  end.


(** The fields that the generator reads from a record of a type. *)
Definition read_fields (shape_type : value) : list string :=
  (["type"; "center"; "timestamp"; "confidence"] ++
   if DXFGenerator.is_str shape_type "circle" then ["radius"]
   else if DXFGenerator.is_str shape_type "rectangle" then ["width"; "height"]
   else if DXFGenerator.is_str shape_type "triangle" then ["width"; "height"]
   else ["side_length"])%list.

(** A field that is absent or a number. *)
Definition numeric (o : option value) : Prop :=
  match o with
  | None | Some (VNum _) | Some (VInt _) => True
  | _ => False
  end.

(** A record with the fields of a drawing: a type, a centre, and numbers
    where it states sizes and a confidence. *)
Definition drawable (r : shape) : Prop :=
  (exists t, r !! "type" = Some (VStr t)) /\
  (exists x y, r !! "center" = Some (VPoint x y)) /\
  numeric (r !! "radius") /\ numeric (r !! "width") /\
  numeric (r !! "height") /\ numeric (r !! "side_length") /\
  numeric (r !! "confidence").

(** A hexagon as the sketch pipeline records it. *)
Definition sketched_hexagon : shape :=
  list_to_map
    [ ("type", VStr "hexagon"); ("center", VPoint 60 60);
      ("width", VNum 100); ("height", VNum 87); ("confidence", VNum 90) ].

(** * Properties *)

(** ** Numbers *)

Lemma py_min_le_l a b : (py_min a b <= a)%R.
Proof. unfold py_min, Rltb. destruct (Rlt_dec b a); lra. Qed.

Lemma py_min_ge m a b : (m <= a)%R -> (m <= b)%R -> (m <= py_min a b)%R.
Proof. unfold py_min, Rltb. destruct (Rlt_dec b a); lra. Qed.

Lemma py_min_Rmin a b : py_min a b = Rmin a b.
Proof.
  unfold py_min, Rltb, Rmin.
  destruct (Rlt_dec b a), (Rle_dec a b); lra.
Qed.

(** Closes an equation between two numerals of [R] after evaluation. *)
Ltac num_eq :=
  apply (f_equal Some); apply (f_equal VNum); unfold Q2R; simpl;
  repeat match goal with
         | |- context [Rlt_dec ?x ?y] => destruct (Rlt_dec x y)
         end;
  lra.

(** ** The model on small inputs *)

Example normalize_labels :
  _normalize_text " R = 5 cm,  w:3 " = "radius = 5 cm, width:3".
Proof. vm_compute. reflexivity. Qed.

Example normalize_keeps_words :
  _normalize_text "Rectangle 100mm by 50mm" = "rectangle 100mm by 50mm".
Proof. vm_compute. reflexivity. Qed.

Example detect_first_group :
  _detect_shape_type "a round box" "Auto-detect" = "circle" /\
  _detect_shape_type "a round box" "Rectangle" = "rectangle" /\
  _detect_shape_type "hello world" "Auto-detect" = "circle".
Proof. repeat split; vm_compute; reflexivity. Qed.

Example convert_cm : Qeq (_convert_to_mm 5 "cm") 50.
Proof. vm_compute. reflexivity. Qed.

Example convert_unknown_unit : _convert_to_mm 5 "xyz" = 5%Q.
Proof. vm_compute. reflexivity. Qed.

Example findall_labelled :
  Re.findall (dimension_pattern ["radius"; "r"]) 3 "radius = 5 cm, width:3" =
    [["radius"; "5"; "cm"]].
Proof. vm_compute. reflexivity. Qed.

Example findall_size :
  Re.findall size_pattern 2 "plate 100 by 50, hole 3x4.5" =
    [["100"; "50"]; ["3"; "4.5"]].
Proof. vm_compute. reflexivity. Qed.

Example findall_simple :
  Re.findall simple_pattern 2 "rectangle 100mm by 50.5 cm" =
    [["100"; "mm"]; ["50.5"; "cm"]].
Proof. vm_compute. reflexivity. Qed.

Example extract_by :
  _extract_dimensions "100 by 50" =
    Ok (<["height" := 50%Q]> (<["width" := 100%Q]> ∅)).
Proof. vm_compute. reflexivity. Qed.

Example extract_round :
  _extract_dimensions "round 3x4.5" = Ok (<["diameter" := 4.5%Q]> ∅).
Proof. vm_compute. reflexivity. Qed.

(** ** The text pipeline, step by step *)

Ltac split_construct :=
  unfold _construct_shape_data, update, _construct_circle_data,
    _construct_rectangle_data, _construct_triangle_data,
    _construct_hexagon_data, _construct_polygon_data;
  repeat match goal with
         | |- context [if ?b then _ else _] => destruct b
         end.

Lemma construct_confidence t dims text :
  _construct_shape_data t dims text !! "confidence" = Some (VNum 85).
Proof. split_construct; reflexivity. Qed.

Lemma construct_len t dims text :
  (5 < len (_construct_shape_data t dims text))%nat.
Proof. split_construct; vm_compute; lia. Qed.

(** [_add_metadata] on a record with a numeric confidence: the boost does
    not depend on the clock. *)
Lemma add_metadata_Ok (sd : shape) text c :
  sd !! "confidence" = Some (VNum c) ->
  exists b : Z,
    (0 <= b <= 15)%Z /\ ((5 < len sd)%nat -> (5 <= b)%Z) /\
    forall now,
      _add_metadata now sd text =
      Ok (<["source" := VStr "text_input"]>
            (<["timestamp" := VStr now]>
               (<["confidence" := VNum (py_min 100 (c + IZR b))]> sd))).
Proof.
  intros Hc. unfold _add_metadata, item. rewrite Hc. cbn [bind as_num].
  destruct (5 <? len sd)%nat eqn:Hlen;
    destruct (any_in ["mm"; "cm"; "m"; "in"; "ft"] text);
    destruct (any_in ["circle"; "rectangle"; "triangle"; "hexagon"] text);
    eexists; (split; [|split; [|intros now; reflexivity]]);
    try lia; intros Hlt; apply Nat.ltb_ge in Hlen; lia.
Qed.

(** What [process_text] returns, when it returns. *)
Lemma process_text_Ok now text hint r :
  process_text now text hint = Ok r ->
  exists dims (b : Z),
    _extract_dimensions (_normalize_text text) = Ok dims /\
    (5 <= b <= 15)%Z /\
    r = <["source" := VStr "text_input"]>
          (<["timestamp" := VStr now]>
             (<["confidence" := VNum (py_min 100 (85 + IZR b))]>
                (_construct_shape_data
                   (_detect_shape_type (_normalize_text text) hint) dims
                   (_normalize_text text)))).
Proof.
  unfold process_text.
  destruct (_extract_dimensions (_normalize_text text)) as [dims|e] eqn:Hd;
    cbn [bind try_except]; [|discriminate].
  set (sd := _construct_shape_data _ dims _).
  destruct (add_metadata_Ok sd (_normalize_text text) 85) as (b & Hb & Hb5 & Hm).
  { apply construct_confidence. }
  rewrite (Hm now). cbn [bind try_except]. intros [= <-].
  exists dims, b. repeat split; try lia; auto.
  apply Hb5, construct_len.
Qed.

(** ** Evaluations of the text pipeline *)

(** C1: [process_text] is meant to return a record on every text, and it
    does on a text without shape or dimension words: "hello world" gives a
    circle of radius 25.  But a labelled dimension makes it raise: the
    groups of a match are (label, number, unit), [float(match[0])] is
    applied to the label, and "circle radius = 25mm" ends in the exception
    "Text processing failed: could not convert string to float:
    'radius'". *)
Theorem process_text_raises_on_labelled_dimension now :
  process_text now "circle radius = 25mm" "Auto-detect" =
    Raise (Exception
      "Text processing failed: could not convert string to float: 'radius'")
  /\ exists r,
       process_text now "hello world" "Auto-detect" = Ok r /\
       r !! "type" = Some (VStr "circle") /\
       r !! "radius" = Some (VNum 25).
Proof.
  split; [reflexivity|].
  eexists. split; [reflexivity|]. split.
  - vm_compute. reflexivity.
  - vm_compute. num_eq.
Qed.

(** C2: on "A circle with radius 25mm" no labelled pattern matches (there
    is no "=" or ":"), so the rule for a bare measurement reads "25mm" and
    halves it: the record is a circle of radius 12.5 and diameter 25, of
    area pi * 12.5 * 12.5 (at most 625, not about 1963.5), with confidence
    100. *)
Theorem process_text_circle_radius_25mm now :
  _extract_dimensions (_normalize_text "A circle with radius 25mm") =
    Ok (<["radius" := (25 # 2)%Q]> ∅) /\
  exists r area,
    process_text now "A circle with radius 25mm" "Auto-detect" = Ok r /\
    r !! "type" = Some (VStr "circle") /\
    r !! "radius" = Some (VNum 12.5) /\
    r !! "diameter" = Some (VNum 25) /\
    r !! "area" = Some (VNum area) /\
    area = (PI * 12.5 * 12.5)%R /\ (area <= 625)%R /\
    r !! "confidence" = Some (VNum 100).
Proof.
  split; [vm_compute; reflexivity|].
  eexists. exists (PI * 12.5 * 12.5)%R.
  split; [reflexivity|].
  split; [vm_compute; reflexivity|].
  split; [vm_compute; num_eq|].
  split; [vm_compute; num_eq|].
  split; [vm_compute; num_eq|].
  split; [reflexivity|].
  split; [pose proof PI_4; lra|].
  vm_compute; num_eq.
Qed.

(** C4: on "Rectangle 100mm by 50mm" the "A by B" pattern does not match
    (the unit "mm" stands between the number and "by"), so the rule for a
    bare measurement takes the first one, "100mm", for both sides: the
    record is a rectangle of width 100 and height 100, not 50, of area
    10000, not 5000. *)
Theorem process_text_rectangle_100mm_by_50mm now :
  Re.findall size_pattern 2 (_normalize_text "Rectangle 100mm by 50mm") = [] /\
  exists r,
    process_text now "Rectangle 100mm by 50mm" "Auto-detect" = Ok r /\
    r !! "type" = Some (VStr "rectangle") /\
    r !! "width" = Some (VNum 100) /\
    r !! "height" = Some (VNum 100) /\
    r !! "area" = Some (VNum 10000).
Proof.
  split; [vm_compute; reflexivity|].
  eexists.
  split; [reflexivity|].
  split; [vm_compute; reflexivity|].
  split; [vm_compute; num_eq|].
  split; [vm_compute; num_eq|].
  vm_compute; num_eq.
Qed.

(** ** Determinism and confidence of the text pipeline *)

(** C9: two calls of [process_text] on the same text and hint, at two
    readings of the clock, either both raise the same exception or return
    records that agree on every field but the timestamp. *)
Theorem process_text_deterministic now1 now2 text hint :
  match process_text now1 text hint, process_text now2 text hint with
  | Ok r1, Ok r2 => delete "timestamp" r1 = delete "timestamp" r2
  | Raise e1, Raise e2 => e1 = e2
  | _, _ => False
  end.
Proof.
  unfold process_text.
  destruct (_extract_dimensions (_normalize_text text)) as [dims|e];
    cbn [bind try_except]; [|reflexivity].
  set (sd := _construct_shape_data _ dims _).
  destruct (add_metadata_Ok sd (_normalize_text text) 85) as (b & _ & _ & Hm).
  { apply construct_confidence. }
  rewrite (Hm now1), (Hm now2). cbn [bind try_except].
  rewrite !(delete_insert_ne _ "timestamp" "source") by discriminate.
  now rewrite !delete_insert_eq.
Qed.

(** C10: whenever [process_text] returns, the record built by
    [_construct_shape_data] has more than 5 fields, so the first boost of
    [_add_metadata] is applied and the confidence is at least 90. *)
Theorem process_text_confidence_at_least_90 now text hint r :
  process_text now text hint = Ok r ->
  exists dims c,
    _extract_dimensions (_normalize_text text) = Ok dims /\
    (5 < len (_construct_shape_data
                (_detect_shape_type (_normalize_text text) hint) dims
                (_normalize_text text)))%nat /\
    r !! "confidence" = Some (VNum c) /\ (90 <= c)%R.
Proof.
  intros H. apply process_text_Ok in H as (dims & b & Hd & Hb & ->).
  exists dims, (py_min 100 (85 + IZR b)).
  split; [exact Hd|]. split; [apply construct_len|]. split.
  - rewrite lookup_insert_ne by discriminate.
    rewrite lookup_insert_ne by discriminate.
    apply lookup_insert_eq.
  - apply py_min_ge; [lra|].
    destruct Hb as [Hb _]. apply IZR_le in Hb. lra.
Qed.

Lemma process_text_confidence_at_least_90_witness :
  exists r dims c,
    process_text "2026-01-01T00:00:00" "hello world" "Auto-detect" = Ok r /\
    _extract_dimensions (_normalize_text "hello world") = Ok dims /\
    r !! "confidence" = Some (VNum c) /\ (90 <= c)%R.
Proof.
  eexists.
  destruct (process_text_confidence_at_least_90
              "2026-01-01T00:00:00" "hello world" "Auto-detect" _ eq_refl)
    as (dims & c & Hd & _ & Hc & Hle).
  exists dims, c. repeat split; assumption.
Defined.

(** ** The acceptance tests of the detectors *)

Lemma Rltb_true_iff x y : Rltb x y = true <-> (x < y)%R.
Proof. unfold Rltb. destruct (Rlt_dec x y); split; intros; try easy. Qed.

Lemma Rltb_false_iff x y : Rltb x y = false <-> (y <= x)%R.
Proof.
  unfold Rltb. destruct (Rlt_dec x y); split; intros; try easy; lra.
Qed.

Lemma Rltb_true x y : (x < y)%R -> Rltb x y = true.
Proof. apply Rltb_true_iff. Qed.

Lemma Rltb_false x y : (y <= x)%R -> Rltb x y = false.
Proof. apply Rltb_false_iff. Qed.

(** A conditional whose test weakens keeps being taken. *)
Lemma is_Some_if_mono {A} (b b' : bool) (x x' : A) :
  (b = true -> b' = true) ->
  is_Some (if b then Some x else None) ->
  is_Some (if b' then Some x' else None).
Proof.
  intros Hb. destruct b; [rewrite Hb by reflexivity; eauto|].
  intros [? [=]].
Qed.

Lemma Rltb_weaken_l x x' y : (x' <= x)%R -> Rltb x y = true -> Rltb x' y = true.
Proof. rewrite !Rltb_true_iff. lra. Qed.

Lemma Rltb_weaken_r x y y' : (y <= y')%R -> Rltb x y = true -> Rltb x y' = true.
Proof. rewrite !Rltb_true_iff. lra. Qed.

Lemma IZR_succ p : IZR (p + 1) = (IZR p + 1)%R.
Proof. now rewrite plus_IZR. Qed.

Lemma detect_circle_antitone approx c (p : Z) :
  is_Some (_detect_circle approx c (p + 1)%Z) ->
  is_Some (_detect_circle approx c p).
Proof.
  unfold _detect_circle. destruct (Req_dec_T (arcLength c) 0); [easy|].
  destruct (minEnclosingCircle c) as [[x y] radius].
  apply is_Some_if_mono, Rltb_weaken_l. rewrite IZR_succ. lra.
Qed.

Lemma detect_rectangle_antitone approx c (p : Z) :
  is_Some (_detect_rectangle approx c (p + 1)%Z) ->
  is_Some (_detect_rectangle approx c p).
Proof.
  unfold _detect_rectangle. destruct (vlen approx =? 4)%Z; [|easy].
  destruct (boundingRect c) as [[[x y] w] h].
  apply is_Some_if_mono, Rltb_weaken_l. rewrite IZR_succ. lra.
Qed.

Lemma detect_triangle_monotone approx c (p : Z) :
  is_Some (_detect_triangle approx c p) ->
  is_Some (_detect_triangle approx c (p + 1)%Z).
Proof.
  unfold _detect_triangle. destruct (vlen approx =? 3)%Z; [|easy].
  destruct (boundingRect c) as [[[x y] w] h].
  apply is_Some_if_mono, Rltb_weaken_r. rewrite IZR_succ. lra.
Qed.

Lemma detect_hexagon_monotone approx c (p : Z) :
  is_Some (_detect_hexagon approx c p) ->
  is_Some (_detect_hexagon approx c (p + 1)%Z).
Proof.
  unfold _detect_hexagon. destruct (vlen approx =? 6)%Z; [|easy].
  destruct (boundingRect c) as [[[x y] w] h].
  apply is_Some_if_mono, Rltb_weaken_r. rewrite IZR_succ. lra.
Qed.

(** C3, as stated, fails: the thin triangle is accepted by the triangle
    test at precision 2 and rejected at precision 1, because the tolerance
    0.3 + p * 0.04 widens with p. *)
Lemma triangle_accepted_at_2_not_at_1 :
  is_Some (_detect_triangle (approxPolyDP thin_triangle) thin_triangle (1 + 1)%Z)
  /\ _detect_triangle (approxPolyDP thin_triangle) thin_triangle 1%Z = None.
Proof.
  assert (Hr : (Rabs (1500 / 10201 - 0.5) = 0.5 - 1500 / 10201)%R).
  { rewrite Rabs_left; lra. }
  unfold _detect_triangle, thin_triangle, area_ratio_of.
  cbn [approxPolyDP boundingRect contourArea arcLength vlen length].
  change (Z.of_nat 3 =? 3)%Z with true.
  change (0 <? 101 * 101)%Z with true.
  change (101 * 101)%Z with 10201%Z. cbv iota beta.
  rewrite Hr. split.
  - rewrite Rltb_true; [eauto|]. change (1 + 1)%Z with 2%Z. lra.
  - rewrite Rltb_false; [reflexivity|]. lra.
Qed.

(** C3, amended: for a fixed contour, the circle and rectangle tests get
    stricter as the precision grows (accepted at p + 1 implies accepted at
    p), while the triangle and hexagon tests get looser (accepted at p
    implies accepted at p + 1). *)
Theorem acceptance_tests_by_precision approx c (p : Z) :
  (is_Some (_detect_circle approx c (p + 1)%Z) ->
   is_Some (_detect_circle approx c p)) /\
  (is_Some (_detect_rectangle approx c (p + 1)%Z) ->
   is_Some (_detect_rectangle approx c p)) /\
  (is_Some (_detect_triangle approx c p) ->
   is_Some (_detect_triangle approx c (p + 1)%Z)) /\
  (is_Some (_detect_hexagon approx c p) ->
   is_Some (_detect_hexagon approx c (p + 1)%Z)).
Proof.
  split; [apply detect_circle_antitone|].
  split; [apply detect_rectangle_antitone|].
  split; [apply detect_triangle_monotone|apply detect_hexagon_monotone].
Qed.

(** ** The selection of the best hypothesis *)

Lemma confidence_key_hypothesis s :
  is_hypothesis s -> confidence_key s = Ok (confidence_of s).
Proof.
  intros (t & c & _ & Hc).
  unfold confidence_key, confidence_of, num_field, item.
  now rewrite Hc.
Qed.

(** The running maximum of [max]: the candidate is the first greatest
    element of what has been read. *)
Lemma max_from_first_max l :
  Forall is_hypothesis l ->
  forall l1 best l2,
    Forall (fun s => (confidence_of s < confidence_of best)%R) l1 ->
    Forall (fun s => (confidence_of s <= confidence_of best)%R) l2 ->
    exists r l1' l2',
      max_from best (confidence_of best) l = Ok r /\
      (l1 ++ best :: l2 ++ l = l1' ++ r :: l2')%list /\
      Forall (fun s => (confidence_of s < confidence_of r)%R) l1' /\
      Forall (fun s => (confidence_of s <= confidence_of r)%R) l2'.
Proof.
  induction 1 as [|s l Hs Hl IH]; intros l1 best l2 H1 H2.
  - exists best, l1, l2. rewrite app_nil_r. auto.
  - cbn [max_from]. rewrite (confidence_key_hypothesis s Hs). cbn [bind].
    destruct (Rltb (confidence_of best) (confidence_of s)) eqn:Hlt.
    + apply Rltb_true_iff in Hlt.
      destruct (IH (l1 ++ best :: l2)%list s []) as (r & l1' & l2' & Hr & Heq & Hlt' & Hle').
      * apply Forall_app. split; [|constructor].
        -- eapply Forall_impl; [exact H1|]. cbn. intros; lra.
        -- exact Hlt.
        -- eapply Forall_impl; [exact H2|]. cbn. intros; lra.
      * constructor.
      * exists r, l1', l2'. split; [exact Hr|]. split; [|auto].
        rewrite <- Heq. now rewrite <- !app_assoc.
    + apply Rltb_false_iff in Hlt.
      destruct (IH l1 best (l2 ++ [s])%list H1) as (r & l1' & l2' & Hr & Heq & Hlt' & Hle').
      * apply Forall_app. split; [exact H2|]. constructor; [exact Hlt|constructor].
      * exists r, l1', l2'. split; [exact Hr|]. split; [|auto].
        rewrite <- Heq. now rewrite <- !app_assoc.
Qed.

Lemma max_by_confidence_first_max l :
  Forall is_hypothesis l -> l <> [] ->
  exists r l1 l2,
    max_by_confidence l = Ok r /\ l = (l1 ++ r :: l2)%list /\
    Forall (fun s => (confidence_of s < confidence_of r)%R) l1 /\
    Forall (fun s => (confidence_of s <= confidence_of r)%R) l2.
Proof.
  intros Hl Hne. destruct l as [|s l]; [easy|].
  apply Forall_cons in Hl as [Hs Hl].
  cbn [max_by_confidence]. rewrite (confidence_key_hypothesis s Hs). cbn [bind].
  destruct (max_from_first_max l Hl [] s []) as (r & l1 & l2 & Hr & Heq & H1 & H2);
    try constructor.
  exists r, l1, l2. auto.
Qed.

Lemma of_type_filter t l :
  Forall is_hypothesis l -> of_type t l = Ok (List.filter (has_type t) l).
Proof.
  induction 1 as [|s l (t' & c & Ht & Hc) Hl IH]; [reflexivity|].
  cbn [of_type List.filter]. unfold type_is, item, has_type, type_of.
  rewrite Ht. cbn [bind]. rewrite IH. cbn [bind].
  now destruct (String.eqb t' t).
Qed.

(** An element of a filtered list, with what is around it. *)
Lemma filter_split {A} (f : A -> bool) l f1 r f2 :
  List.filter f l = (f1 ++ r :: f2)%list ->
  exists l1 l2,
    l = (l1 ++ r :: l2)%list /\
    List.filter f l1 = f1 /\ List.filter f l2 = f2 /\ f r = true.
Proof.
  revert f1. induction l as [|a l IH]; intros f1 H; cbn [List.filter] in H.
  - now destruct f1.
  - destruct (f a) eqn:Ha.
    + destruct f1 as [|b f1]; cbn [app] in H.
      * injection H as -> Hf. exists [], l. cbn [List.filter app]. auto.
      * injection H as -> Hf.
        destruct (IH f1 Hf) as (l1 & l2 & -> & H1 & H2 & Hr).
        exists (b :: l1), l2. cbn [List.filter app]. rewrite Ha, H1. auto.
    + destruct (IH f1 H) as (l1 & l2 & -> & H1 & H2 & Hr).
      exists (a :: l1), l2. cbn [List.filter app]. rewrite Ha. auto.
Qed.

Lemma Forall_filter_inv {A} (f : A -> bool) (P : A -> Prop) l :
  Forall P (List.filter f l) -> Forall (fun a => f a = true -> P a) l.
Proof.
  induction l as [|a l IH]; cbn [List.filter]; intros H; constructor.
  - destruct (f a); [now apply Forall_cons in H|easy].
  - apply IH. destruct (f a); [now apply Forall_cons in H|exact H].
Qed.

Lemma Forall_filter_keep {A} (f : A -> bool) (P : A -> Prop) l :
  Forall P l -> Forall P (List.filter f l).
Proof.
  induction 1 as [|a l Ha Hl IH]; cbn [List.filter]; [constructor|].
  destruct (f a); [constructor|]; auto.
Qed.

Lemma default_circle_fields :
  default_circle !! "type" = Some (VStr "circle") /\
  default_circle !! "center" = Some (VPoint 0 0) /\
  default_circle !! "radius" = Some (VInt 50) /\
  default_circle !! "confidence" = Some (VNum 50) /\
  default_circle !! "vertices" = Some (VInt 0).
Proof. repeat split; reflexivity. Qed.

(** C6: [_select_best_shape] returns the default circle (centre at the
    origin, radius 50, confidence 50, no vertices) on the empty list,
    whatever the hint, without raising.  On hypotheses, with a hint other
    than "Auto-detect" that names the type of one of them, it returns the
    first of the greatest confidence among those of that type, whatever the
    confidence of the others; otherwise it returns the first of the greatest
    confidence of all. *)
Theorem select_best_shape_spec l hint :
  Forall is_hypothesis l ->
  let wanted s := type_of s = lower hint in
  (l = [] ->
     _select_best_shape l hint = Ok default_circle /\
     default_circle !! "center" = Some (VPoint 0 0) /\
     default_circle !! "radius" = Some (VInt 50) /\
     default_circle !! "confidence" = Some (VNum 50) /\
     default_circle !! "vertices" = Some (VInt 0)) /\
  (l <> [] ->
     exists r,
       _select_best_shape l hint = Ok r /\
       (hint <> "Auto-detect" -> Exists wanted l -> first_max wanted l r) /\
       (hint = "Auto-detect" \/ ~ Exists wanted l ->
        first_max (fun _ => True) l r)).
Proof.
  intros Hl wanted. split.
  - intros ->. split; [reflexivity|]. apply default_circle_fields.
  - intros Hne.
    assert (Hw : forall s, has_type (lower hint) s = true <-> wanted s).
    { intros s. unfold has_type, wanted. apply String.eqb_eq. }
    assert (Hall : exists r, max_by_confidence l = Ok r /\
                     first_max (fun _ => True) l r).
    { destruct (max_by_confidence_first_max l Hl Hne) as (r & l1 & l2 & Hr & -> & H1 & H2).
      exists r. split; [exact Hr|]. exists l1, l2. repeat split.
      - eapply Forall_impl; [exact H1|]. auto.
      - eapply Forall_impl; [exact H2|]. auto. }
    unfold _select_best_shape. destruct l as [|s0 l0]; [easy|].
    set (l := s0 :: l0) in *.
    destruct (String.eqb hint "Auto-detect") eqn:Hauto; cbn [negb].
    + apply String.eqb_eq in Hauto. destruct Hall as (r & Hr & Hmax).
      exists r. split; [exact Hr|]. split; [easy|auto].
    + apply String.eqb_neq in Hauto.
      rewrite (of_type_filter _ l Hl). cbn [bind].
      destruct (List.filter (has_type (lower hint)) l) as [|s1 f1] eqn:Hf.
      * destruct Hall as (r & Hr & Hmax). exists r. split; [exact Hr|].
        split; [|auto]. intros _ Hex. exfalso.
        apply Exists_exists in Hex as (s & Hin & Hs).
        assert (Hin' : In s (List.filter (has_type (lower hint)) l)).
        { apply filter_In. split; [now apply list_elem_of_In|now apply Hw]. }
        rewrite Hf in Hin'. contradiction.
      * rewrite <- Hf.
        destruct (max_by_confidence_first_max (List.filter (has_type (lower hint)) l))
          as (r & g1 & g2 & Hr & Heq & H1 & H2).
        { now apply Forall_filter_keep. }
        { now rewrite Hf. }
        exists r. split; [exact Hr|].
        destruct (filter_split _ _ _ _ _ Heq) as (l1 & l2 & Hl12 & <- & <- & Hwr).
        split.
        -- intros _ _. exists l1, l2. split; [exact Hl12|]. split; [now apply Hw|].
           split.
           ++ eapply Forall_impl; [apply Forall_filter_inv, H1|].
              cbn. intros s Hs Hws. apply Hs, Hw, Hws.
           ++ eapply Forall_impl; [apply Forall_filter_inv, H2|].
              cbn. intros s Hs Hws. apply Hs, Hw, Hws.
        -- intros [Ha|Hnex]; [easy|]. exfalso. apply Hnex.
           apply Exists_exists. exists r. split; [|now apply Hw].
           rewrite Hl12. apply list_elem_of_In, in_or_app. right. now left.
Qed.

(** ** The dimensions read from a text are not negative *)

Lemma foldM_inv {A B} (P : B -> Prop) (f : B -> A -> result B) l :
  (forall b a b', P b -> f b a = Ok b' -> P b') ->
  forall b b', P b -> foldM f l b = Ok b' -> P b'.
Proof.
  intros Hf. induction l as [|a l IH]; intros b b' Hb; cbn [foldM].
  - now intros [= <-].
  - destruct (f b a) as [b1|e] eqn:Hfa; cbn [bind]; [|discriminate].
    apply IH. eapply Hf; eauto.
Qed.

Lemma is_digit_val c : is_digit c = true -> (0 <= digit_val c)%Z.
Proof.
  unfold is_digit, in_range, digit_val. intros H.
  apply andb_prop in H as [H _]. apply N.leb_le in H. lia.
Qed.

Lemma digits_val_nonneg s :
  all_digits s = true -> forall acc, (0 <= acc)%Z -> (0 <= digits_val acc s)%Z.
Proof.
  induction s as [|c s IH]; cbn [all_digits digits_val]; intros H acc Hacc.
  - exact Hacc.
  - apply andb_prop in H as [Hc Hs]. apply IH; [exact Hs|].
    apply is_digit_val in Hc. lia.
Qed.

Lemma all_digits_app s t :
  all_digits s = true -> all_digits t = true -> all_digits (s ++ t) = true.
Proof.
  induction s as [|c s IH]; intros Hs Ht; [exact Ht|].
  change (is_digit c && all_digits s = true) in Hs.
  change (is_digit c && all_digits (s ++ t) = true).
  apply andb_prop in Hs as [Hc Hs]. now rewrite Hc, IH.
Qed.

Lemma float_nonneg s q : float s = Ok q -> (0 <= q)%Q.
Proof.
  unfold float. destruct (split_dot s) as [i [f|]].
  - destruct (negb (String.eqb (i ++ f) "") && all_digits i && all_digits f)
      eqn:H; [|discriminate].
    intros [= <-]. apply andb_prop in H as [H Hf].
    apply andb_prop in H as [_ Hi].
    pose proof (digits_val_nonneg (i ++ f) (all_digits_app i f Hi Hf) 0%Z) as Hn.
    unfold Qle. cbn [Qnum Qden]. lia.
  - destruct (negb (String.eqb i "") && all_digits i) eqn:H; [|discriminate].
    intros [= <-]. apply andb_prop in H as [_ Hi].
    pose proof (digits_val_nonneg i Hi 0%Z) as Hn.
    unfold Qle, inject_Z. cbn [Qnum Qden]. lia.
Qed.

Lemma units_nonneg : nonneg_dims units.
Proof.
  unfold nonneg_dims, units. cbn [list_to_map foldr uncurry].
  repeat (apply map_Forall_insert_2; [easy|]).
  apply map_Forall_empty.
Qed.

Lemma convert_to_mm_nonneg v u : (0 <= v)%Q -> (0 <= _convert_to_mm v u)%Q.
Proof.
  intros Hv. unfold _convert_to_mm.
  destruct (units !! lower u) as [f|] eqn:Hu; [|exact Hv].
  apply Qmult_le_0_compat; [exact Hv|]. exact (units_nonneg _ _ Hu).
Qed.

Lemma nonneg_insert k q d :
  (0 <= q)%Q -> nonneg_dims d -> nonneg_dims (<[k := q]> d).
Proof. intros Hq Hd. now apply map_Forall_insert_2. Qed.

Lemma Qpy_max_nonneg a b : (0 <= a)%Q -> (0 <= b)%Q -> (0 <= Qpy_max a b)%Q.
Proof. unfold Qpy_max. now destruct (Qltb a b). Qed.

Lemma Qhalf_nonneg q : (0 <= q)%Q -> (0 <= q / 2)%Q.
Proof.
  intros H. unfold Qdiv. apply Qmult_le_0_compat; [exact H|easy].
Qed.

Lemma handle_special_cases_nonneg text d d' :
  nonneg_dims d -> _handle_special_cases text d = Ok d' -> nonneg_dims d'.
Proof.
  intros Hd. unfold _handle_special_cases.
  match goal with
  | |- context [foldM ?f ?l d] =>
      destruct (foldM f l d) as [d1|e] eqn:Hfold; cbn [bind]; [|discriminate];
      assert (Hd1 : nonneg_dims d1)
  end.
  { revert Hfold. apply foldM_inv; [|exact Hd]. clear.
    intros b m b' Hb.
    destruct (float (nth_group 0 m)) as [v1|] eqn:H1; cbn [bind]; [|discriminate].
    destruct (float (nth_group 1 m)) as [v2|] eqn:H2; cbn [bind]; [|discriminate].
    apply float_nonneg in H1, H2.
    destruct (circle_or_round text).
    - intros [= <-]. destruct (negb (has_key "diameter" b)); [|exact Hb].
      apply nonneg_insert; [now apply Qpy_max_nonneg|exact Hb].
    - intros [= <-].
      destruct (negb (has_key "width" b));
        destruct (negb (has_key "height" _));
        repeat apply nonneg_insert; assumption. }
  destruct (Re.findall simple_pattern 2 text) as [|first rest];
    [now intros [= <-]|].
  destruct (is_empty d1); [|now intros [= <-]].
  destruct (float (nth_group 0 first)) as [v|] eqn:Hv; cbn [bind]; [|discriminate].
  apply float_nonneg in Hv.
  pose proof (convert_to_mm_nonneg v (nth_group 1 first) Hv) as Hc.
  destruct (circle_or_round text); intros [= <-].
  - apply nonneg_insert; [now apply Qhalf_nonneg|exact Hd1].
  - repeat apply nonneg_insert; assumption.
Qed.

Lemma extract_dimensions_nonneg text d :
  _extract_dimensions text = Ok d -> nonneg_dims d.
Proof.
  unfold _extract_dimensions.
  match goal with
  | |- context [foldM ?f ?l ∅] =>
      destruct (foldM f l ∅) as [d1|e] eqn:Hfold; cbn [bind]; [|discriminate];
      assert (Hd1 : nonneg_dims d1)
  end.
  { revert Hfold. apply foldM_inv; [|apply map_Forall_empty].
    intros b [dim_name pattern] b' Hb. apply foldM_inv; [|exact Hb].
    intros b1 m b1' Hb1.
    destruct (float (nth_group 0 m)) as [v|] eqn:Hv; cbn [bind]; [|discriminate].
    intros [= <-]. apply nonneg_insert; [|exact Hb1].
    apply convert_to_mm_nonneg. now apply float_nonneg in Hv. }
  now apply handle_special_cases_nonneg.
Qed.

Lemma get_nonneg d k dflt :
  nonneg_dims d -> (0 <= dflt)%Q -> (0 <= get d k dflt)%Q.
Proof.
  intros Hd H. unfold get. destruct (d !! k) as [q|] eqn:Hk; [|exact H].
  exact (Hd _ _ Hk).
Qed.

Lemma Q2R_nonneg q : (0 <= q)%Q -> (0 <= Q2R q)%R.
Proof. intros H. apply Qle_Rle in H. unfold Q2R at 1 in H. simpl in H. lra. Qed.

Lemma Q2R_IZ (n : Z) : Q2R (inject_Z n) = IZR n.
Proof. unfold Q2R, inject_Z. cbn [Qnum Qden]. lra. Qed.

Lemma Q2R_half q : Q2R (q / 2) = (Q2R q / 2)%R.
Proof. rewrite Q2R_div by easy. change 2%Q with (inject_Z 2). now rewrite Q2R_IZ. Qed.

Lemma Q2R_double q : Q2R (q * 2) = (Q2R q * 2)%R.
Proof. rewrite Q2R_mult. change 2%Q with (inject_Z 2). now rewrite Q2R_IZ. Qed.

(** ** The records of the text pipeline *)

Lemma detect_shape_type_supported text hint :
  valid_hint hint -> In (_detect_shape_type text hint) SUPPORTED_SHAPES.
Proof.
  intros Hv. unfold _detect_shape_type.
  destruct (String.eqb hint "Auto-detect") eqn:E; cbn [negb].
  - unfold shape_patterns. cbn [first_shape].
    repeat match goal with
           | |- context [if ?b then _ else _] => destruct b
           end; cbn; tauto.
  - apply String.eqb_neq in E. now destruct Hv.
Qed.

Ltac qnonneg :=
  repeat first
    [ assumption
    | apply Q2R_nonneg
    | apply Qhalf_nonneg
    | apply get_nonneg; [assumption|]
    | apply Qmult_le_0_compat
    | easy ].

Ltac rnonneg :=
  unfold Rdiv;
  repeat match goal with
         | |- (0 <= Q2R _)%R => apply Q2R_nonneg; qnonneg
         | |- (0 <= PI)%R => left; apply PI_RGT_0
         | |- (0 <= sqrt _)%R => apply sqrt_pos
         | |- (0 <= _ * _)%R => apply Rmult_le_pos
         | |- (0 <= _ + _)%R => apply Rplus_le_le_0_compat
         | |- (0 <= _)%R => lra
         end.

Ltac same_number :=
  match goal with
  | |- (Rabs (?x - ?y) <= 0)%R =>
      replace (x - y)%R with 0%R by (first [ring | field]);
      rewrite Rabs_R0; lra
  end.

(** The record that the text pipeline returns for one of the five types:
    what is built from dimensions that are not negative, with the metadata
    of [_add_metadata]. *)
Lemma text_record_facts now t dims text c :
  nonneg_dims dims -> In t SUPPORTED_SHAPES -> (0 <= c <= 100)%R ->
  let r := <["source" := VStr "text_input"]>
             (<["timestamp" := VStr now]>
                (<["confidence" := VNum c]>
                   (_construct_shape_data t dims text))) in
  record_invariant r /\ consistent 0 r.
Proof.
  intros Hd Ht Hc r. subst r.
  cbn [In SUPPORTED_SHAPES] in Ht.
  destruct Ht as [<-|[<-|[<-|[<-|[<-|[]]]]]];
    unfold _construct_shape_data; simpl (String.eqb _ _); cbv iota;
    unfold _construct_circle_data, _construct_rectangle_data,
      _construct_triangle_data, _construct_hexagon_data,
      _construct_polygon_data;
    repeat match goal with
           | |- context [if ?b then _ else _] => destruct b
           end;
    (split;
     [ split; [|split; [|split]];
       (eexists; split; [reflexivity|]);
       [ cbn; tauto | exact Hc | rnonneg | rnonneg ]
     | do 4 eexists;
       split; [reflexivity|]; split; [reflexivity|];
       split; [reflexivity|]; split; [reflexivity|];
       split; same_number ]).
Qed.

Lemma text_pipeline_record now text hint r :
  valid_hint hint -> process_text now text hint = Ok r ->
  record_invariant r /\ consistent 0 r.
Proof.
  intros Hv H. apply process_text_Ok in H as (dims & b & Hd & Hb & ->).
  apply text_record_facts.
  - now apply extract_dimensions_nonneg in Hd.
  - now apply detect_shape_type_supported.
  - split; [|apply py_min_le_l].
    apply py_min_ge; [lra|]. destruct Hb as [Hb _]. apply IZR_le in Hb. lra.
Qed.

(** ** The measures stay in the range of a float *)

Lemma max_dimension_squares :
  (2 <= Q2R MAX_DIMENSION)%R /\
  (8 * (Q2R MAX_DIMENSION * Q2R MAX_DIMENSION) <= IZR FLOAT_MAX)%R.
Proof.
  unfold MAX_DIMENSION. rewrite Q2R_IZ. split.
  - apply IZR_le. apply Z.leb_le. vm_compute. reflexivity.
  - rewrite <- !mult_IZR. apply IZR_le. apply Z.leb_le. vm_compute. reflexivity.
Qed.

Lemma get_bounds d k dflt :
  nonneg_dims d -> bounded_dims d ->
  (0 <= dflt)%Q -> (dflt <= MAX_DIMENSION)%Q ->
  (0 <= Q2R (get d k dflt) <= Q2R MAX_DIMENSION)%R.
Proof.
  intros Hn Hb H0 H1. unfold get.
  destruct (d !! k) as [q|] eqn:Hk.
  - split; [apply Q2R_nonneg, (Hn _ _ Hk)|apply Qle_Rle, (Hb _ _ Hk)].
  - split; [now apply Q2R_nonneg|now apply Qle_Rle].
Qed.

Lemma sqrt_sum_squares x y :
  (0 <= x)%R -> (0 <= y)%R -> (sqrt (x * x + y * y) <= x + y)%R.
Proof.
  intros Hx Hy.
  apply Rle_trans with (sqrt ((x + y) * (x + y))).
  - apply sqrt_le_1_alt. nra.
  - rewrite sqrt_square; lra.
Qed.

Lemma sqrt_3_le_2 : (sqrt 3 <= 2)%R.
Proof.
  apply Rle_trans with (sqrt (2 * 2)).
  - apply sqrt_le_1_alt. lra.
  - rewrite sqrt_square; lra.
Qed.

Lemma bounds_half q :
  (0 <= q)%Q -> (q <= MAX_DIMENSION)%Q ->
  (0 <= Q2R (q / 2) <= Q2R MAX_DIMENSION)%R.
Proof.
  intros H0 H1. rewrite Q2R_half.
  apply Q2R_nonneg in H0. apply Qle_Rle in H1. lra.
Qed.

Lemma bounds_double q :
  (0 <= q)%Q -> (q <= MAX_DIMENSION)%Q ->
  (0 <= Q2R (q * 2) <= 2 * Q2R MAX_DIMENSION)%R.
Proof.
  intros H0 H1. rewrite Q2R_double.
  apply Q2R_nonneg in H0. apply Qle_Rle in H1. lra.
Qed.

Lemma default_bounds (n : Z) :
  (0 <=? n)%Z = true -> (n <=? 10 ^ 150)%Z = true ->
  (0 <= inject_Z n)%Q /\ (inject_Z n <= MAX_DIMENSION)%Q.
Proof.
  intros H0 H1. apply Z.leb_le in H0, H1.
  unfold MAX_DIMENSION, Qle, inject_Z. cbn [Qnum Qden]. lia.
Qed.

(** A product of two sizes within the bound, times a factor of at most 8,
    is in the range of a float. *)
Lemma product_in_range k x y B F :
  (0 <= k <= 8)%R -> (0 <= x <= B)%R -> (0 <= y <= B)%R ->
  (8 * (B * B) <= F)%R -> (k * (x * y) <= F)%R.
Proof.
  intros Hk Hx Hy HF.
  assert (x * y <= B * B)%R by (apply Rmult_le_compat; lra).
  assert (0 <= x * y)%R by (apply Rmult_le_pos; lra).
  assert (k * (x * y) <= 8 * (B * B))%R by (apply Rmult_le_compat; lra).
  lra.
Qed.

Lemma sum_in_range k x B F :
  (0 <= k <= 8)%R -> (0 <= x <= 2 * B)%R -> (2 <= B)%R ->
  (8 * (B * B) <= F)%R -> (k * x <= F)%R.
Proof.
  intros Hk Hx HB HF.
  assert (k * x <= 8 * (2 * B))%R by (apply Rmult_le_compat; lra).
  assert (2 * B <= B * B)%R by (apply Rmult_le_compat_r; lra).
  lra.
Qed.

(** The measures of a record of the text pipeline, for dimensions within
    the bound. *)
Lemma text_record_range now t dims text c :
  nonneg_dims dims -> bounded_dims dims -> In t SUPPORTED_SHAPES ->
  let r := <["source" := VStr "text_input"]>
             (<["timestamp" := VStr now]>
                (<["confidence" := VNum c]>
                   (_construct_shape_data t dims text))) in
  finite_measures r.
Proof.
  intros Hn Hb Ht r. subst r.
  destruct max_dimension_squares as [HB1 HB2].
  destruct (default_bounds 25 eq_refl eq_refl) as [H25 H25'].
  destruct (default_bounds 50 eq_refl eq_refl) as [H50 H50'].
  destruct (default_bounds 75 eq_refl eq_refl) as [H75 H75'].
  destruct (default_bounds 100 eq_refl eq_refl) as [H100 H100'].
  change (inject_Z 25) with 25%Q in *. change (inject_Z 50) with 50%Q in *.
  change (inject_Z 75) with 75%Q in *. change (inject_Z 100) with 100%Q in *.
  pose proof PI_4 as Hpi. pose proof PI_RGT_0 as Hpi0.
  pose proof sqrt_3_le_2 as Hs3. pose proof (sqrt_pos 3) as Hs30.
  cbn [In SUPPORTED_SHAPES] in Ht.
  destruct Ht as [<-|[<-|[<-|[<-|[<-|[]]]]]];
    unfold _construct_shape_data; simpl (String.eqb _ _); cbv iota;
    unfold _construct_circle_data, _construct_rectangle_data,
      _construct_triangle_data, _construct_hexagon_data,
      _construct_polygon_data.
  all: unfold has_key, get.
  all: repeat match goal with
         | |- context [?d !! ?k] =>
             is_var d;
             let q := fresh "q" in
             let E := fresh "E" in
             destruct (d !! k) as [q|] eqn:E;
             [ let H0 := fresh "H0" in
               let H1 := fresh "H1" in
               pose proof (Q2R_nonneg _ (Hn _ _ E)) as H0;
               pose proof (Qle_Rle _ _ (Hb _ _ E)) as H1
             | ]
         end.
  all: cbn [andb negb].
  all: split; (eexists; split; [reflexivity|]).
  all: rewrite ?Q2R_half, ?Q2R_double.
  all: apply Q2R_nonneg in H25, H50, H75, H100.
  all: apply Qle_Rle in H25', H50', H75', H100'.
  all: set (B := Q2R MAX_DIMENSION) in *; set (F := IZR FLOAT_MAX) in *;
       clearbody B F.
  all: try match goal with
           | |- context [sqrt (?x * ?x + ?y * ?y)] =>
               let s := fresh "s" in
               pose proof (sqrt_sum_squares x y ltac:(lra) ltac:(lra));
               set (s := sqrt (x * x + y * y)) in *; clearbody s
           end.
  all: repeat match goal with
              | |- context [Q2R ?q] =>
                  is_var q;
                  let x := fresh "x" in
                  set (x := Q2R q) in *; clearbody x
              end.
  all: set (d25 := Q2R 25) in *; set (d50 := Q2R 50) in *;
       set (d75 := Q2R 75) in *; set (d100 := Q2R 100) in *;
       clearbody d25 d50 d75 d100.
  all: try (set (s3 := sqrt 3) in *; clearbody s3).
  all: nra.
Qed.

Lemma text_pipeline_range now text hint r :
  valid_hint hint -> moderate_text text ->
  process_text now text hint = Ok r -> finite_measures r.
Proof.
  intros Hv Hm H. apply process_text_Ok in H as (dims & b & Hd & Hb & ->).
  apply text_record_range.
  - now apply extract_dimensions_nonneg in Hd.
  - now apply Hm.
  - now apply detect_shape_type_supported.
Qed.

(** A plate of 100 by 50: its dimensions are within the bound. *)
Lemma plate_100_by_50 :
  moderate_text "100 by 50" /\
  exists r,
    process_text "2026-01-01T00:00:00" "100 by 50" "Rectangle" = Ok r.
Proof.
  split.
  - intros dims H.
    assert (E : _extract_dimensions (_normalize_text "100 by 50") =
                Ok (<["height" := 50%Q]> (<["width" := 100%Q]> ∅)))
      by (vm_compute; reflexivity).
    rewrite E in H. injection H as <-.
    apply map_Forall_insert_2; [vm_compute; discriminate|].
    apply map_Forall_insert_2; [vm_compute; discriminate|].
    apply map_Forall_empty.
  - eexists. reflexivity.
Qed.

Lemma text_circle_vertices now text hint r :
  process_text now text hint = Ok r -> type_of r = "circle" ->
  r !! "vertices" = Some (VInt 0).
Proof.
  intros H. apply process_text_Ok in H as (dims & b & _ & _ & ->).
  set (t := _detect_shape_type _ _). clearbody t.
  assert (Ht : forall sd : shape,
             type_of (<["source" := VStr "text_input"]>
               (<["timestamp" := VStr now]>
                  (<["confidence" := VNum (py_min 100 (85 + IZR b))]> sd))) =
             type_of sd).
  { intros sd. unfold type_of. now rewrite !lookup_insert_ne by discriminate. }
  rewrite Ht, !lookup_insert_ne by discriminate. clear Ht.
  assert (Hty : type_of (_construct_shape_data t dims (_normalize_text text)) = t).
  { split_construct; reflexivity. }
  rewrite Hty. intros ->.
  unfold _construct_shape_data. simpl (String.eqb _ _). cbv iota.
  unfold _construct_circle_data.
  repeat match goal with
         | |- context [if ?b then _ else _] => destruct b
         end; reflexivity.
Qed.

(** ** The records of the sketch pipeline *)



Lemma is_hypothesis_insert k v (s : shape) :
  k <> "type" -> k <> "confidence" ->
  is_hypothesis s -> is_hypothesis (<[k := v]> s).
Proof.
  intros H1 H2 (t & c & Ht & Hc). exists t, c.
  now rewrite !lookup_insert_ne by assumption.
Qed.




Lemma hypotheses_of_inv c p s :
  In s (hypotheses_of c p) ->
  exists name (D : detector) s0,
    In (name, D) shape_templates /\
    D (approxPolyDP c) c p = Some s0 /\
    s = <["approx_contour" := VApprox (approxPolyDP c)]>
          (<["contour" := VContour c]> s0).
Proof.
  unfold hypotheses_of. intros H.
  apply in_flat_map in H as ([name D] & Hin & Hs).
  destruct (D (approxPolyDP c) c p) as [s0|] eqn:HD; [|destruct Hs].
  destruct (is_empty s0); [destruct Hs|].
  destruct Hs as [<-|[]]. exists name, D, s0. auto.
Qed.


Lemma select_best_shape_in l hint r :
  Forall is_hypothesis l -> _select_best_shape l hint = Ok r ->
  r = default_circle \/ In r l.
Proof.
  intros Hl. unfold _select_best_shape.
  destruct l as [|s0 l0]; [intros [= <-]; now left|].
  set (l := s0 :: l0) in *. intros H. right.
  assert (Hall : forall r', max_by_confidence l = Ok r' -> In r' l).
  { intros r' Hr'.
    destruct (max_by_confidence_first_max l Hl) as (r1 & l1 & l2 & Hr1 & Heq & _);
      [easy|].
    rewrite Hr1 in Hr'. injection Hr' as <-.
    rewrite Heq. apply in_or_app. right. now left. }
  destruct (negb (String.eqb hint "Auto-detect")); [|now apply Hall].
  rewrite (of_type_filter _ l Hl) in H. cbn [bind] in H.
  destruct (List.filter (has_type (lower hint)) l) as [|s1 f1] eqn:Hf;
    [now apply Hall|].
  rewrite <- Hf in H.
  destruct (max_by_confidence_first_max (List.filter (has_type (lower hint)) l))
    as (r1 & l1 & l2 & Hr1 & Heq & _).
  { now apply Forall_filter_keep. }
  { now rewrite Hf. }
  rewrite Hr1 in H. injection H as <-.
  assert (Hin : In r1 (List.filter (has_type (lower hint)) l)).
  { rewrite Heq. apply in_or_app. right. now left. }
  now apply filter_In in Hin.
Qed.

Lemma enhance_shape_data_Ok now s p r :
  _enhance_shape_data now s p = Ok r ->
  r = <["timestamp" := VStr now]>
        (<["min_feature_size" := VNum (py_max 1 (10 / IZR p))]>
           (<["manufacturable" := VBool true]>
              (<["scale_factor" := VNum (1 + (IZR p - 5) * 0.1)]> s))).
Proof.
  unfold _enhance_shape_data. destruct (p =? 0)%Z; [discriminate|].
  now intros [= <-].
Qed.

Lemma process_sketch_Ok now contours hint p r :
  process_sketch now contours hint p = Ok r ->
  exists best,
    _select_best_shape (_detect_shapes contours p) hint = Ok best /\
    _enhance_shape_data now best p = Ok r.
Proof.
  unfold process_sketch.
  destruct (_select_best_shape _ hint) as [best|e]; cbn [bind try_except];
    [|discriminate].
  destruct (_enhance_shape_data now best p) as [r'|e] eqn:He;
    cbn [bind try_except]; [|discriminate].
  intros [= <-]. eauto.
Qed.


(** ** Two sketches *)

Lemma PI_gt_3 : (3 < PI)%R.
Proof. pose proof PI2_3_2. lra. Qed.

Lemma with_contour_lookup c (s : shape) k :
  k <> "approx_contour" -> k <> "contour" -> with_contour c s !! k = s !! k.
Proof. intros H1 H2. unfold with_contour. now rewrite !lookup_insert_ne. Qed.

Lemma detect_shapes_single c p :
  (IZR (100 * p) < contourArea c)%R ->
  _detect_shapes [c] p = hypotheses_of c p.
Proof.
  intros H. unfold _detect_shapes. cbn [List.filter].
  rewrite Rltb_true by exact H. cbn [flat_map]. apply app_nil_r.
Qed.

Lemma max_by_confidence_single a :
  is_hypothesis a -> max_by_confidence [a] = Ok a.
Proof.
  intros Ha. cbn [max_by_confidence].
  now rewrite (confidence_key_hypothesis a Ha).
Qed.

Lemma max_by_confidence_pair a b :
  is_hypothesis a -> is_hypothesis b ->
  (confidence_of b <= confidence_of a)%R ->
  max_by_confidence [a; b] = Ok a.
Proof.
  intros Ha Hb Hle. cbn [max_by_confidence max_from].
  rewrite (confidence_key_hypothesis a Ha), (confidence_key_hypothesis b Hb).
  cbn [bind]. now rewrite Rltb_false.
Qed.

(** The record of the pipeline is the selected hypothesis with four more
    fields. *)
Lemma process_sketch_best now contours hint p best :
  p <> 0%Z ->
  _select_best_shape (_detect_shapes contours p) hint = Ok best ->
  exists r,
    process_sketch now contours hint p = Ok r /\
    forall k,
      k <> "scale_factor" -> k <> "manufacturable" ->
      k <> "min_feature_size" -> k <> "timestamp" ->
      r !! k = best !! k.
Proof.
  intros Hp Hsel. unfold process_sketch. rewrite Hsel. cbn [bind].
  unfold _enhance_shape_data. apply Z.eqb_neq in Hp. rewrite Hp.
  cbn [bind try_except]. eexists. split; [reflexivity|].
  intros k H1 H2 H3 H4. now rewrite !lookup_insert_ne.
Qed.

(** The detectors on the round contour, at precision 7: a circle and a
    polygon. *)
Lemma round_contour_circle :
  exists s,
    _detect_circle (approxPolyDP round_contour) round_contour 7%Z = Some s /\
    is_empty s = false /\
    s !! "type" = Some (VStr "circle") /\
    s !! "vertices" = Some (VInt 8) /\
    s !! "confidence" =
      Some (VNum (py_min 100 (4 * PI * 1240 / (132 * 132) * 100))).
Proof.
  pose proof PI_gt_3 as Hpi. unfold _detect_circle.
  cbn [arcLength contourArea minEnclosingCircle round_contour].
  destruct (Req_dec_T 132 0) as [E|_]; [lra|].
  rewrite Rltb_true by lra.
  eexists. split; [reflexivity|]. repeat split; reflexivity.
Qed.

Lemma round_contour_polygon :
  exists s,
    _detect_polygon (approxPolyDP round_contour) round_contour 7%Z = Some s /\
    is_empty s = false /\
    s !! "type" = Some (VStr "polygon") /\
    s !! "confidence" = Some (VNum (py_min 100 (1240 / 1681 * 100))).
Proof.
  unfold _detect_polygon, area_ratio_of.
  cbn [arcLength contourArea boundingRect approxPolyDP round_contour vlen length].
  change (6 <? Z.of_nat 8)%Z with true. cbv iota.
  change (0 <? 41 * 41)%Z with true. cbv iota.
  change (41 * 41)%Z with 1681%Z.
  rewrite Rltb_true by lra.
  eexists. split; [reflexivity|]. repeat split; reflexivity.
Qed.

Lemma round_contour_hypotheses :
  exists sc sp,
    _detect_shapes [round_contour] 7%Z =
      [with_contour round_contour sc; with_contour round_contour sp] /\
    sc !! "type" = Some (VStr "circle") /\
    sc !! "vertices" = Some (VInt 8) /\
    sc !! "confidence" =
      Some (VNum (py_min 100 (4 * PI * 1240 / (132 * 132) * 100))) /\
    sp !! "type" = Some (VStr "polygon") /\
    sp !! "confidence" = Some (VNum (py_min 100 (1240 / 1681 * 100))).
Proof.
  destruct round_contour_circle as (sc & Hc & Hec & Hc1 & Hc2 & Hc3).
  destruct round_contour_polygon as (sp & Hp & Hep & Hp1 & Hp2).
  exists sc, sp. split; [|auto 10].
  rewrite detect_shapes_single
    by (change (100 * 7)%Z with 700%Z; cbn [contourArea round_contour]; lra).
  unfold hypotheses_of, shape_templates. cbn [flat_map].
  rewrite Hc, Hp, Hec, Hep. reflexivity.
Qed.

Lemma py_min_le_r a b : (py_min a b <= b)%R.
Proof. unfold py_min, Rltb. destruct (Rlt_dec b a); lra. Qed.

Lemma confidence_of_with_contour c (s : shape) x :
  s !! "confidence" = Some (VNum x) -> confidence_of (with_contour c s) = x.
Proof.
  intros H. unfold confidence_of, num_field.
  rewrite with_contour_lookup by discriminate. now rewrite H.
Qed.

Lemma is_hypothesis_with_contour c (s : shape) t x :
  s !! "type" = Some (VStr t) -> s !! "confidence" = Some (VNum x) ->
  is_hypothesis (with_contour c s).
Proof.
  intros Ht Hx. exists t, x.
  rewrite !with_contour_lookup by discriminate. auto.
Qed.

(** C8, as stated, fails: the round contour, whose approximation has 8
    points, comes out of the sketch pipeline as a circle with 8 vertices. *)
Lemma sketch_circle_with_8_vertices :
  exists r,
    process_sketch "2026-01-01T00:00:00" [round_contour] "Auto-detect" 7 = Ok r /\
    r !! "type" = Some (VStr "circle") /\
    r !! "vertices" = Some (VInt 8).
Proof.
  destruct round_contour_hypotheses
    as (sc & sp & Hd & Hc1 & Hc2 & Hc3 & Hp1 & Hp2).
  destruct (process_sketch_best "2026-01-01T00:00:00" [round_contour]
              "Auto-detect" 7 (with_contour round_contour sc)) as (r & Hr & Hk).
  - discriminate.
  - rewrite Hd. unfold _select_best_shape. cbn [String.eqb Ascii.eqb Bool.eqb negb].
    apply max_by_confidence_pair.
    + eapply is_hypothesis_with_contour; eassumption.
    + eapply is_hypothesis_with_contour; eassumption.
    + rewrite (confidence_of_with_contour _ _ _ Hc3),
        (confidence_of_with_contour _ _ _ Hp2).
      pose proof PI_gt_3.
      apply py_min_ge; [apply py_min_le_l|].
      eapply Rle_trans; [apply py_min_le_r|]. lra.
  - exists r. split; [exact Hr|].
    rewrite !Hk, !with_contour_lookup by discriminate. auto.
Qed.

Lemma detect_circle_vertices approx c p s :
  _detect_circle approx c p = Some s ->
  s !! "type" = Some (VStr "circle") /\
  s !! "vertices" = Some (VInt (vlen approx)).
Proof.
  unfold _detect_circle. destruct (Req_dec_T (arcLength c) 0); [discriminate|].
  destruct (Rltb _ _); [|discriminate].
  destruct (minEnclosingCircle c) as [[x y] radius].
  intros [= <-]. split; reflexivity.
Qed.

(** C8, amended: a circle of the text pipeline and the default circle of
    the sketch pipeline have 0 vertices; a circle of the sketch circle
    detector has as many vertices as the approximated contour has points,
    as the hypotheses of the other detectors have. *)
Theorem circle_vertices :
  (forall now text hint r,
     process_text now text hint = Ok r -> type_of r = "circle" ->
     r !! "vertices" = Some (VInt 0)) /\
  (default_circle !! "type" = Some (VStr "circle") /\
   default_circle !! "vertices" = Some (VInt 0)) /\
  (forall approx c p s,
     _detect_circle approx c p = Some s ->
     s !! "type" = Some (VStr "circle") /\
     s !! "vertices" = Some (VInt (vlen approx))).
Proof.
  split; [exact text_circle_vertices|].
  split; [split; reflexivity|exact detect_circle_vertices].
Qed.

Lemma circle_vertices_witness :
  exists r,
    process_text "2026-01-01T00:00:00" "hello world" "Auto-detect" = Ok r /\
    r !! "vertices" = Some (VInt 0).
Proof.
  eexists. split; [reflexivity|].
  apply (proj1 circle_vertices
           "2026-01-01T00:00:00" "hello world" "Auto-detect").
  - reflexivity.
  - reflexivity.
Defined.

(** The detectors store what OpenCV measured on the contour. *)
Lemma detector_measures name (D : detector) approx c p s :
  In (name, D) shape_templates -> D approx c p = Some s ->
  num_field s "area" = Some (contourArea c) /\
  num_field s "perimeter" = Some (arcLength c).
Proof.
  intros Hin. cbn [In shape_templates] in Hin.
  destruct Hin as [[= <- <-]|[[= <- <-]|[[= <- <-]|[[= <- <-]|[[= <- <-]|[]]]]]].
  - unfold _detect_circle. destruct (Req_dec_T (arcLength c) 0); [discriminate|].
    destruct (Rltb _ _); [|discriminate].
    destruct (minEnclosingCircle c) as [[x y] radius].
    intros [= <-]. split; reflexivity.
  - unfold _detect_rectangle. destruct (vlen approx =? 4)%Z; [|discriminate].
    destruct (boundingRect c) as [[[x y] w] h].
    destruct (Rltb _ _); [|discriminate]. intros [= <-]. split; reflexivity.
  - unfold _detect_triangle. destruct (vlen approx =? 3)%Z; [|discriminate].
    destruct (boundingRect c) as [[[x y] w] h].
    destruct (Rltb _ _); [|discriminate]. intros [= <-]. split; reflexivity.
  - unfold _detect_hexagon. destruct (vlen approx =? 6)%Z; [|discriminate].
    destruct (boundingRect c) as [[[x y] w] h].
    destruct (Rltb _ _); [|discriminate]. intros [= <-]. split; reflexivity.
  - unfold _detect_polygon. destruct (6 <? vlen approx)%Z; [|discriminate].
    destruct (boundingRect c) as [[[x y] w] h].
    destruct (Rltb _ _); [|discriminate]. intros [= <-]. split; reflexivity.
Qed.

(** The detectors on the uneven square, at precision 7: a rectangle
    only. *)
Lemma uneven_square_hypotheses :
  exists s,
    _detect_shapes [uneven_square] 7%Z = [with_contour uneven_square s] /\
    s !! "type" = Some (VStr "rectangle") /\
    s !! "confidence" = Some (VNum (py_min 100 (9000 / 10000 * 100))) /\
    s !! "width" = Some (VNum 100) /\
    s !! "height" = Some (VNum 100) /\
    s !! "area" = Some (VNum 9000) /\
    s !! "perimeter" = Some (VNum 420).
Proof.
  pose proof PI_4 as Hpi.
  rewrite detect_shapes_single
    by (change (100 * 7)%Z with 700%Z; cbn [contourArea uneven_square]; lra).
  unfold hypotheses_of, shape_templates. cbn [flat_map].
  assert (Hc : _detect_circle (approxPolyDP uneven_square) uneven_square 7%Z = None).
  { unfold _detect_circle. cbn [arcLength contourArea uneven_square].
    destruct (Req_dec_T 420 0) as [E|_]; [lra|].
    rewrite Rltb_false; [reflexivity|]. lra. }
  rewrite Hc. clear Hc.
  change (_detect_triangle _ _ _) with (@None shape).
  change (_detect_hexagon _ _ _) with (@None shape).
  change (_detect_polygon _ _ _) with (@None shape).
  unfold _detect_rectangle, area_ratio_of.
  cbn [arcLength contourArea boundingRect approxPolyDP uneven_square vlen length].
  change (Z.of_nat 4 =? 4)%Z with true. cbv iota.
  change (0 <? 100 * 100)%Z with true. cbv iota.
  change (100 * 100)%Z with 10000%Z.
  rewrite Rltb_true by lra.
  eexists. split; [reflexivity|]. repeat split; reflexivity.
Qed.

(** C5, as stated, fails: the record of the sketch pipeline for the uneven
    square is a rectangle of width 100 and height 100 whose stored area is
    the measured 9000, not 100 * 100, and whose stored perimeter is the
    measured 420, not 2 * (100 + 100); they differ by more than 1. *)
Lemma sketch_rectangle_not_consistent :
  exists r,
    process_sketch "2026-01-01T00:00:00" [uneven_square] "Auto-detect" 7 = Ok r /\
    r !! "type" = Some (VStr "rectangle") /\
    num_field r "width" = Some 100%R /\
    num_field r "height" = Some 100%R /\
    num_field r "area" = Some 9000%R /\
    num_field r "perimeter" = Some 420%R /\
    ~ consistent 1 r.
Proof.
  destruct uneven_square_hypotheses as (s & Hd & Ht & Hc & Hw & Hh & Ha & Hp).
  destruct (process_sketch_best "2026-01-01T00:00:00" [uneven_square]
              "Auto-detect" 7 (with_contour uneven_square s)) as (r & Hr & Hk).
  - discriminate.
  - rewrite Hd. unfold _select_best_shape.
    cbn [String.eqb Ascii.eqb Bool.eqb negb].
    apply max_by_confidence_single.
    eapply is_hypothesis_with_contour; eassumption.
  - exists r. split; [exact Hr|].
    assert (Ht' : r !! "type" = Some (VStr "rectangle")).
    { now rewrite Hk, with_contour_lookup by discriminate. }
    assert (Hn : forall k x, k <> "scale_factor" -> k <> "manufacturable" ->
                   k <> "min_feature_size" -> k <> "timestamp" ->
                   k <> "approx_contour" -> k <> "contour" ->
                   s !! k = Some (VNum x) -> num_field r k = Some x).
    { intros k x H1 H2 H3 H4 H5 H6 Hs. unfold num_field.
      now rewrite Hk, with_contour_lookup, Hs by assumption. }
    assert (Hw' := Hn "width" _ ltac:(discriminate) ltac:(discriminate)
                     ltac:(discriminate) ltac:(discriminate)
                     ltac:(discriminate) ltac:(discriminate) Hw).
    assert (Hh' := Hn "height" _ ltac:(discriminate) ltac:(discriminate)
                     ltac:(discriminate) ltac:(discriminate)
                     ltac:(discriminate) ltac:(discriminate) Hh).
    assert (Ha' := Hn "area" _ ltac:(discriminate) ltac:(discriminate)
                     ltac:(discriminate) ltac:(discriminate)
                     ltac:(discriminate) ltac:(discriminate) Ha).
    assert (Hp' := Hn "perimeter" _ ltac:(discriminate) ltac:(discriminate)
                     ltac:(discriminate) ltac:(discriminate)
                     ltac:(discriminate) ltac:(discriminate) Hp).
    repeat (split; [assumption|]).
    intros (a & p & a' & p' & Ea & Ep & Ea' & Ep' & Hda & Hdp).
    unfold formula_area, type_of in Ea'. rewrite Ht', Hw', Hh' in Ea'.
    cbn in Ea'. rewrite Ha' in Ea.
    injection Ea as <-. injection Ea' as <-.
    rewrite Rabs_left in Hda; lra.
Qed.

(** C5, amended: a record of the text pipeline, for a hint that is
    "Auto-detect" or one of the five types and a text whose dimensions are
    at most 10^150 mm, stores exactly the area and the perimeter that the
    formulas give on its own geometry fields, and both are in the range of
    a float; a hypothesis of a sketch detector stores the area and the arc
    length that OpenCV measured on the contour instead.  Beyond the bound
    a float overflows, which the exact numbers of the model do not show. *)
Theorem area_perimeter_of_records :
  (forall now text hint r,
     valid_hint hint -> moderate_text text ->
     process_text now text hint = Ok r ->
     consistent 0 r /\ finite_measures r) /\
  (forall name (D : detector) approx c p s,
     In (name, D) shape_templates -> D approx c p = Some s ->
     num_field s "area" = Some (contourArea c) /\
     num_field s "perimeter" = Some (arcLength c)).
Proof.
  split.
  - intros now text hint r Hv Hm H. split.
    + now apply (text_pipeline_record now text hint r Hv).
    + now apply (text_pipeline_range now text hint r Hv Hm).
  - apply detector_measures.
Qed.

Lemma area_perimeter_of_records_witness :
  exists r,
    process_text "2026-01-01T00:00:00" "100 by 50" "Rectangle" = Ok r /\
    consistent 0 r /\ finite_measures r.
Proof.
  destruct plate_100_by_50 as (Hm & r & Hr).
  exists r. split; [exact Hr|].
  apply (proj1 area_perimeter_of_records
           "2026-01-01T00:00:00" "100 by 50" "Rectangle").
  - right. cbn. tauto.
  - exact Hm.
  - exact Hr.
Defined.

(** ** The invariants of the records *)




(** ** Witnesses of the selection and of the acceptance tests *)

Lemma select_best_shape_spec_witness :
  let l := [ hypothesis_of "circle" 80 8;
             hypothesis_of "rectangle" 95 4;
             hypothesis_of "circle" 80 9 ] in
  exists r,
    _select_best_shape l "Circle" = Ok r /\
    first_max (fun s => type_of s = "circle") l r.
Proof.
  intros l.
  assert (Hl : Forall is_hypothesis l).
  { repeat constructor; eexists _, _; split; reflexivity. }
  destruct (select_best_shape_spec l "Circle" Hl) as [_ H].
  destruct (H ltac:(discriminate)) as (r & Hr & Hwanted & _).
  exists r. split; [exact Hr|]. apply Hwanted; [discriminate|].
  apply Exists_cons_hd. reflexivity.
Defined.

Lemma thin_triangle_accepted_at_2 :
  is_Some (_detect_triangle (approxPolyDP thin_triangle) thin_triangle 2%Z).
Proof.
  assert (Hr : (Rabs (1500 / 10201 - 0.5) = 0.5 - 1500 / 10201)%R).
  { rewrite Rabs_left; lra. }
  unfold _detect_triangle, thin_triangle, area_ratio_of.
  cbn [approxPolyDP boundingRect contourArea arcLength vlen length].
  change (Z.of_nat 3 =? 3)%Z with true.
  change (0 <? 101 * 101)%Z with true.
  change (101 * 101)%Z with 10201%Z. cbv iota beta.
  rewrite Hr, Rltb_true; [eauto|]. lra.
Qed.

Lemma acceptance_tests_by_precision_witness :
  is_Some (_detect_triangle (approxPolyDP thin_triangle) thin_triangle (2 + 1)%Z).
Proof.
  apply (acceptance_tests_by_precision (approxPolyDP thin_triangle)
           thin_triangle 2%Z).
  exact thin_triangle_accepted_at_2.
Defined.

(** * Further properties *)

Import Re ReSpec.

(** ** The matcher reads what the patterns describe *)

Lemma rmatch_sound {A} r : forall st (k : mstate -> option A) a,
  rmatch r st k = Some a -> exists st', matches r st st' /\ k st' = Some a.
Proof.
  induction r as [|c|p| |r1 IH1 r2 IH2|r1 IH1 r2 IH2|r IH|n r IH];
    intros st k a H; cbn [rmatch] in H.
  - exists st. split; [constructor|exact H].
  - destruct (rest st) as [|c' s'] eqn:Hr; [discriminate|].
    destruct (Ascii.eqb c c') eqn:E; [|discriminate].
    apply Ascii.eqb_eq in E. subst c'.
    eexists. split; [econstructor; eassumption|exact H].
  - destruct (rest st) as [|c' s'] eqn:Hr; [discriminate|].
    destruct (p c') eqn:E; [|discriminate].
    eexists. split; [econstructor; eassumption|exact H].
  - destruct (at_boundary st) eqn:E; [|discriminate].
    exists st. split; [now constructor|exact H].
  - apply IH1 in H as (st1 & H1 & H). apply IH2 in H as (st2 & H2 & H).
    exists st2. split; [econstructor; eassumption|exact H].
  - destruct (rmatch r1 st k) as [a1|] eqn:E1.
    + injection H as ->. apply IH1 in E1 as (st' & H1 & Hk).
      exists st'. split; [now apply M_Alt_l|exact Hk].
    + apply IH2 in H as (st' & H2 & Hk).
      exists st'. split; [now apply M_Alt_r|exact Hk].
  - revert H. generalize (String.length (rest st)) at 1. intros n. revert st.
    induction n as [|n IHn]; intros st H.
    + exists st. split; [constructor|exact H].
    + match type of H with
      | match ?m with _ => _ end = _ => destruct m as [a1|] eqn:E1
      end.
      * injection H as ->. apply IH in E1 as (st1 & H1 & Hk).
        destruct (String.length (rest st1) <? String.length (rest st))%nat;
          [|discriminate].
        apply IHn in Hk as (st2 & H2 & Hk).
        exists st2. split; [econstructor; eassumption|exact Hk].
      * exists st. split; [constructor|exact H].
  - apply IH in H as (st' & H1 & Hk).
    eexists. split; [econstructor; eassumption|exact Hk].
Qed.

Lemma append_assoc (s t u : string) : (s ++ t) ++ u = s ++ (t ++ u).
Proof.
  induction s as [|c s IH]; [reflexivity|].
  change (String c ((s ++ t) ++ u) = String c (s ++ (t ++ u))). now f_equal.
Qed.

Lemma append_nil_r (s : string) : s ++ "" = s.
Proof.
  induction s as [|c s IH]; [reflexivity|].
  change (String c (s ++ "") = String c s). now f_equal.
Qed.

(** What a match reads is a prefix of the text at its start. *)
Lemma matches_reads r st st' :
  matches r st st' -> exists d, rest st = d ++ rest st'.
Proof.
  induction 1 as [st|c s' st Hr|p c s' st Hr Hp|st Hb
                 |r1 r2 st st1 st2 _ IH1 _ IH2|r1 r2 st st' _ IH|r1 r2 st st' _ IH
                 |r st|r st st1 st2 _ IH1 _ IH2|n r st st' _ IH].
  - now exists "".
  - exists (String c ""). now rewrite Hr.
  - exists (String c ""). now rewrite Hr.
  - now exists "".
  - destruct IH1 as [d1 H1], IH2 as [d2 H2]. exists (d1 ++ d2).
    rewrite H1, H2. now rewrite append_assoc.
  - exact IH.
  - exact IH.
  - now exists "".
  - destruct IH1 as [d1 H1], IH2 as [d2 H2]. exists (d1 ++ d2).
    rewrite H1, H2. now rewrite append_assoc.
  - exact IH.
Qed.

Lemma length_append (s t : string) :
  String.length (s ++ t) = (String.length s + String.length t)%nat.
Proof.
  induction s as [|c s IH]; [reflexivity|].
  change (S (String.length (s ++ t)) = S (String.length s + String.length t)).
  now f_equal.
Qed.

Lemma take_append d x : take (String.length d) (d ++ x) = d.
Proof.
  induction d as [|c d IH]; [now destruct x|].
  change (String c (take (String.length d) (d ++ x)) = String c d).
  now f_equal.
Qed.

Lemma consumed_append d x : consumed (d ++ x) x = d.
Proof.
  unfold consumed. rewrite length_append.
  replace (String.length d + String.length x - String.length x)%nat
    with (String.length d) by lia.
  apply take_append.
Qed.

Lemma append_inv_r (d1 d2 x : string) : d1 ++ x = d2 ++ x -> d1 = d2.
Proof.
  intros H. rewrite <- (consumed_append d1 x), <- (consumed_append d2 x).
  now rewrite H.
Qed.

Lemma matches_groupless r st st' :
  matches r st st' -> groupless r = true -> caps st' = caps st.
Proof.
  induction 1; cbn [groupless caps]; intros Hg; try reflexivity;
    try (apply andb_prop in Hg as [Hg1 Hg2]); try discriminate.
  - rewrite IHmatches2, IHmatches1 by assumption. reflexivity.
  - auto.
  - auto.
  - rewrite IHmatches2, IHmatches1 by assumption. reflexivity.
Qed.

Lemma all_chars_app p s t :
  all_chars p (s ++ t) = all_chars p s && all_chars p t.
Proof.
  induction s as [|c s IH]; [reflexivity|].
  change (p c && all_chars p (s ++ t) = p c && all_chars p s && all_chars p t).
  rewrite IH. now rewrite andb_assoc.
Qed.

Lemma matches_class p st st1 :
  matches (Class p) st st1 ->
  exists c s',
    rest st = String c s' /\ p c = true /\
    st1 = MState (Some c) s' (caps st).
Proof. intros H. inversion H; subst. eauto 6. Qed.

Lemma matches_lit c st st1 :
  matches (Lit c) st st1 ->
  exists s', rest st = String c s' /\ st1 = MState (Some c) s' (caps st).
Proof. intros H. inversion H; subst. eauto. Qed.

Lemma matches_seq r1 r2 st st2 :
  matches (Seq r1 r2) st st2 ->
  exists st1, matches r1 st st1 /\ matches r2 st1 st2.
Proof. intros H. inversion H; subst. eauto. Qed.

Lemma matches_alt r1 r2 st st' :
  matches (Alt r1 r2) st st' -> matches r1 st st' \/ matches r2 st st'.
Proof. intros H. inversion H; subst; auto. Qed.

Lemma matches_eps st st' : matches Eps st st' -> st' = st.
Proof. intros H. now inversion H. Qed.

Lemma matches_group n r st st1 :
  matches (Group n r) st st1 ->
  exists st',
    matches r st st' /\
    st1 = MState (prev st') (rest st')
            ((n, consumed (rest st) (rest st')) :: caps st').
Proof. intros H. inversion H; subst. eauto. Qed.

Lemma matches_star_class p st st' :
  matches (Star (Class p)) st st' ->
  exists d,
    rest st = d ++ rest st' /\ all_chars p d = true /\ caps st' = caps st.
Proof.
  intros H. remember (Star (Class p)) as r eqn:Hr.
  induction H; try discriminate.
  - now exists "".
  - injection Hr as ->. specialize (IHmatches2 eq_refl).
    destruct IHmatches2 as (d & Hd & Hp & Hc).
    apply matches_class in H as (c & s' & Hs & Hpc & ->).
    cbn [rest caps] in Hd, Hc.
    exists (String c d). split; [|split].
    + rewrite Hs. now rewrite Hd.
    + cbn [all_chars]. now rewrite Hpc, Hp.
    + exact Hc.
Qed.

Lemma matches_plus_class p st st' :
  matches (Plus (Class p)) st st' ->
  exists d,
    rest st = d ++ rest st' /\ all_chars p d = true /\ d <> "" /\
    caps st' = caps st.
Proof.
  unfold Plus. intros H. apply matches_seq in H as (st1 & H1 & H2).
  apply matches_star_class in H2 as (d & Hd & Hp & Hc).
  apply matches_class in H1 as (c & s' & Hs & Hpc & ->).
  cbn [rest caps] in Hd, Hc.
  exists (String c d). split; [|split; [|split]].
  - rewrite Hs. now rewrite Hd.
  - cbn [all_chars]. now rewrite Hpc, Hp.
  - discriminate.
  - exact Hc.
Qed.

Lemma all_digits_all_chars s : all_digits s = all_chars is_digit s.
Proof. induction s as [|c s IH]; cbn; [reflexivity|now rewrite IH]. Qed.

Lemma split_dot_digits i :
  all_chars is_digit i = true -> split_dot i = (i, None).
Proof.
  induction i as [|c i IH]; [reflexivity|]. cbn [all_chars split_dot].
  intros H. apply andb_prop in H as [Hc Hi].
  destruct (Ascii.eqb c ".") eqn:E.
  - apply Ascii.eqb_eq in E. subst c. discriminate.
  - now rewrite IH.
Qed.

Lemma split_dot_point i f :
  all_chars is_digit i = true -> split_dot (i ++ String "." f) = (i, Some f).
Proof.
  induction i as [|c i IH]; [reflexivity|].
  change (String c i ++ String "." f) with (String c (i ++ String "." f)).
  cbn [all_chars split_dot].
  intros H. apply andb_prop in H as [Hc Hi].
  destruct (Ascii.eqb c ".") eqn:E.
  - apply Ascii.eqb_eq in E. subst c. discriminate.
  - now rewrite IH.
Qed.

Lemma eqb_empty_false s : s <> "" -> String.eqb s "" = false.
Proof. intros H. now apply String.eqb_neq. Qed.

Lemma float_numeral d : is_numeral d -> exists q, float d = Ok q.
Proof.
  intros (i & Hi & Hne & [->|(f & Hf & Hfne & ->)]); unfold float.
  - rewrite (split_dot_digits i Hi), (eqb_empty_false i Hne),
      all_digits_all_chars, Hi. cbn. eauto.
  - rewrite (split_dot_point i f Hi), !all_digits_all_chars, Hi, Hf.
    rewrite eqb_empty_false by (destruct i; [easy|discriminate]).
    cbn. eauto.
Qed.

Lemma matches_number st st' :
  matches number st st' ->
  exists d, rest st = d ++ rest st' /\ is_numeral d /\ caps st' = caps st.
Proof.
  unfold number. intros H. apply matches_seq in H as (st1 & H1 & H2).
  apply matches_plus_class in H1 as (i & Hi & Hdi & Hne & Hc1).
  apply matches_alt in H2 as [H2|H2].
  - apply matches_seq in H2 as (st2 & H2 & H3).
    apply matches_lit in H2 as (s' & Hs & ->).
    apply matches_plus_class in H3 as (f & Hf & Hdf & Hfne & Hc2).
    cbn [rest caps] in Hf, Hc2.
    exists (i ++ String "." f). split; [|split].
    + rewrite Hi, Hs, Hf. rewrite append_assoc. reflexivity.
    + exists i. split; [exact Hdi|]. split; [exact Hne|]. right. eauto.
    + now rewrite Hc2.
  - apply matches_eps in H2 as ->.
    exists i. split; [exact Hi|]. split; [|exact Hc1].
    exists i. auto.
Qed.

Lemma matches_str w st st' :
  matches (Str w) st st' -> rest st = w ++ rest st' /\ caps st' = caps st.
Proof.
  revert st. induction w as [|c w IH]; intros st H.
  - apply matches_eps in H as ->. auto.
  - destruct w as [|c' w].
    + apply matches_lit in H as (s' & Hs & ->). cbn [rest caps]. auto.
    + change (Str (String c (String c' w)))
        with (Seq (Lit c) (Str (String c' w))) in H.
      apply matches_seq in H as (st1 & H1 & H2).
      apply matches_lit in H1 as (s' & Hs & ->).
      apply IH in H2 as [H2 Hc]. cbn [rest caps] in H2, Hc.
      split; [|exact Hc]. rewrite Hs, H2. reflexivity.
Qed.

Lemma matches_words ws st st' :
  ws <> [] -> matches (Words ws) st st' ->
  exists w, In w ws /\ rest st = w ++ rest st' /\ caps st' = caps st.
Proof.
  induction ws as [|w ws IH]; [easy|]. intros _ H.
  destruct ws as [|w' ws].
  - apply matches_str in H as [H Hc]. exists w. cbn. auto.
  - change (Words (w :: w' :: ws)) with (Alt (Str w) (Words (w' :: ws))) in H.
    apply matches_alt in H as [H|H].
    + apply matches_str in H as [H Hc]. exists w. cbn. auto.
    + apply IH in H as (x & Hx & H & Hc); [|discriminate].
      exists x. split; [now right|auto].
Qed.

(** Every tuple of [findall] is the tuple of groups of a match that
    started without captures. *)
Lemma search_from_match r p s skipped st :
  search_from r p s = Some (skipped, st) ->
  exists p' s', match_here r p' s' = Some st.
Proof.
  revert p skipped. induction s as [|c s IH]; intros p skipped;
    cbn [search_from].
  - destruct (match_here r p "") as [st1|] eqn:E; [|discriminate].
    intros [= _ <-]. eauto.
  - destruct (match_here r p (String c s)) as [st1|] eqn:E.
    + intros [= _ <-]. eauto.
    + destruct (search_from r (Some c) s) as [[sk st1]|] eqn:E1; [|discriminate].
      intros [= _ <-]. eapply IH. eassumption.
Qed.

Lemma findall_from_elem fuel r n p s m :
  In m (findall_from fuel r n p s) ->
  exists p' s' st, match_here r p' s' = Some st /\ m = groups n (caps st).
Proof.
  revert p s. induction fuel as [|fuel IH]; intros p s; cbn [findall_from];
    [easy|].
  destruct (search_from r p s) as [[skipped st]|] eqn:E; [|easy].
  intros [<-|Hin].
  - apply search_from_match in E as (p' & s' & E). eauto.
  - destruct (_ <? _)%nat; [now apply IH in Hin|].
    destruct (rest st) as [|c s1]; [easy|]. now apply IH in Hin.
Qed.

Lemma findall_elem r n s m :
  In m (findall r n s) ->
  exists st0 st, caps st0 = [] /\ matches r st0 st /\ m = groups n (caps st).
Proof.
  intros H. apply findall_from_elem in H as (p' & s' & st & H & ->).
  unfold match_here in H. apply rmatch_sound in H as (st' & Hm & [= ->]).
  exists (MState p' s' []), st. auto.
Qed.

Lemma matches_spaces st st' :
  matches spaces st st' -> caps st' = caps st.
Proof. intros H. now apply matches_groupless in H. Qed.

Lemma matches_group_number n st st1 :
  matches (Group n number) st st1 ->
  exists d, is_numeral d /\ caps st1 = (n, d) :: caps st.
Proof.
  intros H. apply matches_group in H as (st' & H & ->).
  apply matches_number in H as (d & Hd & Hn & Hc).
  exists d. split; [exact Hn|]. cbn [caps].
  now rewrite Hd, consumed_append, Hc.
Qed.

(** The groups of a match of the size pattern are two numerals. *)
Lemma matches_size_pattern st st' :
  caps st = [] -> matches size_pattern st st' ->
  exists d1 d2,
    is_numeral d1 /\ is_numeral d2 /\ groups 2 (caps st') = [d1; d2].
Proof.
  intros H0 H. unfold size_pattern in H.
  apply matches_seq in H as (st1 & H1 & H).
  apply matches_seq in H as (st2 & H2 & H).
  apply matches_seq in H as (st3 & H3 & H).
  apply matches_seq in H as (st4 & H4 & H5).
  apply matches_group_number in H1 as (d1 & Hd1 & Hc1).
  apply matches_spaces in H2, H4.
  apply matches_groupless in H3; [|reflexivity].
  apply matches_group_number in H5 as (d2 & Hd2 & Hc5).
  exists d1, d2. split; [exact Hd1|]. split; [exact Hd2|].
  rewrite Hc5, H4, H3, H2, Hc1, H0. reflexivity.
Qed.

(** The first group of a match of the simple pattern is a numeral. *)
Lemma matches_simple_pattern st st' :
  caps st = [] -> matches simple_pattern st st' ->
  exists d u, is_numeral d /\ groups 2 (caps st') = [d; u].
Proof.
  intros H0 H. unfold simple_pattern in H.
  apply matches_seq in H as (st1 & H1 & H).
  apply matches_seq in H as (st2 & H2 & H3).
  apply matches_group_number in H1 as (d1 & Hd1 & Hc1).
  apply matches_spaces in H2.
  apply matches_group in H3 as (st3 & H3 & ->).
  apply matches_groupless in H3; [|reflexivity].
  exists d1. eexists. split; [exact Hd1|]. cbn [caps].
  rewrite H3, H2, Hc1, H0. reflexivity.
Qed.

(** The first group of a match of a dimension pattern is one of its
    labels. *)
Lemma matches_dimension_pattern labels st st' :
  labels <> [] -> caps st = [] ->
  matches (dimension_pattern labels) st st' ->
  exists l, In l labels /\ nth_group 0 (groups 3 (caps st')) = l.
Proof.
  intros Hl H0 H. unfold dimension_pattern in H.
  apply matches_seq in H as (st1 & H1 & H).
  apply matches_seq in H as (st2 & H2 & H).
  apply matches_seq in H as (st3 & H3 & H).
  apply matches_seq in H as (st4 & H4 & H).
  apply matches_seq in H as (st5 & H5 & H).
  apply matches_seq in H as (st6 & H6 & H).
  apply matches_seq in H as (st7 & H7 & H).
  apply matches_seq in H as (st8 & H8 & H9).
  apply matches_groupless in H1; [|reflexivity].
  apply matches_group in H2 as (st2' & H2 & ->).
  apply matches_words in H2 as (l & Hin & Hr & Hc2); [|exact Hl].
  apply matches_spaces in H3, H5, H7.
  apply matches_groupless in H4; [|reflexivity].
  apply matches_group_number in H6 as (d & Hd & Hc6).
  apply matches_groupless in H9; [|reflexivity].
  cbn [caps] in H3.
  assert (Hc7 : caps st7 = (2, d) :: (1, l) :: []).
  { rewrite H7, Hc6, H5, H4, H3, Hr, consumed_append, Hc2, H1, H0.
    reflexivity. }
  exists l. split; [exact Hin|].
  apply matches_alt in H8 as [H8|H8].
  - apply matches_group in H8 as (st8' & H8 & ->).
    apply matches_plus_class in H8 as (u & _ & _ & _ & Hc8).
    rewrite H9. cbn [caps]. rewrite Hc8, Hc7. reflexivity.
  - apply matches_eps in H8 as ->. rewrite H9, Hc7. reflexivity.
Qed.

Lemma foldM_total {A B} (f : B -> A -> result B) l :
  (forall b a, In a l -> exists b', f b a = Ok b') ->
  forall b, exists b', foldM f l b = Ok b'.
Proof.
  induction l as [|a l IH]; intros Hf b; cbn [foldM]; [eauto|].
  destruct (Hf b a) as (b1 & ->); [now left|]. cbn [bind].
  apply IH. intros b2 a2 Hin. apply Hf. now right.
Qed.

(** [_handle_special_cases] never raises: what it gives to [float] has
    been read by the pattern of a numeral. *)
Lemma handle_special_cases_total text dims :
  exists d, _handle_special_cases text dims = Ok d.
Proof.
  unfold _handle_special_cases.
  match goal with
  | |- context [foldM ?f ?l dims] => destruct (foldM_total f l) with (b := dims) as (d1 & ->)
  end.
  { intros b m Hin. apply findall_elem in Hin as (st0 & st & H0 & Hm & ->).
    apply matches_size_pattern in Hm as (d1 & d2 & Hd1 & Hd2 & ->); [|exact H0].
    cbn [nth_group nth].
    destruct (float_numeral d1 Hd1) as (q1 & ->).
    destruct (float_numeral d2 Hd2) as (q2 & ->). cbn [bind].
    destruct (circle_or_round text); eauto. }
  cbn [bind].
  destruct (findall simple_pattern 2 text) as [|first others] eqn:E; [eauto|].
  destruct (is_empty d1); [|eauto].
  assert (Hin : In first (findall simple_pattern 2 text)) by (rewrite E; now left).
  apply findall_elem in Hin as (st0 & st & H0 & Hm & ->).
  apply matches_simple_pattern in Hm as (d & u & Hd & ->); [|exact H0].
  cbn [nth_group nth]. destruct (float_numeral d Hd) as (q & ->). cbn [bind].
  destruct (circle_or_round text); eauto.
Qed.

Lemma label_not_float l :
  In l dimension_labels -> float l = Raise (not_a_float l).
Proof.
  intros H. cbn [In dimension_labels] in H.
  repeat (destruct H as [<-|H]; [reflexivity|]). destruct H.
Qed.

Lemma first_match_label labels text m ms :
  labels <> [] ->
  findall (dimension_pattern labels) 3 text = m :: ms ->
  In (nth_group 0 m) labels.
Proof.
  intros Hl E.
  assert (Hin : In m (findall (dimension_pattern labels) 3 text))
    by (rewrite E; now left).
  apply findall_elem in Hin as (st0 & st & H0 & Hm & ->).
  apply matches_dimension_pattern in Hm as (l & Hin & ->); assumption.
Qed.

Ltac labelled_step text :=
  match goal with
  | |- context [findall (dimension_pattern ?labels) 3 text] =>
      let m := fresh "m" in
      let ms := fresh "ms" in
      let E := fresh "E" in
      destruct (findall (dimension_pattern labels) 3 text) as [|m ms] eqn:E;
      [ cbn [foldM bind orb]
      | cbn [orb];
        pose proof (first_match_label labels text m ms ltac:(discriminate) E)
          as Hin;
        exists (nth_group 0 m);
        split;
        [ cbn [In dimension_labels] in *; tauto
        | cbn [foldM];
          rewrite (label_not_float (nth_group 0 m))
            by (cbn [In dimension_labels] in *; tauto);
          reflexivity ] ]
  end.

(** [_extract_dimensions] raises exactly on the texts in which a dimension
    pattern matches, with the [ValueError] of [float] on the label. *)
Lemma extract_dimensions_outcome text :
  if has_labelled_dimension text
  then exists l,
         In l dimension_labels /\
         _extract_dimensions text = Raise (not_a_float l)
  else exists d, _extract_dimensions text = Ok d.
Proof.
  unfold has_labelled_dimension, _extract_dimensions, dimension_patterns.
  cbn [existsb foldM].
  do 6 (labelled_step text; []).
  apply handle_special_cases_total.
Qed.

(** Without a labelled dimension, the dimensions are those of the special
    cases alone. *)
Lemma extract_dimensions_unlabelled text :
  has_labelled_dimension text = false ->
  _extract_dimensions text = _handle_special_cases text ∅.
Proof.
  unfold has_labelled_dimension, _extract_dimensions, dimension_patterns.
  cbn [existsb foldM].
  do 6 (match goal with
        | |- context [findall (dimension_pattern ?labels) 3 text] =>
            destruct (findall (dimension_pattern labels) 3 text);
            [cbn [foldM bind orb]|cbn [orb]; discriminate]
        end).
  reflexivity.
Qed.

Lemma extract_dimensions_Ok_unlabelled text d :
  _extract_dimensions text = Ok d -> has_labelled_dimension text = false.
Proof.
  intros H. pose proof (extract_dimensions_outcome text) as Ho.
  destruct (has_labelled_dimension text); [|reflexivity].
  destruct Ho as (l & _ & Hr). rewrite Hr in H. discriminate.
Qed.

Lemma fills_gaps_refl dims : fills_gaps dims dims.
Proof. split; auto. Qed.

Lemma fills_gaps_insert dims d k q :
  fills_gaps dims d -> d !! k = None ->
  k = "diameter" \/ k = "width" \/ k = "height" \/ k = "radius" ->
  fills_gaps dims (<[k := q]> d).
Proof.
  intros [Hk Hn] Hnone Hkey. split.
  - intros k' q' H. apply Hk in H.
    rewrite lookup_insert_ne; [exact H|congruence].
  - intros k' H1 H2 H3 H4.
    rewrite lookup_insert_ne by (intuition congruence). auto.
Qed.

Lemma has_key_false {V} k (d : gmap string V) :
  has_key k d = false -> d !! k = None.
Proof. unfold has_key. now destruct (d !! k). Qed.

(** What the special cases do to the dimensions they are given: they keep
    them, and add only a diameter, a width, a height or a radius. *)
Lemma handle_special_cases_keeps text dims d :
  _handle_special_cases text dims = Ok d -> fills_gaps dims d.
Proof.
  unfold _handle_special_cases.
  match goal with
  | |- context [foldM ?f ?l dims] =>
      destruct (foldM f l dims) as [d1|e] eqn:Hfold; cbn [bind]; [|discriminate];
      assert (Hd1 : fills_gaps dims d1)
  end.
  { revert Hfold. apply foldM_inv; [|apply fills_gaps_refl]. clear.
    intros b m b' Hb.
    destruct (float (nth_group 0 m)) as [v1|]; cbn [bind]; [|discriminate].
    destruct (float (nth_group 1 m)) as [v2|]; cbn [bind]; [|discriminate].
    destruct (circle_or_round text); intros [= <-].
    - destruct (has_key "diameter" b) eqn:E; cbn [negb]; [exact Hb|].
      apply fills_gaps_insert; [exact Hb|now apply has_key_false|tauto].
    - destruct (has_key "width" b) eqn:E1; cbn [negb].
      + destruct (has_key "height" b) eqn:E2; cbn [negb]; [exact Hb|].
        apply fills_gaps_insert; [exact Hb|now apply has_key_false|tauto].
      + assert (Hw : fills_gaps dims (<["width" := v1]> b)).
        { apply fills_gaps_insert; [exact Hb|now apply has_key_false|tauto]. }
        destruct (has_key "height" (<["width" := v1]> b)) eqn:E2; cbn [negb];
          [exact Hw|].
        apply fills_gaps_insert; [exact Hw|now apply has_key_false|tauto]. }
  destruct (findall simple_pattern 2 text) as [|first others];
    [now intros [= <-]|].
  unfold is_empty. destruct (size d1 =? 0)%nat eqn:Es; [|now intros [= <-]].
  apply Nat.eqb_eq, map_size_empty_inv in Es. subst d1.
  destruct (float (nth_group 0 first)) as [v|]; cbn [bind]; [|discriminate].
  destruct (circle_or_round text); intros [= <-].
  - apply fills_gaps_insert; [exact Hd1|apply lookup_empty|tauto].
  - apply fills_gaps_insert; [|now rewrite lookup_insert_ne|tauto].
    apply fills_gaps_insert; [exact Hd1|apply lookup_empty|tauto].
Qed.

(** No text yields a side or a length: these keys are only written by the
    labelled patterns, whose matches raise. *)
Lemma extract_dimensions_keys text d :
  _extract_dimensions text = Ok d ->
  forall k, k <> "diameter" -> k <> "width" -> k <> "height" ->
            k <> "radius" -> d !! k = None.
Proof.
  intros H k H1 H2 H3 H4.
  pose proof (extract_dimensions_Ok_unlabelled text d H) as Hu.
  rewrite (extract_dimensions_unlabelled text Hu) in H.
  apply handle_special_cases_keeps in H as [_ Hn].
  rewrite Hn by assumption. apply lookup_empty.
Qed.

(** A match found by the scan, with the text before it and after it. *)
Lemma search_from_split r p s skipped st :
  search_from r p s = Some (skipped, st) ->
  exists d, s = skipped ++ d ++ rest st.
Proof.
  revert p skipped. induction s as [|c s IH]; intros p skipped;
    cbn [search_from].
  - destruct (match_here r p "") as [st1|] eqn:E; [|discriminate].
    intros [= <- <-]. unfold match_here in E.
    apply rmatch_sound in E as (st' & Hm & [= ->]).
    apply matches_reads in Hm as (d & Hd). cbn [rest] in Hd. now exists d.
  - destruct (match_here r p (String c s)) as [st1|] eqn:E.
    + intros [= <- <-]. unfold match_here in E.
      apply rmatch_sound in E as (st' & Hm & [= ->]).
      apply matches_reads in Hm as (d & Hd). cbn [rest] in Hd. now exists d.
    + destruct (search_from r (Some c) s) as [[sk st1]|] eqn:E1; [|discriminate].
      intros [= <- <-]. apply IH in E1 as (d & ->). now exists d.
Qed.

(** [re.sub] writes only characters of the text and of the replacement. *)
Lemma sub_from_chars P fuel r repl :
  all_chars P repl = true ->
  forall p s, all_chars P s = true ->
              all_chars P (sub_from fuel r repl p s) = true.
Proof.
  intros Hrepl. induction fuel as [|fuel IH]; intros p s Hs; cbn [sub_from];
    [exact Hs|].
  destruct (search_from r p s) as [[skipped st]|] eqn:E; [|exact Hs].
  apply search_from_split in E as (d & Hd).
  rewrite Hd in Hs. rewrite !all_chars_app in Hs.
  apply andb_prop in Hs as [Hsk Hs]. apply andb_prop in Hs as [_ Hrest].
  rewrite !all_chars_app, Hsk, Hrepl. cbn [andb].
  destruct (_ <? _)%nat; [now apply IH|].
  destruct (rest st) as [|c s1]; [reflexivity|].
  cbn [all_chars] in *. apply andb_prop in Hrest as [Hc Hs1].
  rewrite Hc. cbn [andb]. now apply IH.
Qed.

Lemma sub_chars P r repl s :
  all_chars P repl = true -> all_chars P s = true ->
  all_chars P (sub r repl s) = true.
Proof. intros Hr Hs. unfold sub. now apply sub_from_chars. Qed.


(** ** The text pipeline *)

(** X1: [process_text] raises exactly when some labelled dimension pattern
    matches the normalised text: then [float] is called on the label the
    pattern captured, and the exception says so.  On every other text it
    returns a record, whatever the hint. *)
Theorem process_text_outcome now text hint :
  if has_labelled_dimension (_normalize_text text)
  then exists l,
         In l dimension_labels /\
         process_text now text hint =
           Raise (Exception
                    ("Text processing failed: could not convert string to float: '"
                     ++ l ++ "'"))
  else exists r, process_text now text hint = Ok r.
Proof.
  pose proof (extract_dimensions_outcome (_normalize_text text)) as H.
  unfold process_text.
  destruct (has_labelled_dimension (_normalize_text text)).
  - destruct H as (l & Hl & ->). exists l. split; [exact Hl|reflexivity].
  - destruct H as (d & ->). cbn [bind].
    set (sd := _construct_shape_data _ d _).
    destruct (add_metadata_Ok sd (_normalize_text text) 85) as (b & _ & _ & Hm).
    { apply construct_confidence. }
    rewrite (Hm now). cbn [bind try_except]. eauto.
Qed.

(** X2: [_handle_special_cases] never raises; it keeps every dimension
    it is given and adds at most a diameter, a width, a height or a radius. *)
Theorem handle_special_cases_fills_gaps text dims :
  exists d,
    _handle_special_cases text dims = Ok d /\
    (forall k q, dims !! k = Some q -> d !! k = Some q) /\
    (forall k, k <> "diameter" -> k <> "width" -> k <> "height" ->
               k <> "radius" -> d !! k = dims !! k).
Proof.
  destruct (handle_special_cases_total text dims) as (d & H).
  exists d. split; [exact H|]. now apply handle_special_cases_keeps in H.
Qed.

(** X3: whenever [_extract_dimensions] returns, its dimensions are not
    negative and their names are among diameter, width, height and radius:
    a side or a length is never extracted. *)
Theorem extracted_dimensions text d k q :
  _extract_dimensions text = Ok d -> d !! k = Some q ->
  (0 <= q)%Q /\ In k ["diameter"; "width"; "height"; "radius"].
Proof.
  intros H Hk. split.
  - exact (extract_dimensions_nonneg text d H k q Hk).
  - destruct (String.eqb k "diameter") eqn:E1;
      [apply String.eqb_eq in E1; subst; cbn; tauto|].
    destruct (String.eqb k "width") eqn:E2;
      [apply String.eqb_eq in E2; subst; cbn; tauto|].
    destruct (String.eqb k "height") eqn:E3;
      [apply String.eqb_eq in E3; subst; cbn; tauto|].
    destruct (String.eqb k "radius") eqn:E4;
      [apply String.eqb_eq in E4; subst; cbn; tauto|].
    apply String.eqb_neq in E1, E2, E3, E4.
    rewrite (extract_dimensions_keys text d H k E1 E2 E3 E4) in Hk.
    discriminate.
Qed.

Lemma extracted_dimensions_witness :
  exists d,
    _extract_dimensions "plate 100 by 50" = Ok d /\
    d !! "height" = Some 50%Q /\
    (0 <= 50)%Q /\ In "height" ["diameter"; "width"; "height"; "radius"].
Proof.
  eexists. split; [reflexivity|]. split; [reflexivity|].
  eapply (extracted_dimensions "plate 100 by 50"); reflexivity.
Defined.

Lemma type_of_construct t dims text :
  type_of (_construct_shape_data t dims text) = t.
Proof. split_construct; reflexivity. Qed.

Lemma text_record_lookup now (c : R) (sd : shape) k :
  k <> "source" -> k <> "timestamp" -> k <> "confidence" ->
  (<["source" := VStr "text_input"]>
     (<["timestamp" := VStr now]> (<["confidence" := VNum c]> sd))) !! k =
  sd !! k.
Proof. intros H1 H2 H3. now rewrite !lookup_insert_ne by congruence. Qed.

(** The parts of a record of the text pipeline. *)
Lemma process_text_parts now text hint r :
  process_text now text hint = Ok r ->
  exists dims,
    _extract_dimensions (_normalize_text text) = Ok dims /\
    let sd := _construct_shape_data
                (_detect_shape_type (_normalize_text text) hint) dims
                (_normalize_text text) in
    type_of r = _detect_shape_type (_normalize_text text) hint /\
    (forall k, k <> "source" -> k <> "timestamp" -> k <> "confidence" ->
               r !! k = sd !! k) /\
    (forall k, k <> "source" -> k <> "timestamp" -> k <> "confidence" ->
               num_field r k = num_field sd k).
Proof.
  intros H. apply process_text_Ok in H as (dims & b & Hd & Hb & ->).
  exists dims. split; [exact Hd|]. cbv zeta. split; [|split].
  - unfold type_of at 1. rewrite text_record_lookup by discriminate.
    apply type_of_construct.
  - intros k H1 H2 H3. now apply text_record_lookup.
  - intros k H1 H2 H3. unfold num_field.
    now rewrite text_record_lookup.
Qed.

(** Reads a numeric field of an explicit record and leaves the equation
    between the numbers. *)
Ltac field_is :=
  match goal with
  | |- ?lhs = Some ?x =>
      let y := fresh "y" in
      let Hy := fresh "Hy" in
      evar (y : R);
      assert (Hy : lhs = Some y) by (subst y; reflexivity);
      rewrite Hy; subst y; clear Hy; apply (f_equal Some)
  end.

(** X4: a hexagon of the text pipeline always has the default side of
    50, whatever the text says: width 100, perimeter 300 and area
    3 * sqrt 3 * 50 * 50 / 2. *)
Theorem text_hexagon_side_is_default now text hint r :
  process_text now text hint = Ok r -> type_of r = "hexagon" ->
  num_field r "side_length" = Some 50%R /\
  num_field r "width" = Some 100%R /\
  num_field r "perimeter" = Some 300%R /\
  num_field r "area" = Some (3 * sqrt 3 * 50 * 50 / 2)%R.
Proof.
  intros H Ht. apply process_text_parts in H as (dims & Hd & Hty & _ & Hn).
  cbv zeta in Hn. rewrite Ht in Hty. rewrite !Hn by discriminate.
  rewrite <- Hty. clear Hn Hty Ht.
  unfold _construct_shape_data. simpl (String.eqb _ _). cbv iota.
  unfold _construct_hexagon_data, get, update.
  rewrite (extract_dimensions_keys _ dims Hd "side") by discriminate.
  change 50%Q with (inject_Z 50).
  repeat split; field_is; rewrite ?Q2R_IZ; lra.
Qed.

Lemma get_absent {V} k (d : gmap string V) dflt :
  has_key k d = false -> get d k dflt = dflt.
Proof. unfold has_key, get. now destruct (d !! k). Qed.

(** X5: a circle of the text pipeline has a radius that is not negative,
    the diameter twice the radius, the area pi r r and the perimeter
    2 pi r. *)
Theorem text_circle_geometry now text hint r :
  process_text now text hint = Ok r -> type_of r = "circle" ->
  exists rho,
    (0 <= rho)%R /\
    num_field r "radius" = Some rho /\
    num_field r "diameter" = Some (2 * rho)%R /\
    num_field r "area" = Some (PI * rho * rho)%R /\
    num_field r "perimeter" = Some (2 * PI * rho)%R.
Proof.
  intros H Ht. apply process_text_parts in H as (dims & Hd & Hty & _ & Hn).
  cbv zeta in Hn. rewrite Ht in Hty.
  assert (Hnn := extract_dimensions_nonneg _ _ Hd).
  setoid_rewrite Hn; try discriminate.
  rewrite <- Hty. clear Hn Hty Ht.
  unfold _construct_shape_data. simpl (String.eqb _ _). cbv iota.
  unfold _construct_circle_data, update.
  destruct (has_key "diameter" dims) eqn:E1;
    [|rewrite (get_absent "diameter" dims) by exact E1;
      destruct (has_key "radius" dims)];
    eexists; (split; [|split; [field_is; reflexivity|]]);
    try (apply Q2R_nonneg; qnonneg);
    repeat split; field_is; rewrite ?Q2R_half, ?Q2R_double; lra.
Qed.

Lemma py_min_id a b : (b <= a)%R -> py_min a b = b.
Proof. intros H. unfold py_min, Rltb. destruct (Rlt_dec b a); lra. Qed.

(** X6: the confidence of a record of the text pipeline is 90, plus 5
    when the normalised text contains a unit, plus 5 when it contains the
    name of a shape. *)
Theorem text_confidence_formula now text hint r :
  process_text now text hint = Ok r ->
  let t := _normalize_text text in
  num_field r "confidence" =
    Some (IZR (90 + (if any_in ["mm"; "cm"; "m"; "in"; "ft"] t then 5 else 0)
                  + (if any_in ["circle"; "rectangle"; "triangle"; "hexagon"] t
                     then 5 else 0))).
Proof.
  unfold process_text.
  destruct (_extract_dimensions (_normalize_text text)) as [dims|e];
    cbn [bind try_except]; [|discriminate].
  set (t := _normalize_text text).
  unfold _add_metadata, item. cbv zeta.
  set (bu := any_in ["mm"; "cm"; "m"; "in"; "ft"] t).
  set (bs := any_in ["circle"; "rectangle"; "triangle"; "hexagon"] t).
  clearbody bu bs.
  rewrite (construct_confidence _ dims t).
  cbn [bind as_num].
  pose proof (construct_len (_detect_shape_type t hint) dims t) as Hlen.
  apply Nat.ltb_lt in Hlen. rewrite Hlen.
  intros [= <-]. cbv zeta. unfold num_field.
  rewrite !lookup_insert_ne by discriminate. rewrite lookup_insert_eq.
  apply (f_equal Some).
  destruct bu, bs; rewrite ?plus_IZR; rewrite py_min_id; lra.
Qed.

Lemma vertex_count_other t :
  ~ In t SUPPORTED_SHAPES -> _get_vertex_count t = 4%Z.
Proof.
  intros H. cbn [In SUPPORTED_SHAPES] in H.
  unfold _get_vertex_count, get, vertex_counts.
  cbn [list_to_map foldr uncurry].
  rewrite !lookup_insert_ne by (intros <-; tauto).
  now rewrite lookup_empty.
Qed.

(** X7: with a hint that is neither "Auto-detect" nor, lower-cased, one
    of the five types, the record has the lower-cased hint as its type and
    is built as a polygon: 4 vertices, side 50, perimeter 400 and area
    0.8 * width * height. *)
Theorem text_unsupported_hint now text hint r :
  hint <> "Auto-detect" -> ~ In (lower hint) SUPPORTED_SHAPES ->
  process_text now text hint = Ok r ->
  r !! "type" = Some (VStr (lower hint)) /\
  r !! "vertices" = Some (VInt 4) /\
  num_field r "side_length" = Some 50%R /\
  num_field r "perimeter" = Some 400%R /\
  exists w h,
    num_field r "width" = Some w /\ num_field r "height" = Some h /\
    num_field r "area" = Some (w * h * 0.8)%R.
Proof.
  intros Ha Hs H.
  apply process_text_parts in H as (dims & Hd & _ & Hk & Hn).
  cbv zeta in Hk, Hn.
  setoid_rewrite Hn; try discriminate. rewrite !Hk by discriminate.
  clear Hk Hn.
  unfold _detect_shape_type. apply String.eqb_neq in Ha. rewrite Ha.
  cbn [negb]. set (t := lower hint) in *.
  pose proof (vertex_count_other t Hs) as Hv.
  cbn [In SUPPORTED_SHAPES] in Hs.
  unfold _construct_shape_data.
  rewrite Hv.
  repeat match goal with
         | |- context [String.eqb t ?s] =>
             let E := fresh "E" in
             destruct (String.eqb t s) eqn:E;
             [apply String.eqb_eq in E; symmetry in E; tauto|]
         end.
  unfold _construct_polygon_data, update, get.
  rewrite (extract_dimensions_keys _ dims Hd "side") by discriminate.
  split; [reflexivity|]. split; [reflexivity|].
  change 50%Q with (inject_Z 50).
  split; [field_is; rewrite Q2R_IZ; lra|].
  split; [field_is; rewrite Q2R_IZ; lra|].
  eexists _, _. split; [field_is; reflexivity|].
  split; [field_is; reflexivity|]. field_is. reflexivity.
Qed.

Lemma lower_char_idem c : lower_char (lower_char c) = lower_char c.
Proof. destruct c as [[] [] [] [] [] [] [] []]; reflexivity. Qed.

Lemma lower_idem s : lower (lower s) = lower s.
Proof.
  induction s as [|c s IH]; [reflexivity|].
  cbn [lower]. now rewrite lower_char_idem, IH.
Qed.

(** X8: [_convert_to_mm] does not depend on the case of the unit, is
    linear in the value, keeps a value that is not negative so, and leaves
    the value as it is on a unit it does not know. *)
Theorem convert_to_mm_properties v u :
  _convert_to_mm v u = _convert_to_mm v (lower u) /\
  (_convert_to_mm v u == v * _convert_to_mm 1 u)%Q /\
  ((0 <= v)%Q -> (0 <= _convert_to_mm v u)%Q) /\
  (units !! lower u = None -> _convert_to_mm v u = v).
Proof.
  split; [|split; [|split]].
  - unfold _convert_to_mm. now rewrite lower_idem.
  - unfold _convert_to_mm. destruct (units !! lower u); ring.
  - apply convert_to_mm_nonneg.
  - unfold _convert_to_mm. now intros ->.
Qed.

Lemma lower_char_not_upper c : not_upper (lower_char c) = true.
Proof. destruct c as [[] [] [] [] [] [] [] []]; reflexivity. Qed.

Lemma lower_not_upper s : all_chars not_upper (lower s) = true.
Proof.
  induction s as [|c s IH]; [reflexivity|].
  cbn [lower all_chars]. now rewrite lower_char_not_upper, IH.
Qed.

Lemma lstrip_chars P s : all_chars P s = true -> all_chars P (lstrip s) = true.
Proof.
  induction s as [|c s IH]; [reflexivity|]. cbn [lstrip]. intros H.
  destruct (is_space c); [|exact H].
  cbn [all_chars] in H. apply andb_prop in H as [_ H]. auto.
Qed.

Lemma rstrip_chars P s : all_chars P s = true -> all_chars P (rstrip s) = true.
Proof.
  induction s as [|c s IH]; [reflexivity|]. cbn [rstrip all_chars]. intros H.
  apply andb_prop in H as [Hc H]. specialize (IH H).
  destruct (rstrip s) as [|c' t].
  - destruct (is_space c); [reflexivity|]. cbn [all_chars]. now rewrite Hc.
  - cbn [all_chars] in *. now rewrite Hc, IH.
Qed.

Lemma lstrip_first s : not_space (next (lstrip s)).
Proof.
  induction s as [|c s IH]; [exact I|]. cbn [lstrip].
  destruct (is_space c) eqn:E; [exact IH|exact E].
Qed.

Lemma rstrip_first s : not_space (next s) -> not_space (next (rstrip s)).
Proof.
  destruct s as [|c s]; [easy|]. cbn [next not_space rstrip]. intros H.
  destruct (rstrip s); [rewrite H|]; exact H.
Qed.

Lemma rstrip_last s : not_space (last_of (rstrip s)).
Proof.
  induction s as [|c s IH]; [exact I|]. cbn [rstrip].
  destruct (rstrip s) as [|c' t] eqn:E.
  - destruct (is_space c) eqn:Ec; [exact I|exact Ec].
  - exact IH.
Qed.

(** X9: a normalised text has no upper-case letter and neither starts
    nor ends with white space. *)
Theorem normalize_text_shape text :
  all_chars not_upper (_normalize_text text) = true /\
  not_space (next (_normalize_text text)) /\
  not_space (last_of (_normalize_text text)).
Proof.
  unfold _normalize_text, strip. split; [|split].
  - apply rstrip_chars, lstrip_chars.
    repeat (apply sub_chars; [reflexivity|]). apply lower_not_upper.
  - apply rstrip_first, lstrip_first.
  - apply rstrip_last.
Qed.


(** ** The sketch pipeline *)

Ltac detector_anatomy_case E :=
  apply Rltb_true_iff in E;
  split; [reflexivity|]; split; [first [exact I|assumption|reflexivity]|];
  split; [reflexivity|];
  split; [reflexivity|]; split; [reflexivity|];
  eexists; split; [reflexivity|]; cbn [accepted_above]; lra.

(** What a detector returns when it accepts. *)
Lemma detector_anatomy name (D : detector) approx c p s :
  In (name, D) shape_templates -> D approx c p = Some s ->
  s !! "type" = Some (VStr name) /\
  vertex_rule name (vlen approx) /\
  s !! "vertices" = Some (VInt (vlen approx)) /\
  s !! "area" = Some (VNum (contourArea c)) /\
  s !! "perimeter" = Some (VNum (arcLength c)) /\
  exists x,
    s !! "confidence" = Some (VNum (py_min 100 (x * 100))) /\
    (accepted_above name p < x)%R.
Proof.
  intros Hin. cbn [In shape_templates] in Hin.
  destruct Hin as [[= <- <-]|[[= <- <-]|[[= <- <-]|[[= <- <-]|[[= <- <-]|[]]]]]];
    cbn [vertex_rule].
  - unfold _detect_circle. destruct (Req_dec_T (arcLength c) 0); [discriminate|].
    destruct (Rltb _ _) eqn:E; [|discriminate].
    destruct (minEnclosingCircle c) as [[x y] radius].
    intros [= <-]. detector_anatomy_case E.
  - unfold _detect_rectangle.
    destruct (vlen approx =? 4)%Z eqn:Ev; [|discriminate].
    apply Z.eqb_eq in Ev.
    destruct (boundingRect c) as [[[x y] w] h].
    destruct (Rltb _ _) eqn:E; [|discriminate].
    intros [= <-]. rewrite Ev. detector_anatomy_case E.
  - unfold _detect_triangle.
    destruct (vlen approx =? 3)%Z eqn:Ev; [|discriminate].
    apply Z.eqb_eq in Ev.
    destruct (boundingRect c) as [[[x y] w] h].
    destruct (Rltb _ _) eqn:E; [|discriminate].
    intros [= <-]. rewrite Ev. detector_anatomy_case E.
  - unfold _detect_hexagon.
    destruct (vlen approx =? 6)%Z eqn:Ev; [|discriminate].
    apply Z.eqb_eq in Ev.
    destruct (boundingRect c) as [[[x y] w] h].
    destruct (Rltb _ _) eqn:E; [|discriminate].
    intros [= <-]. rewrite Ev. detector_anatomy_case E.
  - unfold _detect_polygon.
    destruct (6 <? vlen approx)%Z eqn:Ev; [|discriminate].
    apply Z.ltb_lt in Ev.
    destruct (boundingRect c) as [[[x y] w] h].
    destruct (Rltb _ _) eqn:E; [|discriminate].
    intros [= <-]. detector_anatomy_case E.
Qed.

Lemma detector_hypothesis name (D : detector) approx c p s :
  In (name, D) shape_templates -> D approx c p = Some s -> is_hypothesis s.
Proof.
  intros Hin H.
  destruct (detector_anatomy name D approx c p s Hin H)
    as (Ht & _ & _ & _ & _ & x & Hc & _).
  now exists name, (py_min 100 (x * 100)).
Qed.

Lemma detect_shapes_hypotheses contours p :
  Forall is_hypothesis (_detect_shapes contours p).
Proof.
  apply Forall_forall. intros s Hs. apply list_elem_of_In in Hs.
  unfold _detect_shapes in Hs. apply in_flat_map in Hs as (c & _ & Hs).
  apply hypotheses_of_inv in Hs as (name & D & s0 & Hin & HD & ->).
  repeat apply is_hypothesis_insert; try discriminate.
  exact (detector_hypothesis name D _ c p s0 Hin HD).
Qed.

Lemma select_best_shape_total l hint :
  Forall is_hypothesis l -> exists r, _select_best_shape l hint = Ok r.
Proof.
  intros Hl. unfold _select_best_shape.
  destruct l as [|s0 l0]; [eauto|]. set (l := s0 :: l0) in *.
  assert (Hall : exists r, max_by_confidence l = Ok r).
  { destruct (max_by_confidence_first_max l Hl) as (r & _ & _ & Hr & _);
      [easy|eauto]. }
  destruct (negb (String.eqb hint "Auto-detect")); [|exact Hall].
  rewrite (of_type_filter _ l Hl). cbn [bind].
  destruct (List.filter (has_type (lower hint)) l) as [|s1 f1] eqn:Hf;
    [exact Hall|].
  rewrite <- Hf.
  destruct (max_by_confidence_first_max (List.filter (has_type (lower hint)) l))
    as (r & _ & _ & Hr & _).
  { now apply Forall_filter_keep. }
  { now rewrite Hf. }
  eauto.
Qed.

Lemma detect_shapes_below_floor contours p :
  Forall (fun c => (contourArea c <= IZR (100 * p))%R) contours ->
  _detect_shapes contours p = [].
Proof.
  intros H. unfold _detect_shapes.
  replace (List.filter _ contours) with (@nil contour); [reflexivity|].
  induction H as [|c cs Hc _ IH]; [reflexivity|].
  cbn [List.filter]. now rewrite Rltb_false.
Qed.

(** X11: when no contour has an area above 100 * precision, the sketch
    pipeline returns the fallback circle (radius 50, confidence 50, area
    7854, perimeter 314), whatever the hint, and the record has no
    contour. *)
Theorem process_sketch_below_noise_floor now contours hint p :
  p <> 0%Z ->
  Forall (fun c => (contourArea c <= IZR (100 * p))%R) contours ->
  exists r,
    process_sketch now contours hint p = Ok r /\
    r !! "type" = Some (VStr "circle") /\
    r !! "radius" = Some (VInt 50) /\
    r !! "confidence" = Some (VNum 50) /\
    r !! "vertices" = Some (VInt 0) /\
    r !! "area" = Some (VNum 7854) /\
    r !! "perimeter" = Some (VNum 314) /\
    r !! "contour" = None.
Proof.
  intros Hp H.
  destruct (process_sketch_best now contours hint p default_circle Hp)
    as (r & Hr & Hk).
  { now rewrite (detect_shapes_below_floor contours p H). }
  exists r. split; [exact Hr|].
  rewrite !Hk by discriminate. repeat split; reflexivity.
Qed.

Lemma process_sketch_below_noise_floor_witness :
  exists r,
    process_sketch "2026-01-01T00:00:00"
      [ {| contourArea := 650; arcLength := 95;
           boundingRect := (5, 5, 30, 30)%Z;
           minEnclosingCircle := (20, 20, 15)%R;
           approxPolyDP := [(5, 5); (34, 5); (34, 34); (5, 34)]%Z |} ]
      "Rectangle" 7 = Ok r /\
    r !! "type" = Some (VStr "circle") /\
    r !! "confidence" = Some (VNum 50).
Proof.
  edestruct (process_sketch_below_noise_floor "2026-01-01T00:00:00")
    as (r & Hr & Ht & _ & Hc & _);
    [| |exists r; split; [exact Hr|split; [exact Ht|exact Hc]]].
  - discriminate.
  - constructor; [|constructor]. cbn [contourArea].
    change (100 * 7)%Z with 700%Z. lra.
Defined.

(** X12: every hypothesis of [_detect_shapes] comes from a contour above
    the noise floor, has one of the five types with the number of
    approximated points that the type asks for, stores that number as its
    vertices and the measured area and arc length of the contour, and
    carries the contour and its approximation. *)
Theorem hypothesis_fields contours p s :
  In s (_detect_shapes contours p) ->
  exists c name,
    In c contours /\ (IZR (100 * p) < contourArea c)%R /\
    In name SUPPORTED_SHAPES /\
    s !! "type" = Some (VStr name) /\
    vertex_rule name (vlen (approxPolyDP c)) /\
    s !! "vertices" = Some (VInt (vlen (approxPolyDP c))) /\
    s !! "area" = Some (VNum (contourArea c)) /\
    s !! "perimeter" = Some (VNum (arcLength c)) /\
    s !! "contour" = Some (VContour c) /\
    s !! "approx_contour" = Some (VApprox (approxPolyDP c)).
Proof.
  intros Hs. unfold _detect_shapes in Hs.
  apply in_flat_map in Hs as (c & Hc & Hs).
  apply filter_In in Hc as [Hc Ha]. apply Rltb_true_iff in Ha.
  apply hypotheses_of_inv in Hs as (name & D & s0 & Hin & HD & ->).
  destruct (detector_anatomy name D _ c p s0 Hin HD)
    as (Ht & Hv & Hn & Har & Hp & _).
  exists c, name. split; [exact Hc|]. split; [exact Ha|]. split.
  { cbn [In shape_templates] in Hin. cbn [In SUPPORTED_SHAPES].
    intuition congruence. }
  rewrite !lookup_insert_ne by discriminate. rewrite !lookup_insert_eq.
  auto 10.
Qed.

(** X13: at a precision from 1 to 10, the confidence of a hypothesis is at
    least the acceptance threshold of its detector (as a percentage), at
    least 30, and at most 100. *)
Theorem hypothesis_confidence_bounds contours p s :
  (1 <= p <= 10)%Z -> In s (_detect_shapes contours p) ->
  exists name x,
    s !! "type" = Some (VStr name) /\
    s !! "confidence" = Some (VNum x) /\
    (accepted_above name p * 100 <= x <= 100)%R /\
    (30 <= x)%R.
Proof.
  intros [Hp1 Hp2] Hs. apply IZR_le in Hp1, Hp2.
  unfold _detect_shapes in Hs.
  apply in_flat_map in Hs as (c & _ & Hs).
  apply hypotheses_of_inv in Hs as (name & D & s0 & Hin & HD & ->).
  destruct (detector_anatomy name D _ c p s0 Hin HD)
    as (Ht & _ & _ & _ & _ & x & Hc & Hx).
  exists name, (py_min 100 (x * 100)).
  rewrite !lookup_insert_ne by discriminate.
  split; [exact Ht|]. split; [exact Hc|].
  assert (Hb : (0.3 <= accepted_above name p <= 0.9)%R).
  { cbn [In shape_templates] in Hin.
    destruct Hin as [[= <- _]|[[= <- _]|[[= <- _]|[[= <- _]|[[= <- _]|[]]]]]];
      cbn [accepted_above]; lra. }
  pose proof (py_min_le_l 100 (x * 100)).
  assert ((accepted_above name p * 100 < py_min 100 (x * 100))%R).
  { unfold py_min, Rltb. destruct (Rlt_dec (x * 100) 100); lra. }
  lra.
Qed.

(** X14: [_enhance_shape_data] keeps the other fields of the record,
    marks it manufacturable, stamps it, stores the scale factor
    1 + (precision - 5) * 0.1 and a least feature size of at least 1, which
    is 10 / precision at a precision from 1 to 10. *)
Theorem enhance_shape_data_fields now (s : shape) p r :
  _enhance_shape_data now s p = Ok r ->
  (forall k, k <> "scale_factor" -> k <> "manufacturable" ->
             k <> "min_feature_size" -> k <> "timestamp" ->
             r !! k = s !! k) /\
  r !! "manufacturable" = Some (VBool true) /\
  r !! "timestamp" = Some (VStr now) /\
  r !! "scale_factor" = Some (VNum (1 + (IZR p - 5) * 0.1)) /\
  exists m,
    r !! "min_feature_size" = Some (VNum m) /\ (1 <= m)%R /\
    ((1 <= p <= 10)%Z -> m = (10 / IZR p)%R /\ (m <= 10)%R).
Proof.
  intros H. apply enhance_shape_data_Ok in H as ->.
  split; [intros k H1 H2 H3 H4; now rewrite !lookup_insert_ne|].
  split; [now rewrite !lookup_insert_ne, lookup_insert_eq by discriminate|].
  split; [now rewrite lookup_insert_eq|].
  split; [now rewrite !lookup_insert_ne, lookup_insert_eq by discriminate|].
  exists (py_max 1 (10 / IZR p)).
  split; [now rewrite !lookup_insert_ne, lookup_insert_eq by discriminate|].
  unfold py_max, Rltb. destruct (Rlt_dec 1 (10 / IZR p)) as [Hlt|Hge].
  - split; [lra|]. intros [Hp1 Hp2]. split; [reflexivity|].
    apply IZR_le in Hp1.
    apply Rmult_le_reg_r with (IZR p); [lra|].
    unfold Rdiv. rewrite Rmult_assoc, Rinv_l by lra. lra.
  - split; [lra|]. intros [Hp1 Hp2]. apply IZR_le in Hp1, Hp2.
    assert (Hq : (1 <= 10 / IZR p)%R).
    { apply Rmult_le_reg_r with (IZR p); [lra|].
      unfold Rdiv. rewrite Rmult_assoc, Rinv_l by lra. lra. }
    split; lra.
Qed.

Lemma lookup_not_empty {V} (s : gmap string V) k v :
  s !! k = Some v -> is_empty s = false.
Proof.
  intros H. unfold is_empty. apply Nat.eqb_neq. intros Hs.
  apply map_size_empty_inv in Hs. subst s. now rewrite lookup_empty in H.
Qed.

Lemma type_of_with_contour c (s : shape) t :
  s !! "type" = Some (VStr t) -> type_of (with_contour c s) = t.
Proof.
  intros H. unfold type_of. rewrite with_contour_lookup by discriminate.
  now rewrite H.
Qed.

Lemma hypotheses_of_templates c p :
  hypotheses_of c p =
  (one_hypothesis c p _detect_circle ++ one_hypothesis c p _detect_rectangle ++
   one_hypothesis c p _detect_triangle ++ one_hypothesis c p _detect_hexagon ++
   one_hypothesis c p _detect_polygon)%list.
Proof.
  unfold hypotheses_of, shape_templates, one_hypothesis, with_contour.
  cbn [flat_map]. now rewrite app_nil_r.
Qed.

Lemma one_hypothesis_cases name D c p :
  In (name, D) shape_templates ->
  one_hypothesis c p D = [] \/
  exists s, one_hypothesis c p D = [s] /\ type_of s = name /\
            vertex_rule name (vlen (approxPolyDP c)).
Proof.
  intros Hin. unfold one_hypothesis.
  destruct (D (approxPolyDP c) c p) as [s|] eqn:E; [|now left].
  destruct (detector_anatomy name D _ c p s Hin E) as (Ht & Hv & _).
  rewrite (lookup_not_empty s _ _ Ht). right.
  exists (with_contour c s). split; [reflexivity|]. split; [|exact Hv].
  now apply type_of_with_contour.
Qed.

(** X15: one contour gives at most two hypotheses, and when it gives two,
    the first is a circle and the second is not: the tests on the number of
    points exclude one another. *)
Theorem hypotheses_per_contour c p :
  (length (hypotheses_of c p) <= 2)%nat /\
  forall s1 s2 others,
    hypotheses_of c p = s1 :: s2 :: others ->
    type_of s1 = "circle" /\ type_of s2 <> "circle".
Proof.
  rewrite hypotheses_of_templates.
  destruct (one_hypothesis_cases "circle" _detect_circle c p ltac:(cbn; tauto))
    as [-> | (sc & -> & Hc & _)];
  destruct (one_hypothesis_cases "rectangle" _detect_rectangle c p ltac:(cbn; tauto))
    as [-> | (sr & -> & Hr & Vr)];
  destruct (one_hypothesis_cases "triangle" _detect_triangle c p ltac:(cbn; tauto))
    as [-> | (st & -> & Ht & Vt)];
  destruct (one_hypothesis_cases "hexagon" _detect_hexagon c p ltac:(cbn; tauto))
    as [-> | (sh & -> & Hh & Vh)];
  destruct (one_hypothesis_cases "polygon" _detect_polygon c p ltac:(cbn; tauto))
    as [-> | (sp & -> & Hp & Vp)];
  cbn [vertex_rule] in *; try lia; cbn [app length];
  (split; [lia|]); intros s1 s2 others [=]; subst; split; congruence.
Qed.


(** ** The preprocessing and the uploaded file *)

(** X16: the side of the blur kernel of [_preprocess_image] is odd and
    at least 1 at every precision, is max(1, 11 - precision) or one more,
    and does not grow with the precision. *)
Theorem blur_kernel_odd_positive p :
  (1 <= blur_kernel_of p)%Z /\
  (blur_kernel_of p mod 2 = 1)%Z /\
  (Z.max 1 (11 - p) <= blur_kernel_of p <= Z.max 1 (11 - p) + 1)%Z /\
  forall q, (p <= q)%Z -> (blur_kernel_of q <= blur_kernel_of p)%Z.
Proof.
  assert (H : forall n, (1 <= blur_kernel_of n)%Z /\
                        (blur_kernel_of n mod 2 = 1)%Z /\
                        (Z.max 1 (11 - n) <= blur_kernel_of n
                           <= Z.max 1 (11 - n) + 1)%Z).
  { intros n. unfold blur_kernel_of. cbv zeta.
    destruct (Z.eqb_spec (Z.max 1 (11 - n) mod 2) 0) as [E|E].
    - split; [lia|]. split; [|lia].
      rewrite Z.add_mod, E by lia. reflexivity.
    - pose proof (Z.mod_pos_bound (Z.max 1 (11 - n)) 2 ltac:(lia)).
      split; [lia|]. split; lia. }
  destruct (H p) as (H1 & H2 & H3). repeat split; try assumption; try lia.
  intros q Hq. destruct (H q) as (Q1 & Q2 & Q3).
  destruct (Z.eq_dec (Z.max 1 (11 - q)) (Z.max 1 (11 - p))) as [E|E].
  - unfold blur_kernel_of. cbv zeta. rewrite E. lia.
  - assert (Z.max 1 (11 - q) < Z.max 1 (11 - p))%Z by lia.
    destruct (Z.eq_dec (blur_kernel_of q) (Z.max 1 (11 - q))) as [E1|E1]; [lia|].
    destruct (Z.eq_dec (blur_kernel_of p) (Z.max 1 (11 - p))) as [E2|E2]; [lia|].
    assert (E3 : blur_kernel_of q = (Z.max 1 (11 - q) + 1)%Z) by lia.
    assert (E4 : blur_kernel_of p = (Z.max 1 (11 - p) + 1)%Z) by lia.
    lia.
Qed.

Lemma process_sketch_returns now contours hint p :
  if (p =? 0)%Z
  then process_sketch now contours hint p =
         Raise (Exception "Sketch processing failed: float division by zero")
  else exists r, process_sketch now contours hint p = Ok r.
Proof.
  destruct (select_best_shape_total (_detect_shapes contours p) hint
              (detect_shapes_hypotheses contours p)) as (best & Hb).
  unfold process_sketch. rewrite Hb. cbn [bind]. unfold _enhance_shape_data.
  destruct (p =? 0)%Z; cbn [bind try_except]; [reflexivity|eauto].
Qed.

Section UploadFacts.

Variables upload image : Type.
Variable imdecode : upload -> option image.
Variable cvtColor_BGR2GRAY : image -> image.
Variable GaussianBlur : image -> Z * Z -> Z -> image.
Variable adaptiveThreshold_GAUSSIAN_C_BINARY_INV : image -> Z -> Z -> Z -> image.
Variable morphologyEx : image -> bool -> Z * Z -> image.
Variable findContours : image -> list contour.

Local Abbreviation run :=
  (process_sketch_upload upload image imdecode cvtColor_BGR2GRAY GaussianBlur
     adaptiveThreshold_GAUSSIAN_C_BINARY_INV morphologyEx findContours).

Local Abbreviation contours_of img p :=
  (findContours
     (_preprocess_image image cvtColor_BGR2GRAY GaussianBlur
        adaptiveThreshold_GAUSSIAN_C_BINARY_INV morphologyEx img p)).

Lemma process_sketch_upload_decoded now file hint p img :
  imdecode file = Some img ->
  run now file hint p = process_sketch now (contours_of img p) hint p.
Proof.
  intros H. unfold process_sketch_upload, process_sketch. now rewrite H.
Qed.

(** X10: [process_sketch] on an uploaded file raises "Could not decode
    uploaded image" when the file is no image; on an image it does what
    the detection does on the contours of the preprocessed image: it
    raises at precision 0, by the division in [_enhance_shape_data], and
    returns a record at every other precision. *)
Theorem process_sketch_upload_outcome now file hint p :
  match imdecode file with
  | None =>
      run now file hint p =
        Raise (Exception
                 "Sketch processing failed: Could not decode uploaded image")
  | Some img =>
      run now file hint p = process_sketch now (contours_of img p) hint p /\
      if (p =? 0)%Z
      then run now file hint p =
             Raise (Exception
                      "Sketch processing failed: float division by zero")
      else exists r, run now file hint p = Ok r
  end.
Proof.
  destruct (imdecode file) as [img|] eqn:E.
  - rewrite (process_sketch_upload_decoded now file hint p img E).
    split; [reflexivity|]. apply process_sketch_returns.
  - unfold process_sketch_upload. now rewrite E.
Qed.

End UploadFacts.


(** ** The drawing *)

Lemma result_bind_Ok {A B} (m : result A) (k : A -> result B) b :
  (let* x := m in k x) = Ok b -> exists a, m = Ok a /\ k a = Ok b.
Proof. destruct m as [a|e]; cbn [bind]; [eauto|discriminate]. Qed.

Lemma outlines_app es1 es2 :
  outlines (es1 ++ es2) = (outlines es1 ++ outlines es2)%list.
Proof. unfold outlines. apply flat_map_app. Qed.

Lemma add_metadata_outlines now r p notes :
  DXFGenerator._add_metadata now r p = Ok notes -> outlines notes = [].
Proof.
  unfold DXFGenerator._add_metadata. intros H.
  apply result_bind_Ok in H as (t & _ & H).
  apply result_bind_Ok in H as (c & _ & H).
  now injection H as <-.
Qed.

(** The parts of the modelspace. *)
Lemma modelspace_parts now r p es :
  DXFGenerator.modelspace now r p = Ok es ->
  exists drawn notes,
    es = (drawn ++ notes)%list /\
    DXFGenerator._add_metadata now r p = Ok notes /\
    outlines es = outlines drawn /\
    let t := get r "type" (VStr "circle") in
    (if DXFGenerator.is_str t "circle" then DXFGenerator._generate_circle r p
     else if DXFGenerator.is_str t "rectangle"
          then DXFGenerator._generate_rectangle r p
     else if DXFGenerator.is_str t "triangle"
          then DXFGenerator._generate_triangle r p
     else if DXFGenerator.is_str t "hexagon"
          then DXFGenerator._generate_hexagon r p
     else DXFGenerator._generate_polygon r p) = Ok drawn.
Proof.
  unfold DXFGenerator.modelspace. intros H.
  apply result_bind_Ok in H as (drawn & Hd & H).
  apply result_bind_Ok in H as (notes & Hn & H).
  injection H as <-. exists drawn, notes.
  split; [reflexivity|]. split; [exact Hn|]. split; [|exact Hd].
  rewrite outlines_app, (add_metadata_outlines now r p notes Hn).
  apply app_nil_r.
Qed.

Ltac generator_parts H :=
  repeat (let x := fresh "x" in
          let Hx := fresh "Hx" in
          apply result_bind_Ok in H as (x & Hx & H));
  injection H as <-.

(** X17: the modelspace of a circle record has no polyline and starts
    with the circle; that of any other record has one polyline, marked
    closed, whose last point repeats the first, with 5 points for a
    rectangle, 4 for a triangle, 7 for a hexagon and 9 for any other
    type. *)
Theorem drawn_outline now r p es :
  DXFGenerator.modelspace now r p = Ok es ->
  let t := get r "type" (VStr "circle") in
  if DXFGenerator.is_str t "circle"
  then outlines es = [] /\
       exists c rho, head es = Some (DXFGenerator.Circle c rho DXFGenerator.plain)
  else exists pts v,
         outlines es = [pts] /\
         In (DXFGenerator.LWPolyline pts DXFGenerator.closed) es /\
         head pts = Some v /\ last pts = Some v /\
         length pts =
           if DXFGenerator.is_str t "rectangle" then 5%nat
           else if DXFGenerator.is_str t "triangle" then 4%nat
           else if DXFGenerator.is_str t "hexagon" then 7%nat
           else 9%nat.
Proof.
  intros H. apply modelspace_parts in H as (drawn & notes & -> & _ & -> & H).
  cbv zeta in *.
  destruct (DXFGenerator.is_str _ "circle").
  { unfold DXFGenerator._generate_circle in H. generator_parts H.
    split; [reflexivity|]. eexists _, _. reflexivity. }
  destruct (DXFGenerator.is_str _ "rectangle").
  { unfold DXFGenerator._generate_rectangle in H. generator_parts H.
    eexists _, _. split; [reflexivity|]. split; [now left|].
    repeat split; reflexivity. }
  destruct (DXFGenerator.is_str _ "triangle").
  { unfold DXFGenerator._generate_triangle in H. generator_parts H.
    eexists _, _. split; [reflexivity|]. split; [now left|].
    repeat split; reflexivity. }
  destruct (DXFGenerator.is_str _ "hexagon").
  { unfold DXFGenerator._generate_hexagon in H. generator_parts H.
    eexists _, _. split; [reflexivity|]. split; [now left|].
    repeat split; reflexivity. }
  unfold DXFGenerator._generate_polygon in H. generator_parts H.
  eexists _, _. split; [reflexivity|]. split; [now left|].
  repeat split; reflexivity.
Qed.

Lemma on_circle (c : DXFGenerator.point) s a :
  dist2 (fst c + s * cos a, snd c + s * sin a)%R c = (s * s)%R.
Proof.
  unfold dist2. cbn [fst snd].
  pose proof (sin2_cos2 a) as H. unfold Rsqr in H.
  replace ((fst c + s * cos a - fst c) * (fst c + s * cos a - fst c) +
           (snd c + s * sin a - snd c) * (snd c + s * sin a - snd c))%R
    with (s * s * (sin a * sin a + cos a * cos a))%R by ring.
  rewrite H. ring.
Qed.

Lemma ring_on_circle c s n k :
  Forall (fun v => dist2 v c = (s * s)%R) (DXFGenerator.ring c s n k).
Proof.
  unfold DXFGenerator.ring. cbv zeta.
  assert (H : Forall (fun v => dist2 v c = (s * s)%R)
                (map (fun i => (fst c + s * cos (INR i * PI / k),
                                snd c + s * sin (INR i * PI / k))%R)
                     (seq 0 n))).
  { apply Forall_forall. intros v Hv. apply list_elem_of_In in Hv.
    apply in_map_iff in Hv as (i & <- & _). apply on_circle. }
  apply Forall_app. split; [exact H|]. now apply Forall_take.
Qed.

(** The side that the generator reads from a record. *)
Lemma regular_outline_of now r p es :
  DXFGenerator.modelspace now r p = Ok es ->
  let t := get r "type" (VStr "circle") in
  DXFGenerator.is_str t "circle" = false ->
  DXFGenerator.is_str t "rectangle" = false ->
  DXFGenerator.is_str t "triangle" = false ->
  exists side center pts,
    DXFGenerator.as_number (get r "side_length" (VNum 50)) = Ok side /\
    DXFGenerator.as_point (get r "center" (VPoint 0 0)) = Ok center /\
    outlines es = [pts] /\
    Forall (fun v => dist2 v center =
                       (side * drawing_scale p * (side * drawing_scale p))%R)
           pts.
Proof.
  intros H t Hc Hr Ht.
  apply modelspace_parts in H as (drawn & notes & -> & _ & -> & H).
  cbv zeta in H. fold t in H. rewrite Hc, Hr, Ht in H.
  destruct (DXFGenerator.is_str t "hexagon").
  - unfold DXFGenerator._generate_hexagon in H.
    apply result_bind_Ok in H as (side & Hs & H).
    apply result_bind_Ok in H as (center & Hcen & H).
    injection H as <-. exists side, center. eexists.
    split; [exact Hs|]. split; [exact Hcen|]. split; [reflexivity|].
    apply ring_on_circle.
  - unfold DXFGenerator._generate_polygon in H.
    apply result_bind_Ok in H as (side & Hs & H).
    apply result_bind_Ok in H as (center & Hcen & H).
    injection H as <-. exists side, center. eexists.
    split; [exact Hs|]. split; [exact Hcen|]. split; [reflexivity|].
    apply ring_on_circle.
Qed.

(** X18: for a record that is no circle, rectangle or triangle, every
    point of the outline lies at the distance side * (1 + (precision - 5) *
    0.05) from the centre, where the side is the side length of the record
    or 50. *)
Theorem regular_outline now r p es :
  DXFGenerator.modelspace now r p = Ok es ->
  DXFGenerator.is_str (get r "type" (VStr "circle")) "circle" = false ->
  DXFGenerator.is_str (get r "type" (VStr "circle")) "rectangle" = false ->
  DXFGenerator.is_str (get r "type" (VStr "circle")) "triangle" = false ->
  exists side center pts,
    DXFGenerator.as_number (get r "side_length" (VNum 50)) = Ok side /\
    DXFGenerator.as_point (get r "center" (VPoint 0 0)) = Ok center /\
    outlines es = [pts] /\
    Forall (fun v => dist2 v center =
                       (side * drawing_scale p * (side * drawing_scale p))%R)
           pts.
Proof. intros H. exact (regular_outline_of now r p es H). Qed.


Lemma get_insert_ne {V} (d : gmap string V) k k' v dflt :
  k <> k' -> get (<[k := v]> d) k' dflt = get d k' dflt.
Proof. intros H. unfold get. now rewrite lookup_insert_ne. Qed.

Lemma get_delete_ne {V} (d : gmap string V) k k' dflt :
  k <> k' -> get (delete k d) k' dflt = get d k' dflt.
Proof. intros H. unfold get. now rewrite lookup_delete_ne. Qed.

Lemma not_in_cons {A} (x a : A) l : ~ In x (a :: l) -> a <> x /\ ~ In x l.
Proof. cbn [In]. tauto. Qed.

Ltac frame_keys H :=
  repeat match type of H with
         | ~ In _ (_ :: _) =>
             let E := fresh "E" in
             apply not_in_cons in H as [E H]
         end.

(** The generator reads the same from two records that agree on the fields
    it reads. *)
Lemma modelspace_reads now (r r' : shape) p :
  (forall k dflt, In k (read_fields (get r "type" (VStr "circle"))) ->
                  get r' k dflt = get r k dflt) ->
  DXFGenerator.modelspace now r' p = DXFGenerator.modelspace now r p.
Proof.
  intros H.
  assert (Ht : forall d, get r' "type" d = get r "type" d).
  { intros d. apply H. unfold read_fields. cbn. tauto. }
  assert (Hc : forall d, get r' "center" d = get r "center" d).
  { intros d. apply H. unfold read_fields. cbn. tauto. }
  assert (Hs : forall d, get r' "timestamp" d = get r "timestamp" d).
  { intros d. apply H. unfold read_fields. cbn. tauto. }
  assert (Hf : forall d, get r' "confidence" d = get r "confidence" d).
  { intros d. apply H. unfold read_fields. cbn. tauto. }
  unfold DXFGenerator.modelspace, DXFGenerator._add_metadata.
  rewrite !Ht, Hs, Hf. f_equal.
  unfold read_fields in H.
  destruct (DXFGenerator.is_str _ "circle").
  { unfold DXFGenerator._generate_circle. rewrite Hc.
    rewrite (H "radius") by (cbn; tauto). reflexivity. }
  destruct (DXFGenerator.is_str _ "rectangle").
  { unfold DXFGenerator._generate_rectangle. rewrite Hc.
    rewrite (H "width"), (H "height") by (cbn; tauto). reflexivity. }
  destruct (DXFGenerator.is_str _ "triangle").
  { unfold DXFGenerator._generate_triangle. rewrite Hc.
    rewrite (H "width"), (H "height") by (cbn; tauto). reflexivity. }
  destruct (DXFGenerator.is_str _ "hexagon").
  { unfold DXFGenerator._generate_hexagon. rewrite Hc.
    rewrite (H "side_length") by (cbn; tauto). reflexivity. }
  unfold DXFGenerator._generate_polygon. rewrite Hc.
  rewrite (H "side_length") by (cbn; tauto). reflexivity.
Qed.

(** X19: the drawing depends only on the fields that the generator reads
    for the type of the record: setting or removing any other field, such
    as the area, the scale factor or the width of a hexagon, changes
    nothing. *)
Theorem modelspace_frame now (r : shape) p k v :
  ~ In k (read_fields (get r "type" (VStr "circle"))) ->
  DXFGenerator.modelspace now (<[k := v]> r) p =
    DXFGenerator.modelspace now r p /\
  DXFGenerator.modelspace now (delete k r) p =
    DXFGenerator.modelspace now r p.
Proof.
  intros Hk. split; apply modelspace_reads; intros k' d Hin.
  - apply get_insert_ne. now intros ->.
  - apply get_delete_ne. now intros ->.
Qed.

Lemma number_numeric (r : shape) k d :
  numeric (r !! k) -> exists x, DXFGenerator.as_number (get r k (VNum d)) = Ok x.
Proof.
  unfold numeric, get. destruct (r !! k) as [[]|]; cbn; try tauto; eauto.
Qed.

Lemma drawable_modelspace now r p :
  drawable r -> exists es, DXFGenerator.modelspace now r p = Ok es.
Proof.
  intros ((t & Ht) & (x & y & Hc) & Hr & Hw & Hh & Hs & Hf).
  destruct (number_numeric r "radius" 25 Hr) as (rad & Erad).
  destruct (number_numeric r "width" 100 Hw) as (w & Ew).
  destruct (number_numeric r "height" 75 Hh) as (h & Eh).
  destruct (number_numeric r "side_length" 50 Hs) as (s & Es).
  destruct (number_numeric r "confidence" 0 Hf) as (c & Ec).
  assert (Ecen : get r "center" (VPoint 0 0) = VPoint x y)
    by (unfold get; now rewrite Hc).
  assert (Ety : forall d, get r "type" d = VStr t)
    by (intros d; unfold get; now rewrite Ht).
  unfold DXFGenerator.modelspace, DXFGenerator._add_metadata.
  rewrite !Ety, Ec. cbn [DXFGenerator.as_str bind].
  unfold DXFGenerator._generate_circle, DXFGenerator._generate_rectangle,
    DXFGenerator._generate_triangle, DXFGenerator._generate_hexagon,
    DXFGenerator._generate_polygon.
  rewrite Erad, Ew, Eh, Es, Ecen. cbn [DXFGenerator.as_point bind].
  repeat match goal with
         | |- context [if ?b then _ else _] => destruct b
         end; cbn [bind]; eauto.
Qed.

Lemma numeric_insert_ne (r : shape) k k' v :
  k <> k' -> numeric (<[k := v]> r !! k') <-> numeric (r !! k').
Proof. intros H. now rewrite lookup_insert_ne. Qed.

Lemma drawable_insert (r : shape) k v :
  ~ In k ["type"; "center"; "radius"; "width"; "height"; "side_length";
          "confidence"] ->
  drawable r -> drawable (<[k := v]> r).
Proof.
  intros Hk. frame_keys Hk. unfold drawable.
  rewrite !lookup_insert_ne by congruence. tauto.
Qed.

(** What the generator finds in a record of the text pipeline. *)
Lemma construct_drawable t dims text :
  let sd := _construct_shape_data t dims text in
  sd !! "type" = Some (VStr t) /\
  (exists x y, sd !! "center" = Some (VPoint x y)) /\
  numeric (sd !! "radius") /\ numeric (sd !! "width") /\
  numeric (sd !! "height") /\ numeric (sd !! "side_length").
Proof.
  cbv zeta. split_construct;
    (split; [reflexivity|]); (split; [eexists _, _; reflexivity|]);
    repeat split; exact I.
Qed.

Lemma construct_side t dims text :
  dims !! "side" = None ->
  t <> "circle" -> t <> "rectangle" -> t <> "triangle" ->
  _construct_shape_data t dims text !! "side_length" = Some (VNum 50).
Proof.
  intros Hd H1 H2 H3. apply String.eqb_neq in H1, H2, H3.
  unfold _construct_shape_data. rewrite H1, H2, H3.
  unfold _construct_hexagon_data, _construct_polygon_data, update, get.
  rewrite Hd. change 50%Q with (inject_Z 50).
  destruct (String.eqb t "hexagon");
    match goal with
    | |- ?lhs = _ =>
        let y := fresh "y" in
        evar (y : R);
        assert (Hy : lhs = Some (VNum y)) by (subst y; reflexivity);
        rewrite Hy; subst y; clear Hy
    end; rewrite Q2R_IZ; reflexivity.
Qed.

Lemma text_record_drawable now text hint r :
  process_text now text hint = Ok r ->
  drawable r /\
  r !! "type" = Some (VStr (type_of r)) /\
  r !! "center" = Some (VPoint 0 0) /\
  (type_of r <> "circle" -> type_of r <> "rectangle" ->
   type_of r <> "triangle" -> r !! "side_length" = Some (VNum 50)).
Proof.
  intros H. pose proof H as H0.
  apply process_text_parts in H0 as (dims & Hd & Hty & Hk & _).
  cbv zeta in Hk. rewrite Hty.
  apply process_text_Ok in H as (dims' & b & Hd' & _ & Hr).
  rewrite Hd in Hd'. injection Hd' as <-.
  set (t := _detect_shape_type (_normalize_text text) hint) in *.
  destruct (construct_drawable t dims (_normalize_text text))
    as (Ht & (x & y & Hc) & Hrad & Hw & Hh & Hs).
  assert (Hcen : _construct_shape_data t dims (_normalize_text text) !! "center"
                 = Some (VPoint 0 0)).
  { clear. split_construct; reflexivity. }
  split; [|split; [|split]].
  - unfold drawable. rewrite !Hk by discriminate.
    split; [eauto|]. split; [eauto|].
    repeat (split; [assumption|]).
    rewrite Hr. rewrite !lookup_insert_ne by discriminate.
    rewrite lookup_insert_eq. exact I.
  - rewrite Hk by discriminate. exact Ht.
  - rewrite Hk by discriminate. exact Hcen.
  - intros H1 H2 H3. rewrite Hk by discriminate.
    apply construct_side; try assumption.
    exact (extract_dimensions_keys _ dims Hd "side"
             ltac:(discriminate) ltac:(discriminate) ltac:(discriminate)
             ltac:(discriminate)).
Qed.

(** What the generator finds in a hypothesis of a detector. *)
Lemma detector_drawable name (D : detector) approx c p s :
  In (name, D) shape_templates -> D approx c p = Some s ->
  drawable s /\ s !! "side_length" = None.
Proof.
  intros Hin. cbn [In shape_templates] in Hin.
  destruct Hin as [[= <- <-]|[[= <- <-]|[[= <- <-]|[[= <- <-]|[[= <- <-]|[]]]]]].
  - unfold _detect_circle. destruct (Req_dec_T (arcLength c) 0); [discriminate|].
    destruct (Rltb _ _); [|discriminate].
    destruct (minEnclosingCircle c) as [[x y] radius].
    intros [= <-]. unfold drawable.
    split; [|reflexivity]. split; [eexists; reflexivity|].
    split; [eexists _, _; reflexivity|]. repeat split; exact I.
  - unfold _detect_rectangle.
    destruct (vlen approx =? 4)%Z; [|discriminate].
    destruct (boundingRect c) as [[[x y] w] h].
    destruct (Rltb _ _); [|discriminate].
    intros [= <-]. unfold drawable, box_center.
    split; [|reflexivity]. split; [eexists; reflexivity|].
    split; [eexists _, _; reflexivity|]. repeat split; exact I.
  - unfold _detect_triangle.
    destruct (vlen approx =? 3)%Z; [|discriminate].
    destruct (boundingRect c) as [[[x y] w] h].
    destruct (Rltb _ _); [|discriminate].
    intros [= <-]. unfold drawable, box_center.
    split; [|reflexivity]. split; [eexists; reflexivity|].
    split; [eexists _, _; reflexivity|]. repeat split; exact I.
  - unfold _detect_hexagon.
    destruct (vlen approx =? 6)%Z; [|discriminate].
    destruct (boundingRect c) as [[[x y] w] h].
    destruct (Rltb _ _); [|discriminate].
    intros [= <-]. unfold drawable, box_center.
    split; [|reflexivity]. split; [eexists; reflexivity|].
    split; [eexists _, _; reflexivity|]. repeat split; exact I.
  - unfold _detect_polygon.
    destruct (6 <? vlen approx)%Z; [|discriminate].
    destruct (boundingRect c) as [[[x y] w] h].
    destruct (Rltb _ _); [|discriminate].
    intros [= <-]. unfold drawable, box_center.
    split; [|reflexivity]. split; [eexists; reflexivity|].
    split; [eexists _, _; reflexivity|]. repeat split; exact I.
Qed.

Lemma default_circle_drawable :
  drawable default_circle /\ default_circle !! "side_length" = None.
Proof.
  unfold drawable. split; [|reflexivity]. split; [eexists; reflexivity|].
  split; [eexists _, _; reflexivity|]. repeat split; exact I.
Qed.

Lemma sketch_record_drawable now contours hint p r :
  process_sketch now contours hint p = Ok r ->
  drawable r /\ r !! "side_length" = None.
Proof.
  intros H. apply process_sketch_Ok in H as (best & Hsel & He).
  apply enhance_shape_data_Ok in He as ->.
  assert (Hb : drawable best /\ best !! "side_length" = None).
  { apply select_best_shape_in in Hsel as [->|Hin];
      [apply default_circle_drawable| |apply detect_shapes_hypotheses].
    unfold _detect_shapes in Hin. apply in_flat_map in Hin as (c & _ & Hs).
    apply hypotheses_of_inv in Hs as (name & D & s0 & Hin & HD & ->).
    destruct (detector_drawable name D _ c p s0 Hin HD) as [Hdr Hno].
    split.
    - repeat apply drawable_insert; try exact Hdr; cbn; intuition discriminate.
    - now rewrite !lookup_insert_ne by discriminate. }
  destruct Hb as [Hdr Hno]. split.
  - repeat apply drawable_insert; try exact Hdr; cbn; intuition discriminate.
  - now rewrite !lookup_insert_ne by discriminate.
Qed.

Lemma pipeline_record_drawable now text contours hint p0 r :
  process_text now text hint = Ok r \/
  process_sketch now contours hint p0 = Ok r ->
  drawable r /\
  (type_of r <> "circle" -> type_of r <> "rectangle" ->
   type_of r <> "triangle" ->
   DXFGenerator.as_number (get r "side_length" (VNum 50)) = Ok 50%R).
Proof.
  intros [H|H].
  - apply text_record_drawable in H as (Hd & _ & _ & Hs).
    split; [exact Hd|]. intros H1 H2 H3. unfold get.
    now rewrite (Hs H1 H2 H3).
  - apply sketch_record_drawable in H as (Hd & Hs).
    split; [exact Hd|]. intros _ _ _. unfold get. now rewrite Hs.
Qed.

(** X20: every record that the text or the sketch pipeline returns is
    drawn at every precision: the modelspace is built without an
    exception, so [generate_from_shape_data] can fail only in
    [_save_dxf]. *)
Theorem pipeline_records_are_drawn now text contours hint p0 r nowd p :
  process_text now text hint = Ok r \/
  process_sketch now contours hint p0 = Ok r ->
  exists es,
    DXFGenerator.modelspace nowd r p = Ok es /\
    forall _save_dxf,
      DXFGenerator.generate_from_shape_data _save_dxf nowd r p =
      match _save_dxf es r with
      | Ok path => Ok path
      | Raise e => Raise (Exception ("DXF generation failed: " ++ exn_str e))
      end.
Proof.
  intros H. apply pipeline_record_drawable in H as [Hd _].
  destruct (drawable_modelspace nowd r p Hd) as (es & Hes).
  exists es. split; [exact Hes|]. intros save.
  unfold DXFGenerator.generate_from_shape_data. rewrite Hes. cbn [bind].
  now destruct (save es r).
Qed.

Lemma is_str_type_of (r : shape) t s :
  r !! "type" = Some (VStr t) -> type_of r <> s ->
  DXFGenerator.is_str (get r "type" (VStr "circle")) s = false.
Proof.
  intros Ht Hs. unfold type_of in Hs. unfold get. rewrite Ht in *.
  cbn [DXFGenerator.is_str]. now apply String.eqb_neq.
Qed.

(** X21: a record of the text or the sketch pipeline that is no circle,
    rectangle or triangle is drawn with the default side: every point of
    its outline lies at the distance 50 * (1 + (precision - 5) * 0.05) from
    the centre, whatever size was written or sketched. *)
Theorem pipeline_outline_radius now text contours hint p0 r nowd p es :
  process_text now text hint = Ok r \/
  process_sketch now contours hint p0 = Ok r ->
  type_of r <> "circle" -> type_of r <> "rectangle" ->
  type_of r <> "triangle" ->
  DXFGenerator.modelspace nowd r p = Ok es ->
  exists pts,
    outlines es = [pts] /\
    Forall (fun v => dist2 v (center_of r) =
                       (50 * drawing_scale p * (50 * drawing_scale p))%R)
           pts.
Proof.
  intros H H1 H2 H3 Hes.
  apply pipeline_record_drawable in H as [((t & Ht) & (x & y & Hc) & _) Hs].
  specialize (Hs H1 H2 H3).
  destruct (regular_outline_of nowd r p es Hes) as (side & c & pts & E1 & E2 & E3 & E4);
    try (eapply is_str_type_of; eassumption).
  rewrite Hs in E1. injection E1 as <-.
  unfold get in E2. rewrite Hc in E2. injection E2 as <-.
  exists pts. split; [exact E3|].
  unfold center_of. rewrite Hc. exact E4.
Qed.



(** ** Witnesses *)

(** The records of three texts. *)
Lemma a_hexagon_record :
  exists r,
    process_text "2026-01-01T00:00:00" "a hexagon" "Auto-detect" = Ok r /\
    type_of r = "hexagon".
Proof. eexists. split; reflexivity. Qed.

Lemma a_circle_record :
  exists r,
    process_text "2026-01-01T00:00:00" "a circle" "Auto-detect" = Ok r /\
    type_of r = "circle".
Proof. eexists. split; reflexivity. Qed.

Lemma custom_hint_record :
  exists r,
    process_text "2026-01-01T00:00:00" "hello world" "Custom" = Ok r.
Proof. eexists. reflexivity. Qed.

Lemma text_hexagon_side_is_default_witness :
  exists r,
    process_text "2026-01-01T00:00:00" "a hexagon" "Auto-detect" = Ok r /\
    num_field r "side_length" = Some 50%R /\
    num_field r "width" = Some 100%R /\
    num_field r "perimeter" = Some 300%R /\
    num_field r "area" = Some (3 * sqrt 3 * 50 * 50 / 2)%R.
Proof.
  destruct a_hexagon_record as (r & Hr & Ht).
  exists r. split; [exact Hr|].
  exact (text_hexagon_side_is_default _ _ _ r Hr Ht).
Defined.

Lemma text_circle_geometry_witness :
  exists r rho,
    process_text "2026-01-01T00:00:00" "a circle" "Auto-detect" = Ok r /\
    (0 <= rho)%R /\
    num_field r "radius" = Some rho /\
    num_field r "diameter" = Some (2 * rho)%R /\
    num_field r "area" = Some (PI * rho * rho)%R /\
    num_field r "perimeter" = Some (2 * PI * rho)%R.
Proof.
  destruct a_circle_record as (r & Hr & Ht).
  destruct (text_circle_geometry _ _ _ r Hr Ht) as (rho & H).
  exists r, rho. split; [exact Hr|exact H].
Defined.

Lemma text_confidence_formula_witness :
  exists r,
    process_text "2026-01-01T00:00:00" "a circle" "Auto-detect" = Ok r /\
    num_field r "confidence" = Some 95%R.
Proof.
  destruct a_circle_record as (r & Hr & _).
  exists r. split; [exact Hr|].
  exact (text_confidence_formula _ _ _ r Hr).
Defined.

Lemma text_unsupported_hint_witness :
  exists r,
    process_text "2026-01-01T00:00:00" "hello world" "Custom" = Ok r /\
    r !! "type" = Some (VStr "custom") /\
    r !! "vertices" = Some (VInt 4) /\
    num_field r "side_length" = Some 50%R /\
    num_field r "perimeter" = Some 400%R.
Proof.
  destruct custom_hint_record as (r & Hr).
  destruct (text_unsupported_hint "2026-01-01T00:00:00" "hello world"
              "Custom" r) as (Ht & Hv & Hs & Hp & _);
    [discriminate|cbn; intuition discriminate|exact Hr|].
  exists r. auto.
Defined.

Lemma hypothesis_fields_witness :
  exists s c name,
    In s (_detect_shapes [uneven_square] 7) /\
    In c [uneven_square] /\
    s !! "type" = Some (VStr name) /\
    s !! "area" = Some (VNum (contourArea c)) /\
    s !! "contour" = Some (VContour c).
Proof.
  destruct uneven_square_hypotheses as (s0 & Hs & _).
  assert (Hin : In (with_contour uneven_square s0)
                   (_detect_shapes [uneven_square] 7)).
  { rewrite Hs. now left. }
  destruct (hypothesis_fields _ _ _ Hin)
    as (c & name & Hc & _ & _ & Ht & _ & _ & Ha & _ & Hk & _).
  exists (with_contour uneven_square s0), c, name. auto.
Defined.

Lemma hypothesis_confidence_bounds_witness :
  exists s name x,
    In s (_detect_shapes [uneven_square] 7) /\
    s !! "type" = Some (VStr name) /\
    s !! "confidence" = Some (VNum x) /\
    (accepted_above name 7 * 100 <= x <= 100)%R.
Proof.
  destruct uneven_square_hypotheses as (s0 & Hs & _).
  assert (Hin : In (with_contour uneven_square s0)
                   (_detect_shapes [uneven_square] 7)).
  { rewrite Hs. now left. }
  destruct (hypothesis_confidence_bounds [uneven_square] 7
              (with_contour uneven_square s0) ltac:(lia) Hin)
    as (name & x & Ht & Hc & Hb & _).
  exists (with_contour uneven_square s0), name, x. auto.
Defined.

Lemma enhance_shape_data_fields_witness :
  exists r,
    _enhance_shape_data "2026-01-01T00:00:00" default_circle 7 = Ok r /\
    r !! "manufacturable" = Some (VBool true) /\
    r !! "scale_factor" = Some (VNum (1 + (IZR 7 - 5) * 0.1)).
Proof.
  eexists. split; [reflexivity|].
  destruct (enhance_shape_data_fields "2026-01-01T00:00:00" default_circle 7
              _ eq_refl) as (_ & Hm & _ & Hs & _).
  split; [exact Hm|exact Hs].
Defined.

Lemma drawn_outline_witness :
  exists es pts v,
    DXFGenerator.modelspace "2026-01-01 00:00:00" sketched_hexagon 7 = Ok es /\
    outlines es = [pts] /\
    In (DXFGenerator.LWPolyline pts DXFGenerator.closed) es /\
    head pts = Some v /\ last pts = Some v /\
    length pts = 7%nat.
Proof.
  eexists.
  destruct (drawn_outline "2026-01-01 00:00:00" sketched_hexagon 7 _ eq_refl)
    as (pts & v & H).
  exists pts, v. split; [reflexivity|exact H].
Defined.

Lemma regular_outline_witness :
  exists es pts,
    DXFGenerator.modelspace "2026-01-01 00:00:00" sketched_hexagon 7 = Ok es /\
    outlines es = [pts] /\
    Forall (fun v => dist2 v (60, 60)%R =
                       (50 * drawing_scale 7 * (50 * drawing_scale 7))%R) pts.
Proof.
  eexists.
  destruct (regular_outline "2026-01-01 00:00:00" sketched_hexagon 7 _
              eq_refl eq_refl eq_refl eq_refl)
    as (side & c & pts & [= <-] & [= <-] & Ho & Hf).
  exists pts. split; [reflexivity|]. split; [exact Ho|exact Hf].
Defined.

Lemma modelspace_frame_witness :
  DXFGenerator.modelspace "2026-01-01 00:00:00"
    (<["width" := VNum 300]> sketched_hexagon) 7 =
  DXFGenerator.modelspace "2026-01-01 00:00:00" sketched_hexagon 7.
Proof.
  apply (modelspace_frame "2026-01-01 00:00:00" sketched_hexagon 7 "width"
           (VNum 300)).
  vm_compute. intuition discriminate.
Defined.

Lemma pipeline_records_are_drawn_witness :
  exists r es,
    process_text "2026-01-01T00:00:00" "a circle" "Auto-detect" = Ok r /\
    DXFGenerator.modelspace "2026-01-01 00:00:00" r 7 = Ok es.
Proof.
  destruct a_circle_record as (r & Hr & _).
  destruct (pipeline_records_are_drawn _ _ [] _ 7 _ "2026-01-01 00:00:00" 7
              (or_introl Hr)) as (es & Hes & _).
  exists r, es. split; [exact Hr|exact Hes].
Defined.

Lemma pipeline_outline_radius_witness :
  exists r es pts,
    process_text "2026-01-01T00:00:00" "a hexagon" "Auto-detect" = Ok r /\
    DXFGenerator.modelspace "2026-01-01 00:00:00" r 7 = Ok es /\
    outlines es = [pts] /\
    Forall (fun v => dist2 v (center_of r) =
                       (50 * drawing_scale 7 * (50 * drawing_scale 7))%R) pts.
Proof.
  destruct a_hexagon_record as (r & Hr & Ht).
  destruct (pipeline_record_drawable _ _ [] _ 7 _ (or_introl Hr)) as [Hd _].
  destruct (drawable_modelspace "2026-01-01 00:00:00" _ 7 Hd) as (es & Hes).
  destruct (pipeline_outline_radius _ _ [] _ 7 _ "2026-01-01 00:00:00" 7 es
              (or_introl Hr))
    as (pts & Ho & Hf); try (rewrite Ht; discriminate); [exact Hes|].
  exists r, es, pts. split; [exact Hr|]. split; [exact Hes|].
  split; [exact Ho|exact Hf].
Defined.


